(** * py_BIS: the BIS credit-data services (parse, tabulate, pivot, transform, chart)

    A shallow embedding of the Python sources
      - [BIS.py], [main.py], [chart.py]: fetch, XML parsing, table and chart
        endpoints;
      - [plot.py]: the figure builder [plot_ts].

    Python values are modelled as the code has them: lists as [list],
    [None]-or-value as [option], exceptions as the [Raise] branch of
    [result], floats as IEEE binary64 ([PrimFloat.float], where a missing
    DataFrame cell is the float NaN as in pandas), strings as their UTF-8
    bytes.  Library calls ([xml.etree], [float], [requests], [pandas]) are
    modelled by their documented behaviour; what depends on the version of a
    library or on its data (the Unicode database, the pandas date parsers,
    the numpy line fit) is a parameter, see [Libraries]. *)

From Stdlib Require Import ZArith List String Ascii Bool Lia Floats DecimalString.
From Stdlib Require Import Sorting.Permutation Sorting.Sorted.
Import ListNotations.

Local Open Scope string_scope.
Local Open Scope list_scope.

(* ================================================================== *)
(** * Python runtime: exceptions and results *)
(* ================================================================== *)

(** The exceptions of [requests] that the sources name through their common
    base class [requests.exceptions.RequestException]. *)
Inductive RequestException : Type :=
| HTTPError (status_code : nat) (message : string)
| ConnectionError (message : string)
| Timeout (message : string).

(** [str(e)] of a requests exception. *)
Definition str_RequestException (e : RequestException) : string :=
  match e with
  | HTTPError _ m => m
  | ConnectionError m => m
  | Timeout m => m
  end.

Inductive exn : Type :=
| ValueError (message : string)
| TypeError (message : string)
| IndexError (message : string)
| ZeroDivisionError (message : string)
| ParseError (message : string)
| LinAlgError (message : string)
| Requests (e : RequestException)
| HTTPException (status_code : nat) (detail : string).

Inductive result (A : Type) : Type :=
| Ret (a : A)
| Raise (e : exn).
Arguments Ret {A} a.
Arguments Raise {A} e.

Definition bind {A B : Type} (m : result A) (k : A -> result B) : result B :=
  match m with
  | Ret a => k a
  | Raise e => Raise e
  end.

Declare Scope py_scope.
Delimit Scope py_scope with py.
Notation "x <- m ;; k" := (bind m (fun x => k))
  (at level 61, m at next level, right associativity) : py_scope.
Local Open Scope py_scope.

(** [try: body except requests.exceptions.RequestException as e: handler] *)
Definition try_except_RequestException {A : Type}
    (body : result A) (handler : RequestException -> result A) : result A :=
  match body with
  | Raise (Requests e) => handler e
  | other => other
  end.

Definition is_Ret {A : Type} (m : result A) : bool :=
  match m with Ret _ => true | Raise _ => false end.

(** Python truthiness of [str | None]: [None] and the empty string are false. *)
Definition truthy (v : option string) : bool :=
  match v with
  | None => false
  | Some s => negb (String.eqb s "")
  end.

(* ================================================================== *)
(** * xml.etree.ElementTree *)
(* ================================================================== *)

#[warnings="-register-all"]
Inductive Element : Type :=
| Elem (tag : string) (attrib : list (string * string)) (children : list Element).

Definition tag_of (e : Element) : string :=
  match e with Elem t _ _ => t end.
Definition attrib_of (e : Element) : list (string * string) :=
  match e with Elem _ a _ => a end.
Definition children_of (e : Element) : list Element :=
  match e with Elem _ _ c => c end.

(** [elem.get(key)]: the attribute or [None]. *)
Fixpoint lookup_attr (key : string) (a : list (string * string)) : option string :=
  match a with
  | [] => None
  | (k, v) :: rest => if String.eqb k key then Some v else lookup_attr key rest
  end.

Definition get (e : Element) (key : string) : option string :=
  lookup_attr key (attrib_of e).

(** [elem.get(key, default)] *)
Definition get_default (e : Element) (key default : string) : string :=
  match get e key with
  | Some v => v
  | None => default
  end.

(** [elem.iter()]: the element and all its descendants, in document order. *)
Fixpoint iter (e : Element) : list Element :=
  match e with
  | Elem _ _ cs =>
      e :: (fix iter_all (l : list Element) : list Element :=
              match l with
              | [] => []
              | c :: l' => iter c ++ iter_all l'
              end) cs
  end.

Definition has_tag (t : string) (e : Element) : bool := String.eqb (tag_of e) t.

(** [elem.findall('.//' + t)]: every descendant with tag [t], in document
    order; the path never selects the context element itself. *)
Definition findall_descendants (e : Element) (t : string) : list Element :=
  filter (has_tag t) (flat_map iter (children_of e)).

(** [elem.findall(t)]: the direct children with tag [t], in order. *)
Definition findall (e : Element) (t : string) : list Element :=
  filter (has_tag t) (children_of e).

(** The text handed to [ET.fromstring], seen through the only thing the
    sources do with it: either it is a well-formed document with a root
    element, or the XML parser rejects it. *)
Inductive xml_text : Type :=
| WellFormed (root : Element)
| Malformed (why : string).

Definition fromstring (x : xml_text) : result Element :=
  match x with
  | WellFormed root => Ret root
  | Malformed why => Raise (ParseError why)
  end.

(* ================================================================== *)
(** * Libraries outside the repository *)
(* ================================================================== *)

(** A [pd.Timestamp] (nanoseconds since the epoch) or [NaT]. *)
Inductive Timestamp : Type :=
| TS (t : Z)
| NaT.

(** The library entry points the sources call whose answer depends on the
    version of the library or on data that is not part of this repository.
    - [float_of_non_ascii s]: what [float(s)] returns for a string [s] with
      a character outside ASCII, [None] when it raises [ValueError].  CPython
      first maps every decimal digit and every space of its Unicode database
      to the ASCII one, so the outcome follows the interpreter's Unicode
      version;
    - [repr_of_non_ascii s]: [repr(s)] for such a string, which escapes the
      characters that the same database calls non-printable;
    - [Period_Q_to_timestamp label]: the start timestamp of the period that
      [pd.PeriodIndex(..., freq='Q').to_timestamp()] gives one label, or the
      exception it raises;
    - [to_datetime s]: [pd.to_datetime(s)];
    - [pct_change_pads]: whether [DataFrame.pct_change] called without
      [fill_method] forward-fills missing cells first (pandas up to 2.x:
      the documented default [fill_method='pad']) or not (pandas 3);
    - [polyfit1 x y]: [np.polyfit(x, y, 1)], slope then intercept, or the
      exception it raises (numpy raises [LinAlgError] when the least-squares
      solver does not converge, as on infinite values). *)
Class Libraries : Type := mkLibraries {
  float_of_non_ascii : string -> option float;
  repr_of_non_ascii : string -> string;
  Period_Q_to_timestamp : option string -> result Timestamp;
  to_datetime : string -> result Timestamp;
  pct_change_pads : bool;
  polyfit1 : list float -> list float -> result (float * float)
}.

(* ================================================================== *)
(** * The builtin [float(str)] *)
(* ================================================================== *)

(** CPython's [float(str)] (floatobject.c, [PyFloat_FromString]): a string
    of ASCII characters is taken as it is; underscores must each stand
    between two digits; blanks ([Py_ISSPACE]: tab, line feed, vertical tab,
    form feed, carriage return, space) are dropped at both ends; the rest
    must be, in full,
<<
   floatvalue  ::= [sign] (floatnumber | "inf" | "infinity" | "nan")
   floatnumber ::= number [exponent]
   number      ::= [digitpart] "." digitpart | digitpart ["."]
   digitpart   ::= digit (["_"] digit)*
   exponent    ::= ("e" | "E") [sign] digitpart
>>
    letters case-insensitive.  Anything else raises [ValueError].  The value
    is the binary64 float nearest to the decimal (ties to even).  A string
    with a character outside ASCII goes through the Unicode database first:
    [float_of_non_ascii]. *)

Definition is_space (c : ascii) : bool :=
  let n := nat_of_ascii c in
  ((9 <=? n) && (n <=? 13) || (n =? 32))%nat.

Definition digit_of (c : ascii) : option Z :=
  let n := nat_of_ascii c in
  if ((48 <=? n) && (n <=? 57))%nat then Some (Z.of_nat (n - 48)) else None.

Definition lower (c : ascii) : ascii :=
  let n := nat_of_ascii c in
  if ((65 <=? n) && (n <=? 90))%nat then ascii_of_nat (n + 32) else c.

Fixpoint lstrip (l : list ascii) : list ascii :=
  match l with
  | c :: l' => if is_space c then lstrip l' else l
  | [] => []
  end.

Definition strip (l : list ascii) : list ascii := rev (lstrip (rev (lstrip l))).

(** [digit (["_"] digit)*] after a first digit has been read: the digits
    read so far are accumulated in [acc] (value) and [n] (how many). *)
Fixpoint digits_tail (l : list ascii) (acc : Z) (n : Z) : Z * Z * list ascii :=
  match l with
  | c :: l' =>
      match digit_of c with
      | Some d => digits_tail l' (10 * acc + d)%Z (n + 1)%Z
      | None =>
          if Ascii.eqb c "_" then
            match l' with
            | c' :: l'' =>
                match digit_of c' with
                | Some d => digits_tail l'' (10 * acc + d)%Z (n + 1)%Z
                | None => (acc, n, l)
                end
            | [] => (acc, n, l)
            end
          else (acc, n, l)
      end
  | [] => (acc, n, l)
  end.

(** [digitpart], continuing the value [acc]; [None] when no digit starts here. *)
Definition digitpart (l : list ascii) (acc : Z) : option (Z * Z * list ascii) :=
  match l with
  | c :: l' =>
      match digit_of c with
      | Some d => Some (digits_tail l' (10 * acc + d)%Z 1%Z)
      | None => None
      end
  | [] => None
  end.

Definition read_sign (l : list ascii) : bool * list ascii :=
  match l with
  | c :: l' =>
      if Ascii.eqb c "-" then (true, l')
      else if Ascii.eqb c "+" then (false, l')
      else (false, l)
  | [] => (false, l)
  end.

(** [number]: the digits as one integer and the count of fraction digits. *)
Definition read_number (l : list ascii) : option (Z * Z * list ascii) :=
  match digitpart l 0%Z with
  | Some (m, _, rest) =>
      match rest with
      | c :: rest' =>
          if Ascii.eqb c "." then
            match digitpart rest' m with
            | Some (m', nfrac, rest'') => Some (m', nfrac, rest'')
            | None => Some (m, 0%Z, rest')
            end
          else Some (m, 0%Z, rest)
      | [] => Some (m, 0%Z, rest)
      end
  | None =>
      match l with
      | c :: l' =>
          if Ascii.eqb c "." then digitpart l' 0%Z else None
      | [] => None
      end
  end.

(** [[exponent]]: absent gives 0; ["e"] without digits is an error. *)
Definition read_exponent (l : list ascii) : option (Z * list ascii) :=
  match l with
  | c :: l' =>
      if Ascii.eqb (lower c) "e" then
        let (neg, l'') := read_sign l' in
        match digitpart l'' 0%Z with
        | Some (e, _, rest) => Some (if neg then (- e)%Z else e, rest)
        | None => None
        end
      else Some (0%Z, l)
  | [] => Some (0%Z, l)
  end.

(** The float nearest to [(-1)^neg * m * 10^e10]. *)
Definition float_of_decimal (neg : bool) (m e10 : Z) : float :=
  let sgn := if neg then (-1)%Z else 1%Z in
  if (0 <=? e10)%Z then
    SF2Prim (binary_normalize prec emax (sgn * (m * 10 ^ e10))%Z 0%Z neg)
  else
    let d := (10 ^ (- e10))%Z in
    let k := (Z.log2 d + 66)%Z in
    let num := (m * 2 ^ k)%Z in
    let sticky := if (num mod d =? 0)%Z then 0%Z else 1%Z in
    SF2Prim (binary_normalize prec emax
               (sgn * (2 * (num / d) + sticky))%Z (- (k + 1))%Z neg).

Definition lower_string (l : list ascii) : string :=
  string_of_list_ascii (map lower l).

(** [float(s)] for an ASCII string: the value, or [None] for [ValueError]. *)
Definition float_of_ascii (s : string) : option float :=
  let (neg, body) := read_sign (strip (list_ascii_of_string s)) in
  let word := lower_string body in
  if String.eqb word "inf" || String.eqb word "infinity" then
    Some (if neg then neg_infinity else infinity)
  else if String.eqb word "nan" then Some nan
  else
    match read_number body with
    | Some (m, nfrac, rest) =>
        match read_exponent rest with
        | Some (e, []) => Some (float_of_decimal neg m (e - nfrac)%Z)
        | _ => None
        end
    | None => None
    end.

(** [PyUnicode_IS_ASCII]: every character is below 128. *)
Definition is_ascii (s : string) : bool :=
  forallb (fun c => (nat_of_ascii c <? 128)%nat) (list_ascii_of_string s).

Definition hex_digit (n : nat) : ascii :=
  nth n (list_ascii_of_string "0123456789abcdef") "0"%char.

Definition double_quote : ascii := ascii_of_nat 34.
Definition backslash : ascii := ascii_of_nat 92.

(** One character of [repr(s)] between the quotes [quote]. *)
Definition repr_char (quote c : ascii) : list ascii :=
  let n := nat_of_ascii c in
  if Ascii.eqb c quote || Ascii.eqb c backslash then [backslash; c]
  else if (n =? 9)%nat then [backslash; "t"%char]
  else if (n =? 10)%nat then [backslash; "n"%char]
  else if (n =? 13)%nat then [backslash; "r"%char]
  else if ((n <? 32) || (n =? 127))%nat
  then [backslash; "x"%char; hex_digit (n / 16); hex_digit (n mod 16)]
  else [c].

(** [repr(s)] for an ASCII string: single quotes, unless the string has a
    single quote and no double quote. *)
Definition repr_ascii (s : string) : string :=
  let l := list_ascii_of_string s in
  let quote :=
    if existsb (Ascii.eqb "'"%char) l && negb (existsb (Ascii.eqb double_quote) l)
    then double_quote else "'"%char in
  string_of_list_ascii (quote :: flat_map (repr_char quote) l ++ [quote]).

(** [repr(s)] *)
Definition repr `{Libraries} (s : string) : string :=
  if is_ascii s then repr_ascii s else repr_of_non_ascii s.

Definition could_not_convert `{Libraries} (s : string) : exn :=
  ValueError ("could not convert string to float: " ++ repr s).

(** [float(s)] *)
Definition py_float `{Libraries} (s : string) : result float :=
  match (if is_ascii s then float_of_ascii s else float_of_non_ascii s) with
  | Some v => Ret v
  | None => Raise (could_not_convert s)
  end.

(** [float(x)] for [x : str | None] *)
Definition float_of `{Libraries} (v : option string) : result float :=
  match v with
  | Some s => py_float s
  | None => Raise (TypeError "float() argument must be a string or a real number, not 'NoneType'")
  end.

(* ================================================================== *)
(** * BIS XML parsing ([parse_bis_xml] of BIS.py, main.py, chart.py) *)
(* ================================================================== *)

(** The dict appended for each [Obs]: keys ['Date'], ['Value'], ['Country']. *)
Record Observation : Type := mkObservation {
  Date : option string;
  Value : option float;
  Country : string
}.

(** [float(obs.get('OBS_VALUE')) if obs.get('OBS_VALUE') else None] *)
Definition obs_value `{Libraries} (obs : Element) : result (option float) :=
  if truthy (get obs "OBS_VALUE")
  then v <- float_of (get obs "OBS_VALUE") ;; Ret (Some v)
  else Ret None.

(** The inner loop [for obs in series.findall('Obs'): data.append({...})],
    threading the list [data]. *)
Fixpoint obs_loop `{Libraries} (country_code : string) (obs_list : list Element)
    (data : list Observation) : result (list Observation) :=
  match obs_list with
  | [] => Ret data
  | obs :: rest =>
      v <- obs_value obs ;;
      obs_loop country_code rest
        (data ++ [mkObservation (get obs "TIME_PERIOD") v country_code])
  end.

(** The outer loop [for series in root.findall('.//Series')]. *)
Fixpoint series_loop `{Libraries} (series_list : list Element) (data : list Observation)
    : result (list Observation) :=
  match series_list with
  | [] => Ret data
  | series :: rest =>
      data' <- obs_loop (get_default series "BORROWERS_CTY" "Unknown")
                        (findall series "Obs") data ;;
      series_loop rest data'
  end.

Definition parse_bis_xml `{Libraries} (xml : xml_text) : result (list Observation) :=
  root <- fromstring xml ;;
  series_loop (findall_descendants root "Series") [].

(** [parse_bis_xml_df] (BIS.py) and [parse_bis_xml] of chart.py build the same
    list and wrap it in [pd.DataFrame(data)]; the frame is modelled by its
    list of records, and [df.empty] holds exactly when that list is empty. *)
Definition parse_bis_xml_df `{Libraries} (xml : xml_text) : result (list Observation) :=
  parse_bis_xml xml.

Definition df_empty {A : Type} (df : list A) : bool :=
  match df with [] => true | _ :: _ => false end.

(* ================================================================== *)
(** * Remote fetcher ([requests.get], [fetch_bis_data], [fetch_bis_data_simple]) *)
(* ================================================================== *)

Record Response : Type := mkResponse {
  status_code : nat;
  reason : string;
  text : xml_text
}.

(** What [requests.get(url, headers=...)] does for a URL: it returns a
    response, or raises a [RequestException] (connection failure, DNS
    failure, timeout). *)
Definition network : Type := string -> result Response.

Definition requests_get (net : network) (url : string) : result Response := net url.

Definition str_nat (n : nat) : string := NilZero.string_of_uint (Nat.to_uint n).

(** [response.raise_for_status()]: [HTTPError] for a 4xx or 5xx status. *)
Definition raise_for_status (url : string) (r : Response) : result unit :=
  let s := status_code r in
  if ((400 <=? s) && (s <? 500))%nat then
    Raise (Requests (HTTPError s
      (str_nat s ++ " Client Error: " ++ reason r ++ " for url: " ++ url)))
  else if ((500 <=? s) && (s <? 600))%nat then
    Raise (Requests (HTTPError s
      (str_nat s ++ " Server Error: " ++ reason r ++ " for url: " ++ url)))
  else Ret tt.

Definition data_url (context agency_id resource_id version key : string) : string :=
  "https://stats.bis.org/api/v2/data/" ++ context ++ "/" ++ agency_id ++ "/"
    ++ resource_id ++ "/" ++ version ++ "/" ++ key.

(** [fetch_bis_data] of main.py and BIS.py: the request, the status check and
    the parse sit inside [try ... except RequestException]. *)
Definition fetch_bis_data `{Libraries} (net : network)
    (context agency_id resource_id version key : string)
    : result (list Observation) :=
  try_except_RequestException
    (let url := data_url context agency_id resource_id version key in
     response <- requests_get net url ;;
     _ <- raise_for_status url response ;;
     parse_bis_xml (text response))
    (fun e => Raise (HTTPException 500
                       ("Error fetching BIS series: " ++ str_RequestException e))).

(** [fetch_bis_data_simple] of BIS.py, which is also [fetch_bis_data] of
    chart.py: no [try]. *)
Definition fetch_bis_data_simple (net : network) (resource_id key : string)
    : result xml_text :=
  let url := ("https://stats.bis.org/api/v2/data/dataflow/BIS/" ++ resource_id
               ++ "/+/" ++ key)%string in
  response <- requests_get net url ;;
  _ <- raise_for_status url response ;;
  Ret (text response).

(** ** The table endpoint *)

Record TableRow : Type := mkTableRow {
  table_Date : option string;
  table_Country : string;
  table_Value : option float
}.

(** [for row in data: table.append({...})]; every record carries the three
    keys, so the [KeyError] branch never runs. *)
Fixpoint table_loop (data : list Observation) (table : list TableRow) : list TableRow :=
  match data with
  | [] => table
  | row :: rest =>
      table_loop rest (table ++ [mkTableRow (Date row) (Country row) (Value row)])
  end.

Definition bis_credit_table `{Libraries} (net : network) (resource_id key : string)
    : result (list TableRow) :=
  data <- fetch_bis_data net "dataflow" "BIS" resource_id "+" key ;;
  Ret (table_loop data []).

(* ================================================================== *)
(** * pandas: timestamps, long frames, pivot, pct_change *)
(* ================================================================== *)

Definition ts_eqb (a b : Timestamp) : bool :=
  match a, b with
  | TS x, TS y => (x =? y)%Z
  | NaT, NaT => true
  | _, _ => false
  end.

(** The order pandas sorts by: ascending, [NaT] last. *)
Definition ts_leb (a b : Timestamp) : bool :=
  match a, b with
  | TS x, TS y => (x <=? y)%Z
  | _, NaT => true
  | NaT, TS _ => false
  end.

(** The element-wise comparison [date >= start]: false as soon as one side
    is [NaT]. *)
Definition ts_ge (date start : Timestamp) : bool :=
  match date, start with
  | TS x, TS y => (y <=? x)%Z
  | _, _ => false
  end.

(** A row of the long frame once ['Date'] holds timestamps.  A [None] in the
    ['Value'] column is NaN in the frame. *)
Record Row : Type := mkRow {
  row_Date : Timestamp;
  row_Value : float;
  row_Country : string
}.

Definition nan_of (v : option float) : float :=
  match v with
  | Some x => x
  | None => nan
  end.

(** [df.sort_values("Date")]: ascending by date, [NaT] last.  pandas does not
    promise an order among equal dates; the model keeps the original one. *)
Fixpoint insert_by_date (r : Row) (l : list Row) : list Row :=
  match l with
  | [] => [r]
  | x :: l' =>
      if ts_leb (row_Date r) (row_Date x) then r :: l
      else x :: insert_by_date r l'
  end.

Fixpoint sort_values (df : list Row) : list Row :=
  match df with
  | [] => []
  | r :: rest => insert_by_date r (sort_values rest)
  end.

(** [df[df['Date'] >= start]] *)
Definition filter_from (start : Timestamp) (df : list Row) : list Row :=
  filter (fun r => ts_ge (row_Date r) start) df.

(** ** Pivot *)

Section SortUnique.
Context {A : Type} (leb eqb : A -> A -> bool).

(** Insert into an ascending list without repeats. *)
Fixpoint insert_unique (a : A) (l : list A) : list A :=
  match l with
  | [] => [a]
  | x :: l' =>
      if eqb a x then l
      else if leb a x then a :: l
      else x :: insert_unique a l'
  end.

(** The distinct elements, ascending. *)
Fixpoint sort_unique (l : list A) : list A :=
  match l with
  | [] => []
  | a :: l' => insert_unique a (sort_unique l')
  end.

(** First position of [a]. *)
Fixpoint index_of (a : A) (l : list A) : option nat :=
  match l with
  | [] => None
  | x :: l' => if eqb a x then Some 0%nat else option_map S (index_of a l')
  end.
End SortUnique.

Definition key_eqb (k1 k2 : Timestamp * string) : bool :=
  ts_eqb (fst k1) (fst k2) && String.eqb (snd k1) (snd k2).

Definition row_key (r : Row) : Timestamp * string := (row_Date r, row_Country r).

(** Does some (index, column) pair occur in two rows? *)
Fixpoint has_duplicate_keys (df : list Row) : bool :=
  match df with
  | [] => false
  | r :: rest =>
      existsb (fun r' => key_eqb (row_key r) (row_key r')) rest
      || has_duplicate_keys rest
  end.

(** The value of the row at (date, country), NaN when there is none. *)
Definition lookup_value (df : list Row) (d : Timestamp) (c : string) : float :=
  match find (fun r => key_eqb (row_key r) (d, c)) df with
  | Some r => row_Value r
  | None => nan
  end.

(** The wide frame: [index] labels the rows, [columns] the columns,
    [values] is row-major. *)
Record PivotMatrix : Type := mkPivotMatrix {
  index : list Timestamp;
  columns : list string;
  values : list (list float)
}.

(** [df.pivot(index="Date", columns="Country", values="Value")]: pandas
    raises [ValueError] when an (index, column) pair occurs more than once;
    otherwise rows are the distinct dates ascending, columns the distinct
    countries ascending, and a pair without a row is NaN. *)
Definition pivot (df : list Row) : result PivotMatrix :=
  if has_duplicate_keys df then
    Raise (ValueError "Index contains duplicate entries, cannot reshape")
  else
    let idx := sort_unique ts_leb ts_eqb (map row_Date df) in
    let cols := sort_unique String.leb String.eqb (map row_Country df) in
    Ret (mkPivotMatrix idx cols
           (map (fun d => map (fun c => lookup_value df d c) cols) idx)).

(** [.sort_index()]: rows ascending by label, [NaT] last. *)
Fixpoint insert_by_label (r : Timestamp * list float) (l : list (Timestamp * list float))
    : list (Timestamp * list float) :=
  match l with
  | [] => [r]
  | x :: l' =>
      if ts_leb (fst r) (fst x) then r :: l
      else x :: insert_by_label r l'
  end.

Definition sort_index (m : PivotMatrix) : PivotMatrix :=
  let rows := fold_right insert_by_label [] (combine (index m) (values m)) in
  mkPivotMatrix (map fst rows) (columns m) (map snd rows).

(** [df.pivot(index="Date", columns="Country", values="Value").sort_index()] *)
Definition pivot_by_date (df : list Row) : result PivotMatrix :=
  m <- pivot df ;;
  Ret (sort_index m).

(** The cell at labels (d, c), [None] when a label is not in the frame. *)
Definition cell_at (m : PivotMatrix) (d : Timestamp) (c : string) : option float :=
  match index_of ts_eqb d (index m), index_of String.eqb c (columns m) with
  | Some i, Some j =>
      match nth_error (values m) i with
      | Some row => nth_error row j
      | None => None
      end
  | _, _ => None
  end.

(** The cell at positions (i, j): [df.iloc[i, j]]. *)
Definition iloc (m : PivotMatrix) (i j : nat) : option float :=
  match nth_error (values m) i with
  | Some row => nth_error row j
  | None => None
  end.

(** ** pct_change *)

Fixpoint map2 {A B C : Type} (f : A -> B -> C) (l1 : list A) (l2 : list B) : list C :=
  match l1, l2 with
  | a :: l1', b :: l2' => f a b :: map2 f l1' l2'
  | _, _ => []
  end.

(** [ffill()] down the rows: a NaN cell takes the last value above it. *)
Definition ffill_row (above cur : list float) : list float :=
  map2 (fun a c => if is_nan c then a else c) above cur.

Fixpoint ffill_below (above : list float) (rows : list (list float)) : list (list float) :=
  match rows with
  | [] => []
  | r :: rest => let r' := ffill_row above r in r' :: ffill_below r' rest
  end.

Definition ffill (rows : list (list float)) : list (list float) :=
  match rows with
  | [] => []
  | r :: rest => r :: ffill_below r rest
  end.

(** [shift(periods)]: every row moves down by [periods]; the top rows are
    NaN and the frame keeps its height. *)
Definition shift (periods ncols : nat) (rows : list (list float)) : list (list float) :=
  firstn (List.length rows) (repeat (repeat nan ncols) periods ++ rows).

(** [data / shifted - 1] *)
Definition ratio_minus_one (x s : float) : float := (x / s - 1)%float.

(** [pct_change(periods=periods)]:
    [data = self.ffill()] (when the library pads), then
    [data / data.shift(periods) - 1]. *)
Definition pct_change `{Libraries} (periods : nat) (m : PivotMatrix) : PivotMatrix :=
  let data := if pct_change_pads then ffill (values m) else values m in
  let shifted := shift periods (List.length (columns m)) data in
  mkPivotMatrix (index m) (columns m) (map2 (map2 ratio_minus_one) data shifted).

(* ================================================================== *)
(** * plot.py: the figure builder [plot_ts] *)
(* ================================================================== *)

Inductive trace_type : Type := go_Bar | go_Scatter | go_Violin.

Inductive x_data : Type :=
| x_index (labels : list Timestamp)
| x_values (xs : list float)
| x_names (names : list string)
| x_absent.

(** A trace with the arguments [plot_ts] chooses per column: its kind, data,
    drawing mode, legend name and colour ([marker.color], [line.color] or
    [line_color], whichever the trace kind takes). *)
Record Trace : Type := mkTrace {
  trace_kind : trace_type;
  trace_x : x_data;
  trace_y : list float;
  trace_mode : option string;
  trace_name : string;
  trace_color : string;
  trace_showlegend : option bool
}.

Record Layout : Type := mkLayout {
  source_annotation : string;
  title_annotation : string;
  xaxis_title : option string;
  yaxis_title : string;
  yaxis_tickformat : option string;
  font_color : string;
  axis_line_color : string;
  zeroline_color : string;
  template : string;
  paper_bgcolor : string;
  margin_l : nat;
  margin_r : nat;
  margin_t : nat;
  margin_b : nat
}.

Record Figure : Type := mkFigure {
  fig_data : list Trace;
  fig_layout : Layout
}.

(** [l[i]] on a Python list. *)
Definition getitem {A : Type} (l : list A) (i : nat) : result A :=
  match nth_error l i with
  | Some a => Ret a
  | None => Raise (IndexError "list index out of range")
  end.

(** [i % n] *)
Definition py_mod (i n : nat) : result nat :=
  if (n =? 0)%nat then Raise (ZeroDivisionError "integer modulo by zero")
  else Ret (i mod n)%nat.

(** The two statements that choose [colors] from [len(df.columns)]: an [if]
    for one column, then a separate [if/elif/else] chain whose [else] also
    takes the one-column case. *)
Definition select_colors (ncols : nat) : list string :=
  let colors := if (ncols =? 1)%nat then ["#f1c40f"] else [] in
  if (ncols =? 2)%nat then ["#f1c40f"; "#2ecc71"]
  else if (ncols =? 3)%nat then
    ["#f1c40f"; "#2ecc71"; "#9b59b6"; "#e74c3c"; "#bababa"]
  else if (ncols =? 4)%nat then
    ["#f1c40f"; "#2ecc71"; "#9b59b6"; "#e74c3c"; "#bababa"; "#0f3cf1"]
  else if (ncols =? 5)%nat then
    ["#f1c40f"; "#2ecc71"; "#9b59b6"; "#e74c3c"; "#bababa"; "#0f3cf1"; "#cc2e89"]
  else
    ["#f1c40f"; "#2ecc71"; "#9b59b6"; "#e74c3c"; "#bababa"; "#0f3cf1";
     "#cc2e89"; "#b69b59"; "#5974b6"; "#3cd7e7"; "#7d2eff"; "#adf10f";
     "#abecc7"].

(** [df.iloc[:, i]] *)
Definition column_values (m : PivotMatrix) (i : nat) : list float :=
  map (fun row => nth i row nan) (values m).

(** [str(df.columns[i])] *)
Definition column_name (m : PivotMatrix) (i : nat) : string :=
  nth i (columns m) "".

Definition dropna (l : list float) : list float :=
  filter (fun v => negb (is_nan v)) l.

(** [for i in range(len(df.columns)): fig.add_trace(go.Bar(...))] *)
Fixpoint bar_loop (df : PivotMatrix) (colors : list string) (range : list nat)
    (fig : list Trace) : result (list Trace) :=
  match range with
  | [] => Ret fig
  | i :: rest =>
      c <- getitem colors i ;;
      bar_loop df colors rest
        (fig ++ [mkTrace go_Bar (x_index (index df)) (column_values df i)
                   None (column_name df i) c None])
  end.

(** [for i in range(len(df.columns)): fig.add_trace(go.Scatter(...))] *)
Fixpoint line_loop (df : PivotMatrix) (colors : list string) (range : list nat)
    (fig : list Trace) : result (list Trace) :=
  match range with
  | [] => Ret fig
  | i :: rest =>
      c <- getitem colors i ;;
      line_loop df colors rest
        (fig ++ [mkTrace go_Scatter (x_index (index df)) (column_values df i)
                   None (column_name df i) c None])
  end.

(** [for i, col in enumerate(df.columns)]: a violin per column and a marker
    on its latest value. *)
Fixpoint distribution_loop (df : PivotMatrix) (colors : list string)
    (range : list nat) (fig : list Trace) : result (list Trace) :=
  match range with
  | [] => Ret fig
  | i :: rest =>
      let y := dropna (column_values df i) in
      k <- py_mod i (List.length colors) ;;
      c <- getitem colors k ;;
      let fig1 :=
        fig ++ [mkTrace go_Violin x_absent y None (column_name df i) c None] in
      let fig2 :=
        match y with
        | [] => fig1
        | _ :: _ =>
            fig1 ++ [mkTrace go_Scatter (x_names [column_name df i])
                       [last y nan] (Some "markers") "Latest" "red"
                       (Some (i =? 0)%nat)]
        end in
      distribution_loop df colors rest fig2
  end.

(** The rows of two columns where neither value is NaN. *)
Fixpoint both_present (xs ys : list float) : list (float * float) :=
  match xs, ys with
  | x :: xs', y :: ys' =>
      if negb (is_nan x) && negb (is_nan y) then (x, y) :: both_present xs' ys'
      else both_present xs' ys'
  | _, _ => []
  end.

(** [s.iloc[-12:]] *)
Definition last12 {A : Type} (l : list A) : list A :=
  skipn (List.length l - 12) l.

(** The regression line [coef[0] * x_all + coef[1]] as a trace. *)
Definition regression_line (x_all : list float) (coef : float * float) : Trace :=
  mkTrace go_Scatter (x_values x_all)
    (map (fun x => (fst coef * x + snd coef)%float) x_all)
    (Some "lines") "Regression" "#ec772a" None.

Definition regression_traces `{Libraries} (df : PivotMatrix)
    : result (list Trace * option string) :=
  if (2 <=? List.length (columns df))%nat then
    let pts := both_present (column_values df 0) (column_values df 1) in
    let x_all := map fst pts in
    let y_all := map snd pts in
    let scatter :=
      mkTrace go_Scatter (x_values x_all) y_all (Some "markers")
        (column_name df 0 ++ " vs " ++ column_name df 1 ++ " (All)")
        "#3b7484" None in
    fit <-
      (if (1 <? List.length x_all)%nat then
         coef <- polyfit1 x_all y_all ;;
         Ret [regression_line x_all coef]
       else Ret []) ;;
    let recent :=
      mkTrace go_Scatter (x_values (last12 x_all)) (last12 y_all)
        (Some "markers") "Latest 12" "red" (Some true) in
    Ret (scatter :: fit ++ [recent], Some (column_name df 0))
  else Ret ([], None).

(** ['pct' in chart.lower()] *)
Fixpoint starts_with (p s : list ascii) : bool :=
  match p, s with
  | [], _ => true
  | a :: p', b :: s' => Ascii.eqb a b && starts_with p' s'
  | _ :: _, [] => false
  end.

Fixpoint contains (p s : list ascii) : bool :=
  starts_with p s ||
  match s with
  | [] => false
  | _ :: s' => contains p s'
  end.

Definition is_percent_chart (chart : string) : bool :=
  String.eqb chart "percent_change" || String.eqb chart "pct"
  || String.eqb chart "Bar_PCT" || String.eqb chart "BAR_PCT_INFLATION"
  || contains (list_ascii_of_string "pct")
              (map lower (list_ascii_of_string chart)).

Definition default_source : string := "Source: BIS, HedgeAnalytics".
Definition default_margins : list nat := [50; 50; 70; 70]%nat.

Definition plot_ts `{Libraries} (df : PivotMatrix) (nome units chart source theme : string)
    (margins : list nat) : result Figure :=
  let ncols := List.length (columns df) in
  let colors := select_colors ncols in
  traces_xtitle <-
    (if String.eqb chart "Bar" || String.eqb chart "Bar_PCT" || String.eqb chart "bar"
     then t <- bar_loop df colors (seq 0 ncols) [] ;; Ret (t, None)
     else if String.eqb chart "regression" then regression_traces df
     else if String.eqb chart "distribution"
     then t <- distribution_loop df colors (seq 0 ncols) [] ;; Ret (t, None)
     else t <- line_loop df colors (seq 0 ncols) [] ;; Ret (t, None)) ;;
  let light := String.eqb theme "light" in
  let text_color := if light then "#0D1018" else "#FFFFFF" in
  let line_color := if light then "black" else "white" in
  let zero_line_color := if light then "#ededed" else "#333333" in
  let template_color := if light then "plotly_white" else "plotly_dark" in
  let paper_color := if light then "rgba(250,250,250)" else "rgba(30, 49, 66,1)" in
  let tickformat := if is_percent_chart chart then Some ",.2%" else None in
  l <- getitem margins 0 ;;
  r <- getitem margins 1 ;;
  t <- getitem margins 2 ;;
  b <- getitem margins 3 ;;
  Ret (mkFigure (fst traces_xtitle)
         (mkLayout source ("<b>" ++ nome ++ "<b>") (snd traces_xtitle) units
            tickformat text_color line_color zero_line_color template_color
            paper_color l r t b)).

(** The colours of the traces, in the order they were added. *)
Definition trace_colors (fig : Figure) : list string :=
  map trace_color (fig_data fig).

(* ================================================================== *)
(** * The chart endpoint ([bis_credit_chart] of chart.py and BIS.py) *)
(* ================================================================== *)

Inductive content : Type :=
| error_content (error : string)
| figure_content (fig : Figure).

Record JSONResponse : Type := mkJSONResponse {
  response_content : content;
  response_status : nat
}.

(** [str(e)] *)
Definition str_exn (e : exn) : string :=
  match e with
  | ValueError m => m
  | TypeError m => m
  | IndexError m => m
  | ZeroDivisionError m => m
  | ParseError m => m
  | LinAlgError m => m
  | Requests r => str_RequestException r
  | HTTPException s d => (str_nat s ++ ": " ++ d)%string
  end.

(** [df['Date'] = pd.PeriodIndex(df['Date'], freq='Q').to_timestamp()]: one
    bad label fails the whole column. *)
Fixpoint to_timestamps `{Libraries} (df : list Observation) : result (list Row) :=
  match df with
  | [] => Ret []
  | o :: rest =>
      t <- Period_Q_to_timestamp (Date o) ;;
      rows <- to_timestamps rest ;;
      Ret (mkRow t (nan_of (Value o)) (Country o) :: rows)
  end.

(** The block
<<
    if startdate:
        try:
            start = pd.to_datetime(startdate)
            df = df[df['Date'] >= start]
        except Exception as e:
            return JSONResponse(..., status_code=400)
>>
    giving the frame to continue with, or the response returned early. *)
Definition filter_startdate `{Libraries} (startdate : option string) (df : list Row)
    : list Row + JSONResponse :=
  match startdate with
  | Some s =>
      if truthy startdate then
        match (start <- to_datetime s ;; Ret (filter_from start df)) with
        | Ret df' => inl df'
        | Raise e =>
            inr (mkJSONResponse
                   (error_content ("Invalid startdate: " ++ str_exn e)) 400)
        end
      else inl df
  | None => inl df
  end.

(** The mode switch: the transformed frame and the units label. *)
Definition apply_mode `{Libraries} (mode units : string) (df_pivot : PivotMatrix)
    : PivotMatrix * string :=
  if String.eqb mode "yoy" then (pct_change 4 df_pivot, "YoY % change")
  else if String.eqb mode "qoq" then (pct_change 1 df_pivot, "QoQ % change")
  else (df_pivot, units).

(** The endpoint.  [plot_available] is false when the guarded import of
    [plot] at the top of BIS.py failed; chart.py imports it unguarded, so
    there it is always true. *)
Definition bis_credit_chart `{Libraries} (plot_available : bool) (net : network)
    (resource_id key units theme : string) (startdate : option string)
    (mode : string) : result JSONResponse :=
  xml_text <- fetch_bis_data_simple net resource_id key ;;
  df <- parse_bis_xml_df xml_text ;;
  if df_empty df then
    Ret (mkJSONResponse (error_content "No data returned from BIS.") 404)
  else
    df <- to_timestamps df ;;
    let df := sort_values df in
    match filter_startdate startdate df with
    | inr early => Ret early
    | inl df =>
        df_pivot <- pivot_by_date df ;;
        let (df_pivot, units) := apply_mode mode units df_pivot in
        if negb plot_available then
          Ret (mkJSONResponse
                 (error_content
                    "plot_ts or plotly not available. Please install plot.py and plotly.")
                 500)
        else
          fig <- plot_ts df_pivot "BIS Data" units "line" default_source theme
                   default_margins ;;
          Ret (mkJSONResponse (figure_content fig) 200)
    end.

(** What the HTTP client receives: the handler's response, the status and
    detail of an [HTTPException], or for any other exception the server's
    plain 500 page. *)
Inductive http_reply (A : Type) : Type :=
| Replied (status : nat) (body : A)
| Detail (status : nat) (detail : string)
| InternalServerError.
Arguments Replied {A} status body.
Arguments Detail {A} status detail.
Arguments InternalServerError {A}.

Definition serve_chart (r : result JSONResponse) : http_reply content :=
  match r with
  | Ret resp => Replied (response_status resp) (response_content resp)
  | Raise (HTTPException s d) => Detail s d
  | Raise _ => InternalServerError
  end.

(** A float that the server's JSON encoder accepts: it is called with
    [allow_nan=False] and raises [ValueError] on NaN and on the infinities. *)
Definition json_compliant (v : option float) : bool :=
  match v with
  | None => true
  | Some x => negb (is_nan x || is_infinity x)
  end.

(** The table endpoint returns a plain list, which the server encodes
    itself: a value the encoder refuses costs the client the whole answer. *)
Definition serve_table (r : result (list TableRow)) : http_reply (list TableRow) :=
  match r with
  | Ret table =>
      if forallb (fun row => json_compliant (table_Value row)) table
      then Replied 200 table
      else InternalServerError
  | Raise (HTTPException s d) => Detail s d
  | Raise _ => InternalServerError
  end.

(* ================================================================== *)
(** * Reference library instances *)
(* ================================================================== *)

(** Two instances of [Libraries] on which the pipeline runs: the Unicode
    database is that of CPython 3.11 (Unicode 14.0) for the digits and the
    spaces, the date parsers cover the labels of the BIS feed and ISO dates
    (pandas accepts more), the line fit is the textbook one.  The theorems
    below hold for every instance; these two serve to evaluate the model on
    concrete inputs. *)

(** The code points of a UTF-8 text; [None] when the bytes are not UTF-8. *)
Definition continuation (c : ascii) : option N :=
  let n := N_of_ascii c in
  if ((128 <=? n) && (n <? 192))%N then Some (n - 128)%N else None.

Fixpoint decode_utf8 (l : list ascii) : option (list N) :=
  match l with
  | [] => Some []
  | b0 :: l1 =>
      let n0 := N_of_ascii b0 in
      if (n0 <? 128)%N then option_map (cons n0) (decode_utf8 l1)
      else if ((194 <=? n0) && (n0 <? 224))%N then
        match l1 with
        | b1 :: l2 =>
            match continuation b1 with
            | Some n1 =>
                option_map (cons ((n0 - 192) * 64 + n1)%N) (decode_utf8 l2)
            | None => None
            end
        | [] => None
        end
      else if ((224 <=? n0) && (n0 <? 240))%N then
        match l1 with
        | b1 :: b2 :: l3 =>
            match continuation b1, continuation b2 with
            | Some n1, Some n2 =>
                let cp := ((n0 - 224) * 4096 + n1 * 64 + n2)%N in
                if ((2048 <=? cp) && negb ((55296 <=? cp) && (cp <? 57344)))%N
                then option_map (cons cp) (decode_utf8 l3)
                else None
            | _, _ => None
            end
        | _ => None
        end
      else if ((240 <=? n0) && (n0 <? 245))%N then
        match l1 with
        | b1 :: b2 :: b3 :: l4 =>
            match continuation b1, continuation b2, continuation b3 with
            | Some n1, Some n2, Some n3 =>
                let cp := ((n0 - 240) * 262144 + n1 * 4096 + n2 * 64 + n3)%N in
                if ((65536 <=? cp) && (cp <? 1114112))%N
                then option_map (cons cp) (decode_utf8 l4)
                else None
            | _, _, _ => None
            end
        | _ => None
        end
      else None
  end.

(** [Py_UNICODE_ISSPACE] above ASCII. *)
Definition unicode_spaces : list N :=
  [0x85; 0xa0; 0x1680; 0x2000; 0x2001; 0x2002; 0x2003; 0x2004; 0x2005; 0x2006;
   0x2007; 0x2008; 0x2009; 0x200a; 0x2028; 0x2029; 0x202f; 0x205f; 0x3000]%N.

(** The decimal digits above ASCII (category Nd of Unicode 14.0): the first
    code point of each run and its length; each run counts 0 to 9 in order,
    again and again. *)
Definition unicode_digit_runs : list (N * N) :=
  [(0x660, 10); (0x6f0, 10); (0x7c0, 10); (0x966, 10); (0x9e6, 10);
   (0xa66, 10); (0xae6, 10); (0xb66, 10); (0xbe6, 10); (0xc66, 10);
   (0xce6, 10); (0xd66, 10); (0xde6, 10); (0xe50, 10); (0xed0, 10);
   (0xf20, 10); (0x1040, 10); (0x1090, 10); (0x17e0, 10); (0x1810, 10);
   (0x1946, 10); (0x19d0, 10); (0x1a80, 10); (0x1a90, 10); (0x1b50, 10);
   (0x1bb0, 10); (0x1c40, 10); (0x1c50, 10); (0xa620, 10); (0xa8d0, 10);
   (0xa900, 10); (0xa9d0, 10); (0xa9f0, 10); (0xaa50, 10); (0xabf0, 10);
   (0xff10, 10); (0x104a0, 10); (0x10d30, 10); (0x11066, 10); (0x110f0, 10);
   (0x11136, 10); (0x111d0, 10); (0x112f0, 10); (0x11450, 10); (0x114d0, 10);
   (0x11650, 10); (0x116c0, 10); (0x11730, 10); (0x118e0, 10); (0x11950, 10);
   (0x11c50, 10); (0x11d50, 10); (0x11da0, 10); (0x16a60, 10); (0x16ac0, 10);
   (0x16b50, 10); (0x1d7ce, 50); (0x1e140, 10); (0x1e2f0, 10); (0x1e950, 10);
   (0x1fbf0, 10)]%N.

(** [Py_UNICODE_TODECIMAL] above ASCII. *)
Definition unicode_decimal (cp : N) : option N :=
  match find (fun run => (fst run <=? cp) && (cp <? fst run + snd run))%N
             unicode_digit_runs with
  | Some run => Some ((cp - fst run) mod 10)%N
  | None => None
  end.

(** [_PyUnicode_TransformDecimalAndSpaceToASCII]: characters below 127 stay,
    spaces become a blank, decimal digits their ASCII digit; the first other
    character becomes a question mark and ends the string. *)
Fixpoint transform_decimal_and_space (cps : list N) : list ascii :=
  match cps with
  | [] => []
  | cp :: rest =>
      if (cp <? 127)%N then ascii_of_N cp :: transform_decimal_and_space rest
      else if existsb (N.eqb cp) unicode_spaces
      then " "%char :: transform_decimal_and_space rest
      else
        match unicode_decimal cp with
        | Some d => ascii_of_N (48 + d) :: transform_decimal_and_space rest
        | None => ["?"%char]
        end
  end.

Definition cpython_float_of_non_ascii (s : string) : option float :=
  match decode_utf8 (list_ascii_of_string s) with
  | Some cps => float_of_ascii (string_of_list_ascii (transform_decimal_and_space cps))
  | None => None
  end.

(** [repr] of a string with characters outside ASCII, all of them taken as
    printable: they stay as they are, the ASCII ones are escaped as in
    [repr_ascii]. *)
Definition repr_keeping_non_ascii (s : string) : string := repr_ascii s.

(** Whether a float is infinite or NaN. *)
Definition not_finite (x : float) : bool := is_nan x || is_infinity x.

(** Days from 1970-01-01 to the civil date [y]-[m]-[d]. *)
Definition days_from_civil (y m d : Z) : Z :=
  let y' := if (m <=? 2)%Z then (y - 1)%Z else y in
  let era := (y' / 400)%Z in
  let yoe := (y' - era * 400)%Z in
  let mp := if (2 <? m)%Z then (m - 3)%Z else (m + 9)%Z in
  let doy := ((153 * mp + 2) / 5 + d - 1)%Z in
  let doe := (yoe * 365 + yoe / 4 - yoe / 100 + doy)%Z in
  (era * 146097 + doe - 719468)%Z.

Definition ns_per_day : Z := 86400000000000%Z.

Definition timestamp_of_date (y m d : Z) : Timestamp :=
  TS (days_from_civil y m d * ns_per_day).

(** Exactly [n] digits at the head of [l]. *)
Fixpoint read_digits (n : nat) (l : list ascii) (acc : Z) : option (Z * list ascii) :=
  match n with
  | O => Some (acc, l)
  | S n' =>
      match l with
      | c :: l' =>
          match digit_of c with
          | Some d => read_digits n' l' (10 * acc + d)%Z
          | None => None
          end
      | [] => None
      end
  end.

(** Quarter labels ["YYYY-Qn"] and ["YYYYQn"], as the BIS feed writes them;
    a missing label is [NaT]. *)
Definition quarter_label_to_timestamp (label : option string) : result Timestamp :=
  match label with
  | None => Ret NaT
  | Some s =>
      let bad := Raise (ValueError ("Unknown datetime string format, unable to parse: " ++ s)) in
      match read_digits 4 (list_ascii_of_string s) 0%Z with
      | Some (y, rest) =>
          let rest' := match rest with
                       | c :: r => if Ascii.eqb c "-" then r else rest
                       | [] => rest
                       end in
          match rest' with
          | [q; n] =>
              if Ascii.eqb (lower q) "q" then
                match digit_of n with
                | Some k =>
                    if ((1 <=? k) && (k <=? 4))%Z
                    then Ret (timestamp_of_date y (3 * (k - 1) + 1) 1)
                    else bad
                | None => bad
                end
              else bad
          | _ => bad
          end
      | None => bad
      end
  end.

Definition days_in_month (y m : Z) : Z :=
  if (m =? 2)%Z then
    if ((y mod 4 =? 0) && (negb (y mod 100 =? 0) || (y mod 400 =? 0)))%Z
    then 29%Z else 28%Z
  else if ((m =? 4) || (m =? 6) || (m =? 9) || (m =? 11))%Z then 30%Z
  else 31%Z.

(** ISO dates ["yyyy-mm-dd"], the format the endpoint documents. *)
Definition iso_date_to_timestamp (s : string) : result Timestamp :=
  let bad := Raise (ValueError ("Unknown datetime string format, unable to parse: " ++ s)) in
  match read_digits 4 (list_ascii_of_string s) 0%Z with
  | Some (y, c1 :: rest1) =>
      match read_digits 2 rest1 0%Z with
      | Some (m, c2 :: rest2) =>
          match read_digits 2 rest2 0%Z with
          | Some (d, []) =>
              if Ascii.eqb c1 "-" && Ascii.eqb c2 "-"
                 && ((1 <=? m) && (m <=? 12) && (1 <=? d) && (d <=? days_in_month y m))%Z
              then Ret (timestamp_of_date y m d)
              else bad
          | _ => bad
          end
      | _ => bad
      end
  | _ => bad
  end.

Fixpoint fsum (l : list float) : float :=
  match l with
  | [] => 0%float
  | x :: l' => (x + fsum l')%float
  end.

(** Least squares for a line by the normal equations; the solver gives up
    on an abscissa that is not finite. *)
Definition least_squares_line (xs ys : list float) : result (float * float) :=
  if existsb not_finite xs
  then Raise (LinAlgError "SVD did not converge in Linear Least Squares")
  else
    let n := fsum (map (fun _ => 1%float) xs) in
    let sx := fsum xs in
    let sy := fsum ys in
    let sxx := fsum (map (fun x => (x * x)%float) xs) in
    let sxy := fsum (map2 PrimFloat.mul xs ys) in
    let slope := ((n * sxy - sx * sy) / (n * sxx - sx * sx))%float in
    Ret (slope, ((sy - slope * sx) / n)%float).

(** pandas 2.x: [pct_change] forward-fills by default. *)
Definition pandas2 : Libraries :=
  mkLibraries cpython_float_of_non_ascii repr_keeping_non_ascii
    quarter_label_to_timestamp iso_date_to_timestamp true least_squares_line.

(** pandas 3: [pct_change] does not fill. *)
Definition pandas3 : Libraries :=
  mkLibraries cpython_float_of_non_ascii repr_keeping_non_ascii
    quarter_label_to_timestamp iso_date_to_timestamp false least_squares_line.


(* ================================================================== *)
(** * Vocabulary of the statements and sample inputs *)
(* ================================================================== *)

Section Ascending.
Context {A : Type} (leb : A -> A -> bool).

(** Ascending: each element is at most its successor. *)
Definition ascending (l : list A) : Prop := Sorted (fun a b => leb a b = true) l.

(** Strictly ascending: every element is below all later ones. *)
Definition strictly_ascending (l : list A) : Prop :=
  StronglySorted (fun a b => leb a b = true /\ a <> b) l.
End Ascending.

(** The [Obs] elements the two loops visit, in visiting order. *)
Definition visited_obs (root : Element) : list Element :=
  flat_map (fun series => findall series "Obs") (findall_descendants root "Series").

(** An [OBS_VALUE] the conversion accepts: absent, empty, or a string that
    [float] accepts. *)
Definition value_accepted `{Libraries} (obs : Element) : bool :=
  negb (truthy (get obs "OBS_VALUE")) || is_Ret (float_of (get obs "OBS_VALUE")).

(** The record the loop body appends for [obs] under [series]. *)
Definition record_for `{Libraries} (country_code : string) (obs : Element) : Observation :=
  mkObservation (get obs "TIME_PERIOD")
    (match obs_value obs with Ret v => v | Raise _ => None end)
    country_code.

Definition country_of (series : Element) : string :=
  get_default series "BORROWERS_CTY" "Unknown".

(** What the outer loop returns when every visited value is accepted: the
    records of each series in turn. *)
Definition records_of `{Libraries} (series_list : list Element) : list Observation :=
  flat_map (fun series => map (record_for (country_of series)) (findall series "Obs"))
           series_list.

Definition obs_elem (period value : string) : Element :=
  Elem "Obs" [("TIME_PERIOD", period); ("OBS_VALUE", value)] [].

(** A [DataSet] with two series of two observations each. *)
Definition two_by_two : Element :=
  Elem "DataSet" []
    [Elem "Series" [("BORROWERS_CTY", "US")]
       [obs_elem "2020-Q1" "100.5"; obs_elem "2020-Q2" "101"];
     Elem "Series" [("BORROWERS_CTY", "JP")]
       [obs_elem "2020-Q1" "7"; Elem "Obs" [("TIME_PERIOD", "2020-Q2")] []]].

(** A document whose root is itself the [Series] element. *)
Definition series_as_root : Element :=
  Elem "Series" [("BORROWERS_CTY", "US")] [obs_elem "2020-Q1" "100.5"].

(** One series, one observation, whose value is text. *)
Definition text_valued : Element :=
  Elem "DataSet" []
    [Elem "Series" [("BORROWERS_CTY", "US")] [obs_elem "2020-Q1" "n/a"]].

(** Every [Series] element of the document, the root included. *)
Definition all_series (root : Element) : list Element :=
  filter (has_tag "Series") (iter root).

(** The upstream answering 200 with a data set that holds no series. *)
Definition empty_upstream : network :=
  fun _ => Ret (mkResponse 200 "OK" (WellFormed (Elem "DataSet" [] []))).

(** The upstream unreachable: every request raises [e]. *)
Definition unreachable (e : RequestException) : network :=
  fun _ => Raise (Requests e).

(** The upstream answering 503. *)
Definition unavailable : network :=
  fun _ => Ret (mkResponse 503 "Service Unavailable" (Malformed "")).

(** Two positions of the frame holding the same (date, country) pair. *)
Definition duplicated_pair (df : list Row) : Prop :=
  exists i j r1 r2,
    (i < j)%nat /\ nth_error df i = Some r1 /\ nth_error df j = Some r2
    /\ row_Date r1 = row_Date r2 /\ row_Country r1 = row_Country r2.

Definition q1_2020 : Timestamp := timestamp_of_date 2020 1 1.
Definition q2_2020 : Timestamp := timestamp_of_date 2020 4 1.
Definition q3_2020 : Timestamp := timestamp_of_date 2020 7 1.

(** Two rows for (2020-Q1, US), the later one carrying 2. *)
Definition twice_us_q1 : list Row :=
  [mkRow q1_2020 1%float "US"; mkRow q1_2020 2%float "US"].

(** Two countries over two quarters, JP missing in the second. *)
Definition us_jp_frame : list Row :=
  [mkRow q2_2020 101%float "US"; mkRow q1_2020 100%float "US";
   mkRow q1_2020 7%float "JP"].

(** Every row has [c] cells. *)
Definition rows_of_width (c : nat) (rows : list (list float)) : Prop :=
  Forall (fun row => List.length row = c) rows.

(** A frame whose labels and cells agree in shape. *)
Definition rectangular (m : PivotMatrix) : Prop :=
  List.length (values m) = List.length (index m)
  /\ rows_of_width (List.length (columns m)) (values m).

(** The frame [pct_change] divides: forward-filled when the library pads. *)
Definition filled `{Libraries} (rows : list (list float)) : list (list float) :=
  if pct_change_pads then ffill rows else rows.

(** The frame in which every cell is NaN, under the labels of [m]. *)
Definition all_nan (m : PivotMatrix) : PivotMatrix :=
  mkPivotMatrix (index m) (columns m)
    (repeat (repeat nan (List.length (columns m))) (List.length (index m))).

(** One country over four quarters: Q1 to Q4 of 2020. *)
Definition four_quarters : PivotMatrix :=
  mkPivotMatrix
    [q1_2020; q2_2020; q3_2020; timestamp_of_date 2020 10 1]
    ["US"]
    [[100%float]; [102%float]; [104%float]; [103%float]].

(** US over three quarters, the value of the second one absent. *)
Definition gap_rows : list Row :=
  [mkRow q1_2020 1%float "US"; mkRow q2_2020 nan "US"; mkRow q3_2020 2%float "US"].

Definition gap_frame : PivotMatrix :=
  mkPivotMatrix [q1_2020; q2_2020; q3_2020] ["US"] [[1%float]; [nan]; [2%float]].

(** The traces drawn one per column (bars, lines, violins) are the ones
    added without a drawing mode; the marker overlays set one. *)
Definition is_column_trace (t : Trace) : bool :=
  match trace_mode t with
  | None => true
  | Some _ => false
  end.

Definition column_colors_of (traces : list Trace) : list string :=
  map trace_color (filter is_column_trace traces).

(** The colours of the per-column traces of a figure, in column order. *)
Definition column_colors (fig : Figure) : list string :=
  column_colors_of (fig_data fig).

(** The colours that the chart kind [chart] gives the columns of a frame
    with [ncols] columns: a function of the kind and of [ncols] alone. *)
Definition colors_by_position (chart : string) (ncols : nat) : list string :=
  let colors := select_colors ncols in
  if String.eqb chart "Bar" || String.eqb chart "Bar_PCT" || String.eqb chart "bar"
  then map (fun i => nth i colors "") (seq 0 ncols)
  else if String.eqb chart "regression" then []
  else if String.eqb chart "distribution"
  then map (fun i => nth (i mod List.length colors) colors "") (seq 0 ncols)
  else map (fun i => nth i colors "") (seq 0 ncols).

(** Three countries over two quarters. *)
Definition three_columns : PivotMatrix :=
  mkPivotMatrix [q1_2020; q2_2020] ["CN"; "JP"; "US"]
    [[1%float; 2%float; 3%float]; [4%float; nan; 6%float]].

(** The same countries, other data, one quarter. *)
Definition three_columns_again : PivotMatrix :=
  mkPivotMatrix [q3_2020] ["DE"; "FR"; "IT"] [[nan; 8%float; 9%float]].

Definition line_figure (df : PivotMatrix) (theme : string) : Figure :=
  match plot_ts (H := pandas2) df "BIS Data" "USD bn" "line" default_source theme
          default_margins with
  | Ret fig => fig
  | Raise _ => mkFigure [] (mkLayout "" "" None "" None "" "" "" "" "" 0 0 0 0)
  end.

(** Fourteen countries in one quarter. *)
Definition fourteen_columns : PivotMatrix :=
  mkPivotMatrix [q1_2020]
    ["AU"; "CA"; "CH"; "CN"; "DE"; "ES"; "FR"; "GB"; "IT"; "JP"; "KR"; "NL";
     "US"; "XM"]
    [[1%float; 2%float; 3%float; 4%float; 5%float; 6%float; 7%float; 8%float;
      9%float; 10%float; 11%float; 12%float; 13%float; 14%float]].

(** One country over five quarters, the series of the YoY example. *)
Definition five_quarters : PivotMatrix :=
  mkPivotMatrix
    [q1_2020; q2_2020; q3_2020; timestamp_of_date 2020 10 1;
     timestamp_of_date 2021 1 1]
    ["US"]
    [[100%float]; [102%float]; [104%float]; [103%float]; [110%float]].

(** A feed with two countries over two quarters, one value left out. *)
Definition sample_document : xml_text :=
  WellFormed
    (Elem "StructureSpecificData" []
       [Elem "Header" [] [];
        Elem "DataSet" []
          [Elem "Series" [("FREQ", "Q"); ("BORROWERS_CTY", "US")]
             [obs_elem "2020-Q1" "52036.5"; obs_elem "2020-Q2" "54494.25"];
           Elem "Series" [("FREQ", "Q"); ("BORROWERS_CTY", "JP")]
             [obs_elem "2020-Q2" "18880.125";
              Elem "Obs" [("TIME_PERIOD", "2020-Q1")] []]]]).

Definition sample_upstream : network :=
  fun _ => Ret (mkResponse 200 "OK" sample_document).

(** The table row made from one observation. *)
Definition table_row_of (row : Observation) : TableRow :=
  mkTableRow (Date row) (Country row) (Value row).

(** [isinstance(x, requests.exceptions.RequestException)] *)
Definition is_request_exception (x : exn) : bool :=
  match x with
  | Requests _ => true
  | _ => false
  end.

(** The status test of [raise_for_status]: only 4xx and 5xx raise. *)
Definition is_error_status (s : nat) : bool :=
  ((400 <=? s) && (s <? 600))%nat.

(** The trace the line loop adds for column [i]. *)
Definition line_trace (df : PivotMatrix) (colors : list string) (i : nat) : Trace :=
  mkTrace go_Scatter (x_index (index df)) (column_values df i) None
    (column_name df i) (nth i colors "") None.

(** The trace the bar loop adds for column [i]. *)
Definition bar_trace (df : PivotMatrix) (colors : list string) (i : nat) : Trace :=
  mkTrace go_Bar (x_index (index df)) (column_values df i) None
    (column_name df i) (nth i colors "") None.

(** The traces the distribution loop adds for column [i]: the violin of the
    present values and, when there is one, the marker on the latest. *)
Definition distribution_traces (df : PivotMatrix) (colors : list string) (i : nat)
    : list Trace :=
  let y := dropna (column_values df i) in
  mkTrace go_Violin x_absent y None (column_name df i)
    (nth (i mod List.length colors) colors "") None
  :: match y with
     | [] => []
     | _ :: _ =>
         [mkTrace go_Scatter (x_names [column_name df i]) [last y nan]
            (Some "markers") "Latest" "red" (Some (i =? 0)%nat)]
     end.

(** The branch of [plot_ts] a chart name selects. *)
Inductive chart_branch : Type :=
| bar_branch | regression_branch | distribution_branch | line_branch.

Definition branch_of (chart : string) : chart_branch :=
  if String.eqb chart "Bar" || String.eqb chart "Bar_PCT" || String.eqb chart "bar"
  then bar_branch
  else if String.eqb chart "regression" then regression_branch
  else if String.eqb chart "distribution" then distribution_branch
  else line_branch.

(** The rows the regression chart uses: those where the first two columns
    are both present. *)
Definition regression_points (df : PivotMatrix) : list (float * float) :=
  both_present (column_values df 0) (column_values df 1).

(** No value of the list is NaN. *)
Definition all_present (l : list float) : Prop :=
  Forall (fun v => is_nan v = false) l.

(** The x values of a trace when they are numbers. *)
Definition x_numbers (t : Trace) : list float :=
  match trace_x t with
  | x_values xs => xs
  | _ => []
  end.

(** The units label the mode leaves on the y axis. *)
Definition units_for (mode units : string) : string :=
  if String.eqb mode "yoy" then "YoY % change"
  else if String.eqb mode "qoq" then "QoQ % change"
  else units.

(** A feed in which the country US comes in two series (two sectors) for the
    same quarter. *)
Definition two_series_one_country : xml_text :=
  WellFormed
    (Elem "DataSet" []
       [Elem "Series" [("BORROWERS_CTY", "US"); ("TC_BORROWERS", "N")]
          [obs_elem "2020-Q1" "100"];
        Elem "Series" [("BORROWERS_CTY", "US"); ("TC_BORROWERS", "P")]
          [obs_elem "2020-Q1" "60"]]).

(** A feed whose only value is written [NaN], which [float] accepts. *)
Definition nan_valued : xml_text :=
  WellFormed
    (Elem "DataSet" []
       [Elem "Series" [("BORROWERS_CTY", "US")] [obs_elem "2020-Q1" "NaN"]]).

(** A feed whose only value is written in Arabic-Indic digits. *)
Definition arabic_indic_valued : xml_text :=
  WellFormed
    (Elem "DataSet" []
       [Elem "Series" [("BORROWERS_CTY", "EG")] [obs_elem "2020-Q1" "١٢٣"]]).

(** A frame with an infinite value in its first column. *)
Definition infinite_abscissa : PivotMatrix :=
  mkPivotMatrix [q1_2020; q2_2020; q3_2020] ["CN"; "JP"]
    [[1%float; 2%float]; [infinity; 3%float]; [4%float; 9%float]].

(* ================================================================== *)
(** * The widget registry ([register_widget], [WIDGETS], [get_widgets]) *)
(* ================================================================== *)

(** The values the widget configurations are made of. *)
#[warnings="-register-all"]
Inductive json : Type :=
| JStr (s : string)
| JInt (n : Z)
| JList (items : list json)
| JDict (entries : list (string * json)).

(** A Python [dict] as its entries in insertion order. *)
Section PyDict.
Context {K V : Type} (eqb : K -> K -> bool).

(** [d.get(k)] *)
Fixpoint dict_get (k : K) (d : list (K * V)) : option V :=
  match d with
  | [] => None
  | (k', v) :: d' => if eqb k k' then Some v else dict_get k d'
  end.

(** [d[k] = v]: an existing key keeps its place, a new one goes last. *)
Fixpoint dict_set (k : K) (v : V) (d : list (K * V)) : list (K * V) :=
  match d with
  | [] => [(k, v)]
  | (k', v') :: d' =>
      if eqb k k' then (k', v) :: d' else (k', v') :: dict_set k v d'
  end.

(** [k in d] *)
Definition dict_contains (k : K) (d : list (K * V)) : bool :=
  match dict_get k d with
  | Some _ => true
  | None => false
  end.
End PyDict.

(** A widget configuration: a dict with string keys. *)
Definition config : Type := list (string * json).

(** The values of this model that Python can hash, hence use as dict keys. *)
Inductive hashable : Type :=
| HStr (s : string)
| HInt (n : Z).

Definition hashable_eqb (a b : hashable) : bool :=
  match a, b with
  | HStr s, HStr t => String.eqb s t
  | HInt n, HInt m => (n =? m)%Z
  | _, _ => false
  end.

(** [hash(v)], as the dict assignment needs it. *)
Definition hash_key (v : json) : result hashable :=
  match v with
  | JStr s => Ret (HStr s)
  | JInt n => Ret (HInt n)
  | JList _ => Raise (TypeError "unhashable type: 'list'")
  | JDict _ => Raise (TypeError "unhashable type: 'dict'")
  end.

(** The module-level [WIDGETS]: endpoint to configuration. *)
Definition registry : Type := list (hashable * config).

(** Truthiness of what [widget_config.get("endpoint")] returns. *)
Definition json_truthy (v : option json) : bool :=
  match v with
  | None => false
  | Some (JStr s) => negb (String.eqb s "")
  | Some (JInt n) => negb (n =? 0)%Z
  | Some (JList items) => negb (df_empty items)
  | Some (JDict entries) => negb (df_empty entries)
  end.

(** The registration that [register_widget(widget_config)(func)] performs
    when the module is loaded: it returns the new [WIDGETS] and the
    configuration object, which it may have given an ["id"].  (The function
    it returns calls [func] with the same arguments and is not part of the
    registry.) *)
Definition register_widget (widget_config : config) (WIDGETS : registry)
    : result (registry * config) :=
  let endpoint := dict_get String.eqb "endpoint" widget_config in
  if json_truthy endpoint then
    match endpoint with
    | Some e =>
        let widget_config :=
          if negb (dict_contains String.eqb "id" widget_config)
          then dict_set String.eqb "id" e widget_config
          else widget_config in
        k <- hash_key e ;;
        Ret (dict_set hashable_eqb k widget_config WIDGETS, widget_config)
    | None => Ret (WIDGETS, widget_config)
    end
  else Ret (WIDGETS, widget_config).

(** A run of registrations, as a module with several decorated endpoints
    performs them in order. *)
Fixpoint register_all (configs : list config) (WIDGETS : registry) : result registry :=
  match configs with
  | [] => Ret WIDGETS
  | c :: rest =>
      r <- register_widget c WIDGETS ;;
      register_all rest (fst r)
  end.

Definition option_json (value label : string) : json :=
  JDict [("value", JStr value); ("label", JStr label)].

(** The configuration that BIS.py and main.py register for the table. *)
Definition table_widget : config :=
  [("name", JStr "BIS Credit Data Table");
   ("description", JStr "Tabular view of BIS credit data time series");
   ("type", JStr "table");
   ("endpoint", JStr "bis_credit_table");
   ("gridData", JDict [("w", JInt 20); ("h", JInt 13)]);
   ("params",
    JList
      [JDict [("paramName", JStr "resource_id"); ("type", JStr "text");
              ("default", JStr "WS_TC"); ("description", JStr "Resource ID");
              ("options",
               JList [option_json "WS_TC" "Total credit to non-financial sector"])];
       JDict [("paramName", JStr "key"); ("type", JStr "text");
              ("default", JStr ""); ("description", JStr "Key");
              ("options",
               JList [option_json "Q..N.A.M.USD.A" "All";
                      option_json "Q.AU.N.A.M.USD.A" "Australia";
                      option_json "Q.CA.N.A.M.USD.A" "Canada";
                      option_json "Q.CN.N.A.M.USD.A" "China";
                      option_json "Q.XM.N.A.M.USD.A" "EuroArea";
                      option_json "Q.FR.N.A.M.USD.A" "France";
                      option_json "Q.DE.N.A.M.USD.A" "Germany";
                      option_json "Q.IT.N.A.M.USD.A" "Italy";
                      option_json "Q.JP.N.A.M.USD.A" "Japan";
                      option_json "Q.ES.N.A.M.USD.A" "Spain";
                      option_json "Q.GB.N.A.M.USD.A" "United Kingdom";
                      option_json "Q.US.N.A.M.USD.A" "United States"])]])].

(** The [chart_widget] literal of [get_widgets] in BIS.py. *)
Definition chart_widget : config :=
  [("name", JStr "BIS Chart");
   ("description", JStr "Plotly chart of BIS credit data for multiple countries");
   ("type", JStr "chart");
   ("endpoint", JStr "bis_credit_chart");
   ("gridData", JDict [("w", JInt 20); ("h", JInt 13)]);
   ("params",
    JList
      [JDict [("paramName", JStr "resource_id"); ("type", JStr "text");
              ("default", JStr "WS_TC"); ("description", JStr "Resource ID")];
       JDict [("paramName", JStr "key"); ("type", JStr "text");
              ("default", JStr "Q.CN+XM+JP+US.N.A.M.USD.A");
              ("description",
               JStr "Key (e.g., Q.US.N.A.M.XDC.U or Q.US+ES.N.A.M.XDC.U for multiple countries)")];
       JDict [("paramName", JStr "units"); ("type", JStr "text");
              ("default", JStr "USD bn"); ("description", JStr "Units label")];
       JDict [("paramName", JStr "startdate"); ("type", JStr "date");
              ("default", JStr ""); ("description", JStr "Start date (yyyy-mm-dd)")];
       JDict [("paramName", JStr "mode"); ("type", JStr "text");
              ("default", JStr "total"); ("description", JStr "Display mode");
              ("options",
               JList [option_json "total" "Total Outstanding";
                      option_json "yoy" "Year-on-Year Change";
                      option_json "qoq" "Quarterly Change"])]])].

(** [get_widgets] of BIS.py: a copy of [WIDGETS] with the chart widget set
    under its endpoint. *)
Definition get_widgets (WIDGETS : registry) : registry :=
  let widgets := WIDGETS in
  dict_set hashable_eqb (HStr "bis_credit_chart") chart_widget widgets.

(** [get_widgets] of main.py: [WIDGETS] itself. *)
Definition get_widgets_main (WIDGETS : registry) : registry := WIDGETS.

(** Every entry is stored under the hash of its own ["endpoint"]. *)
Definition keyed_by_endpoint (W : registry) : Prop :=
  forall k c, In (k, c) W ->
    exists e, dict_get String.eqb "endpoint" c = Some e /\ hash_key e = Ret k.

(** Every entry carries an ["id"]. *)
Definition all_have_id (W : registry) : Prop :=
  forall k c, In (k, c) W -> dict_contains String.eqb "id" c = true.

(* ================================================================== *)
(** * Properties of the XML parser *)
(* ================================================================== *)

Lemma value_accepted_obs_value `{Libraries} (obs : Element) :
  value_accepted obs = true -> exists v, obs_value obs = Ret v.
Proof.
  unfold value_accepted, obs_value.
  destruct (truthy (get obs "OBS_VALUE")); simpl.
  - destruct (float_of (get obs "OBS_VALUE")); simpl; intros E;
      [eexists; reflexivity | discriminate].
  - intros _. eexists; reflexivity.
Qed.

Lemma py_float_raises_ValueError `{Libraries} (s : string) (e : exn) :
  py_float s = Raise e -> exists msg, e = ValueError msg.
Proof.
  unfold py_float, could_not_convert.
  destruct (if is_ascii s then float_of_ascii s else float_of_non_ascii s);
    intros E; inversion E; eauto.
Qed.

Lemma value_rejected_obs_value `{Libraries} (obs : Element) :
  value_accepted obs = false -> exists msg, obs_value obs = Raise (ValueError msg).
Proof.
  unfold value_accepted, obs_value, truthy.
  destruct (get obs "OBS_VALUE") as [s|]; simpl; [|discriminate].
  destruct (String.eqb s ""); simpl; [discriminate|].
  destruct (py_float s) eqn:E; simpl; [discriminate|].
  intros _. destruct (py_float_raises_ValueError _ _ E) as [msg ->].
  eexists; reflexivity.
Qed.

Lemma obs_loop_accepts `{Libraries} (country_code : string) (obs_list : list Element) :
  forall data,
    forallb value_accepted obs_list = true ->
    obs_loop country_code obs_list data
    = Ret (data ++ map (record_for country_code) obs_list).
Proof.
  induction obs_list as [|obs rest IH]; intros data Hall; simpl.
  - now rewrite app_nil_r.
  - simpl in Hall. apply andb_prop in Hall as [Hobs Hrest].
    unfold record_for at 1.
    destruct (value_accepted_obs_value _ Hobs) as [v ->]. simpl.
    rewrite (IH _ Hrest), <- app_assoc. reflexivity.
Qed.

Lemma obs_loop_rejects `{Libraries} (country_code : string) (obs_list : list Element) :
  forall data,
    forallb value_accepted obs_list = false ->
    exists msg, obs_loop country_code obs_list data = Raise (ValueError msg).
Proof.
  induction obs_list as [|obs rest IH]; intros data Hall; simpl in *.
  - discriminate.
  - destruct (value_accepted obs) eqn:Hobs; simpl in Hall.
    + destruct (value_accepted_obs_value _ Hobs) as [v ->]. simpl.
      apply IH, Hall.
    + destruct (value_rejected_obs_value _ Hobs) as [msg ->]. simpl.
      eexists; reflexivity.
Qed.

Lemma forallb_flat_map {A B : Type} (p : B -> bool) (f : A -> list B) (l : list A) :
  forallb p (flat_map f l) = forallb (fun a => forallb p (f a)) l.
Proof.
  induction l as [|a l IH]; simpl; [reflexivity|].
  now rewrite forallb_app, IH.
Qed.

Lemma series_loop_accepts `{Libraries} (series_list : list Element) :
  forall data,
    forallb (fun s => forallb value_accepted (findall s "Obs")) series_list = true ->
    series_loop series_list data = Ret (data ++ records_of series_list).
Proof.
  induction series_list as [|s rest IH]; intros data Hall; simpl.
  - now rewrite app_nil_r.
  - simpl in Hall. apply andb_prop in Hall as [Hs Hrest].
    rewrite (obs_loop_accepts _ _ _ Hs). simpl.
    rewrite (IH _ Hrest), <- app_assoc. reflexivity.
Qed.

Lemma series_loop_rejects `{Libraries} (series_list : list Element) :
  forall data,
    forallb (fun s => forallb value_accepted (findall s "Obs")) series_list = false ->
    exists msg, series_loop series_list data = Raise (ValueError msg).
Proof.
  induction series_list as [|s rest IH]; intros data Hall; simpl in *.
  - discriminate.
  - destruct (forallb value_accepted (findall s "Obs")) eqn:Hs; simpl in Hall.
    + rewrite (obs_loop_accepts _ _ _ Hs). simpl. apply IH, Hall.
    + destruct (obs_loop_rejects (get_default s "BORROWERS_CTY" "Unknown") _ data Hs)
        as [msg ->].
      simpl. eexists; reflexivity.
Qed.

Lemma parse_bis_xml_accepts `{Libraries} (root : Element) :
  forallb value_accepted (visited_obs root) = true ->
  parse_bis_xml (WellFormed root)
  = Ret (records_of (findall_descendants root "Series")).
Proof.
  intros Hall. unfold parse_bis_xml, visited_obs in *. simpl.
  rewrite forallb_flat_map in Hall.
  now rewrite (series_loop_accepts _ _ Hall).
Qed.

Lemma parse_bis_xml_rejects `{Libraries} (root : Element) :
  forallb value_accepted (visited_obs root) = false ->
  exists msg, parse_bis_xml (WellFormed root) = Raise (ValueError msg).
Proof.
  intros Hall. unfold parse_bis_xml, visited_obs in *. simpl.
  rewrite forallb_flat_map in Hall.
  apply series_loop_rejects, Hall.
Qed.

Lemma length_flat_map_uniform {A B : Type} (f : A -> list B) (M : nat) (l : list A) :
  (forall a, In a l -> List.length (f a) = M) ->
  List.length (flat_map f l) = (List.length l * M)%nat.
Proof.
  induction l as [|a l IH]; intros HM; simpl; [reflexivity|].
  rewrite length_app, HM by (now left).
  rewrite IH by (intros; apply HM; now right). reflexivity.
Qed.

Lemma nth_error_flat_map_uniform {A B : Type} (f : A -> list B) (M : nat) (l : list A) :
  (forall a, In a l -> List.length (f a) = M) ->
  forall i j a b,
    nth_error l i = Some a -> nth_error (f a) j = Some b ->
    nth_error (flat_map f l) (i * M + j) = Some b.
Proof.
  induction l as [|x l IH]; intros HM i j a b Hi Hj.
  - destruct i; discriminate.
  - destruct i as [|i]; simpl in *.
    + inversion Hi; subst x. rewrite nth_error_app1; [assumption|].
      apply nth_error_Some. congruence.
    + assert (Hx : List.length (f x) = M) by (apply HM; now left).
      rewrite nth_error_app2 by lia.
      replace (M + i * M + j - List.length (f x))%nat with (i * M + j)%nat by lia.
      eapply IH; eauto.
Qed.

Lemma nth_error_flat_map_position {A B : Type} (f : A -> list B) (l : list A) :
  forall k b,
    nth_error (flat_map f l) k = Some b -> exists a, In a l /\ In b (f a).
Proof.
  intros k b Hk. apply nth_error_In, in_flat_map in Hk. exact Hk.
Qed.

Lemma record_for_fields `{Libraries} (country_code : string) (obs : Element) :
  value_accepted obs = true ->
  Date (record_for country_code obs) = get obs "TIME_PERIOD"
  /\ Country (record_for country_code obs) = country_code
  /\ obs_value obs = Ret (Value (record_for country_code obs)).
Proof.
  intros Hacc. unfold record_for; simpl.
  destruct (value_accepted_obs_value _ Hacc) as [v ->]. auto.
Qed.

(** C8 (amended).  For a well-formed document with K [Series] elements below
    its root, each with M child [Obs] elements, all of whose [OBS_VALUE]
    attributes are absent, empty or float literals, the parser returns exactly
    K*M records in document order: the record of the j-th [Obs] of the i-th
    [Series] sits at position i*M + j, nothing is merged or reordered. *)
Theorem parse_returns_K_times_M_in_document_order `{Libraries}
    (root : Element) (K M : nat) :
  List.length (findall_descendants root "Series") = K ->
  (forall series, In series (findall_descendants root "Series") ->
     List.length (findall series "Obs") = M) ->
  forallb value_accepted (visited_obs root) = true ->
  exists data,
    parse_bis_xml (WellFormed root) = Ret data
    /\ List.length data = (K * M)%nat
    /\ forall i j series obs,
         nth_error (findall_descendants root "Series") i = Some series ->
         nth_error (findall series "Obs") j = Some obs ->
         exists r,
           nth_error data (i * M + j) = Some r
           /\ Date r = get obs "TIME_PERIOD"
           /\ Country r = country_of series
           /\ obs_value obs = Ret (Value r).
Proof.
  intros HK HM Hacc.
  exists (records_of (findall_descendants root "Series")).
  split; [now apply parse_bis_xml_accepts|].
  assert (HM' : forall s, In s (findall_descendants root "Series") ->
                  List.length (map (record_for (country_of s)) (findall s "Obs")) = M).
  { intros s Hs. rewrite length_map. now apply HM. }
  split.
  - unfold records_of. rewrite (length_flat_map_uniform _ M _ HM'). now rewrite HK.
  - intros i j series obs Hi Hj.
    exists (record_for (country_of series) obs).
    split.
    + unfold records_of.
      apply (nth_error_flat_map_uniform _ M _ HM' i j series); [assumption|].
      now rewrite nth_error_map, Hj.
    + apply record_for_fields.
      unfold visited_obs in Hacc. rewrite forallb_forall in Hacc.
      apply Hacc, in_flat_map. exists series.
      split; eapply nth_error_In; eassumption.
Qed.

Lemma parse_returns_K_times_M_witness :
  exists data,
    parse_bis_xml (H := pandas2) (WellFormed two_by_two) = Ret data
    /\ List.length data = (2 * 2)%nat
    /\ forall i j series obs,
         nth_error (findall_descendants two_by_two "Series") i = Some series ->
         nth_error (findall series "Obs") j = Some obs ->
         exists r,
           nth_error data (i * 2 + j) = Some r
           /\ Date r = get obs "TIME_PERIOD"
           /\ Country r = country_of series
           /\ obs_value (H := pandas2) obs = Ret (Value r).
Proof.
  apply (parse_returns_K_times_M_in_document_order two_by_two 2 2).
  - reflexivity.
  - intros series [<-|[<-|[]]]; reflexivity.
  - vm_compute. reflexivity.
Defined.

(** C8 (counterexample).  Two well-formed documents with K = 1 [Series]
    element holding M = 1 [Obs] for which the parser does not return one
    record: with the [Series] as the document root it returns none, and with
    a value that is not a float literal it raises. *)
Lemma parse_count_counterexample :
  (List.length (all_series series_as_root) = 1%nat
   /\ (forall s, In s (all_series series_as_root) -> List.length (findall s "Obs") = 1%nat)
   /\ parse_bis_xml (H := pandas2) (WellFormed series_as_root) = Ret [])
  /\ (List.length (all_series text_valued) = 1%nat
      /\ (forall s, In s (all_series text_valued) -> List.length (findall s "Obs") = 1%nat)
      /\ parse_bis_xml (H := pandas2) (WellFormed text_valued)
         = Raise (ValueError "could not convert string to float: 'n/a'")).
Proof.
  repeat split; try (intros s [<-|[]]); reflexivity.
Qed.

Lemma nth_error_flat_map_map {A B C : Type} (f : A -> list B) (g : A -> B -> C)
    (l : list A) :
  forall k b,
    nth_error (flat_map f l) k = Some b ->
    exists a, In a l /\ nth_error (flat_map (fun a => map (g a) (f a)) l) k = Some (g a b).
Proof.
  induction l as [|x l IH]; intros k b Hk; simpl in *.
  - destruct k; discriminate.
  - destruct (Nat.lt_ge_cases k (List.length (f x))) as [Hlt|Hge].
    + rewrite nth_error_app1 in Hk by assumption.
      exists x. split; [now left|].
      rewrite nth_error_app1 by now rewrite length_map.
      now rewrite nth_error_map, Hk.
    + rewrite nth_error_app2 in Hk by assumption.
      destruct (IH _ _ Hk) as (a & Ha & Hnth).
      exists a. split; [now right|].
      rewrite nth_error_app2 by now rewrite length_map.
      now rewrite length_map.
Qed.

Lemma length_flat_map_map {A B C : Type} (f : A -> list B) (g : A -> B -> C)
    (l : list A) :
  List.length (flat_map (fun a => map (g a) (f a)) l) = List.length (flat_map f l).
Proof.
  induction l as [|x l IH]; simpl; [reflexivity|].
  now rewrite !length_app, length_map, IH.
Qed.

Lemma missing_value_is_None `{Libraries} (country_code : string) (obs : Element) :
  truthy (get obs "OBS_VALUE") = false ->
  Value (record_for country_code obs) = None.
Proof.
  intros Hf. unfold record_for, obs_value. simpl. now rewrite Hf.
Qed.

(** C2 (amended).  In a well-formed document, an [Obs] (child of a [Series]
    below the root) whose [OBS_VALUE] is absent or empty yields a record
    whose value is [None], and the parse succeeds as long as every other
    [OBS_VALUE] is absent, empty or a string that [float] accepts.  As soon
    as one visited [OBS_VALUE] is non-empty and refused by [float], [float]
    raises [ValueError] and the whole parse fails.  What [float] accepts is
    fixed by CPython's grammar for ASCII text and by the interpreter's
    Unicode database beyond it; the statement holds whatever that database
    is. *)
Theorem missing_value_parses_to_None `{Libraries} (root : Element) :
  (forallb value_accepted (visited_obs root) = true ->
   exists data,
     parse_bis_xml (WellFormed root) = Ret data
     /\ List.length data = List.length (visited_obs root)
     /\ forall k obs,
          nth_error (visited_obs root) k = Some obs ->
          truthy (get obs "OBS_VALUE") = false ->
          exists r, nth_error data k = Some r /\ Value r = None)
  /\ (forallb value_accepted (visited_obs root) = false ->
      exists msg, parse_bis_xml (WellFormed root) = Raise (ValueError msg)).
Proof.
  split; intros Hacc.
  - exists (records_of (findall_descendants root "Series")).
    split; [now apply parse_bis_xml_accepts|].
    split.
    + unfold records_of, visited_obs.
      apply (length_flat_map_map (fun s => findall s "Obs")
               (fun s => record_for (country_of s))).
    + intros k obs Hk Hmissing.
      destruct (nth_error_flat_map_map (fun s => findall s "Obs")
                  (fun s => record_for (country_of s)) _ _ _ Hk) as (s & _ & Hr).
      exists (record_for (country_of s) obs).
      split; [exact Hr | now apply missing_value_is_None].
  - now apply parse_bis_xml_rejects.
Qed.

Lemma missing_value_parses_to_None_witness :
  exists data,
    parse_bis_xml (H := pandas2) (WellFormed two_by_two) = Ret data
    /\ List.length data = List.length (visited_obs two_by_two)
    /\ forall k obs,
         nth_error (visited_obs two_by_two) k = Some obs ->
         truthy (get obs "OBS_VALUE") = false ->
         exists r, nth_error data k = Some r /\ Value r = None.
Proof.
  apply (proj1 (missing_value_parses_to_None two_by_two)).
  vm_compute. reflexivity.
Defined.

(** C2 (counterexample).  A well-formed document whose only [Obs] carries
    the non-numeric value ["n/a"]: no record with a null value comes out,
    the parser raises. *)
Lemma non_numeric_value_fails_the_parse :
  visited_obs text_valued = [obs_elem "2020-Q1" "n/a"]
  /\ py_float (H := pandas2) "n/a" = Raise (ValueError "could not convert string to float: 'n/a'")
  /\ ~ exists data, parse_bis_xml (H := pandas2) (WellFormed text_valued) = Ret data.
Proof.
  repeat split. intros [data H]. vm_compute in H. discriminate.
Qed.

(* ================================================================== *)
(** * Properties of the fetcher and of the endpoints' early exits *)
(* ================================================================== *)

(** C5.  When the fetch succeeds and the parsed observation set is empty, the
    chart endpoint returns the 404 response with the error body, whatever
    the start date (even an unparsable one), the mode, the units, the theme,
    the availability of the plotting module and the behaviour of the date
    and charting libraries: nothing after the emptiness test has a say, and
    the client never sees a 200. *)
Theorem empty_observation_set_is_404 `{Libraries}
    (plot_available : bool) (net : network)
    (resource_id key units theme : string) (startdate : option string)
    (mode : string) (xml : xml_text) :
  fetch_bis_data_simple net resource_id key = Ret xml ->
  parse_bis_xml_df xml = Ret [] ->
  bis_credit_chart plot_available net resource_id key units theme startdate mode
  = Ret (mkJSONResponse (error_content "No data returned from BIS.") 404)
  /\ serve_chart
       (bis_credit_chart plot_available net resource_id key units theme startdate mode)
     = Replied 404 (error_content "No data returned from BIS.").
Proof.
  intros Hfetch Hparse.
  assert (E : bis_credit_chart plot_available net resource_id key units theme
                startdate mode
              = Ret (mkJSONResponse (error_content "No data returned from BIS.") 404)).
  { unfold bis_credit_chart. rewrite Hfetch. simpl. rewrite Hparse. reflexivity. }
  rewrite E. split; reflexivity.
Qed.

Lemma empty_observation_set_is_404_witness :
  bis_credit_chart (H := pandas2) true empty_upstream "WS_TC" "Q.US.N.A.M.USD.A"
    "USD bn" "light" (Some "not a date") "yoy"
  = Ret (mkJSONResponse (error_content "No data returned from BIS.") 404)
  /\ serve_chart
       (bis_credit_chart (H := pandas2) true empty_upstream "WS_TC" "Q.US.N.A.M.USD.A"
          "USD bn" "light" (Some "not a date") "yoy")
     = Replied 404 (error_content "No data returned from BIS.").
Proof.
  apply (empty_observation_set_is_404 (H := pandas2) true empty_upstream
           "WS_TC" "Q.US.N.A.M.USD.A" "USD bn" "light" (Some "not a date") "yoy"
           (WellFormed (Elem "DataSet" [] []))); reflexivity.
Defined.

(** A transport failure, as [fetch_bis_data] sees it inside its [try]: the
    request raises, or the status check does. *)
Lemma fetch_bis_data_wraps_request_failure `{Libraries} (net : network)
    (context agency_id resource_id version key : string) (e : RequestException) :
  requests_get net (data_url context agency_id resource_id version key)
  = Raise (Requests e) ->
  fetch_bis_data net context agency_id resource_id version key
  = Raise (HTTPException 500 ("Error fetching BIS series: " ++ str_RequestException e)).
Proof.
  intros Hget. unfold fetch_bis_data. rewrite Hget. reflexivity.
Qed.

Lemma raise_for_status_error (url : string) (r : Response) :
  (400 <= status_code r < 600)%nat ->
  exists msg, raise_for_status url r = Raise (Requests (HTTPError (status_code r) msg)).
Proof.
  intros [Hlo Hhi]. unfold raise_for_status.
  destruct ((400 <=? status_code r) && (status_code r <? 500))%nat eqn:E4.
  - eexists; reflexivity.
  - assert (E5 : ((500 <=? status_code r) && (status_code r <? 600))%nat = true).
    { apply andb_false_iff in E4 as [E|E].
      - apply Nat.leb_gt in E. lia.
      - apply Nat.ltb_ge in E. apply andb_true_iff.
        split; [apply Nat.leb_le | apply Nat.ltb_lt]; lia. }
    rewrite E5. eexists; reflexivity.
Qed.

Lemma fetch_bis_data_wraps_error_status `{Libraries} (net : network)
    (context agency_id resource_id version key : string) (r : Response) :
  requests_get net (data_url context agency_id resource_id version key) = Ret r ->
  (400 <= status_code r < 600)%nat ->
  exists msg,
    fetch_bis_data net context agency_id resource_id version key
    = Raise (HTTPException 500 ("Error fetching BIS series: " ++ msg)).
Proof.
  intros Hget Hstatus. unfold fetch_bis_data. rewrite Hget. simpl.
  destruct (raise_for_status_error
              (data_url context agency_id resource_id version key) r Hstatus)
    as [msg ->].
  exists msg. reflexivity.
Qed.

(** C6 (the chart path at a transport failure).  On the table path the
    failure comes out of [fetch_bis_data] as [HTTPException(500)] with the
    upstream message in its detail.  On the chart path [fetch_bis_data_simple]
    lets the [requests] exception through, the endpoint does not catch it,
    and the client gets the server's bare 500 page with no upstream detail. *)
Theorem chart_fetch_leaks_transport_exception `{Libraries}
    (e : RequestException) (plot_available : bool)
    (resource_id key units theme mode : string) (startdate : option string) :
  fetch_bis_data (unreachable e) "dataflow" "BIS" resource_id "+" key
  = Raise (HTTPException 500 ("Error fetching BIS series: " ++ str_RequestException e))
  /\ fetch_bis_data_simple (unreachable e) resource_id key = Raise (Requests e)
  /\ bis_credit_chart plot_available (unreachable e) resource_id key units theme
       startdate mode
     = Raise (Requests e)
  /\ serve_chart
       (bis_credit_chart plot_available (unreachable e) resource_id key units theme
          startdate mode)
     = InternalServerError
  /\ fetch_bis_data_simple unavailable "WS_TC" "Q.US.N.A.M.USD.A"
     = Raise (Requests (HTTPError 503
         "503 Server Error: Service Unavailable for url: https://stats.bis.org/api/v2/data/dataflow/BIS/WS_TC/+/Q.US.N.A.M.USD.A"))
  /\ serve_table (bis_credit_table unavailable "WS_TC" "Q.US.N.A.M.USD.A")
     = Detail 500
         "Error fetching BIS series: 503 Server Error: Service Unavailable for url: https://stats.bis.org/api/v2/data/dataflow/BIS/WS_TC/+/Q.US.N.A.M.USD.A".
Proof.
  repeat split; reflexivity.
Qed.

(* ================================================================== *)
(** * Properties of the pivot *)
(* ================================================================== *)

Lemma ts_eqb_eq (a b : Timestamp) : ts_eqb a b = true <-> a = b.
Proof.
  destruct a as [x|], b as [y|]; simpl; split; intros E;
    try discriminate; try reflexivity.
  - apply Z.eqb_eq in E. now subst.
  - inversion E. apply Z.eqb_refl.
Qed.

Lemma key_eqb_eq (k1 k2 : Timestamp * string) : key_eqb k1 k2 = true <-> k1 = k2.
Proof.
  destruct k1 as [d1 c1], k2 as [d2 c2]. unfold key_eqb; simpl.
  rewrite andb_true_iff, ts_eqb_eq, String.eqb_eq.
  split; [intros [-> ->]; reflexivity | intros E; inversion E; auto].
Qed.

Lemma ts_leb_total (a b : Timestamp) : ts_leb a b = false -> ts_leb b a = true.
Proof.
  destruct a as [x|], b as [y|]; simpl; intros E; try discriminate; try reflexivity.
  apply Z.leb_le. apply Z.leb_gt in E. lia.
Qed.

Lemma string_leb_total (a b : string) : String.leb a b = false -> String.leb b a = true.
Proof.
  intros E. destruct (String.leb_total a b) as [H|H]; congruence.
Qed.

Lemma row_key_eq (r1 r2 : Row) :
  row_key r1 = row_key r2 <-> row_Date r1 = row_Date r2 /\ row_Country r1 = row_Country r2.
Proof.
  unfold row_key. split; [intros E; inversion E; auto | intros [-> ->]; reflexivity].
Qed.

Lemma has_duplicate_keys_iff (df : list Row) :
  has_duplicate_keys df = true <-> duplicated_pair df.
Proof.
  induction df as [|r rest IH]; simpl.
  - split; [discriminate|].
    intros (i & j & r1 & r2 & _ & Hi & _). destruct i; discriminate.
  - rewrite orb_true_iff, IH, existsb_exists. split.
    + intros [(r' & Hin & Hk)|(i & j & r1 & r2 & Hlt & Hi & Hj & Hd & Hc)].
      * apply key_eqb_eq, row_key_eq in Hk as [Hd Hc].
        apply In_nth_error in Hin as [j Hj].
        exists 0%nat, (S j), r, r'. repeat split; auto. lia.
      * exists (S i), (S j), r1, r2. repeat split; auto. lia.
    + intros (i & j & r1 & r2 & Hlt & Hi & Hj & Hd & Hc).
      destruct j as [|j]; [lia|]. simpl in Hj.
      destruct i as [|i]; simpl in Hi.
      * inversion Hi; subst r1. left. exists r2.
        split; [eapply nth_error_In; eassumption|].
        apply key_eqb_eq, row_key_eq. auto.
      * right. exists i, j, r1, r2. repeat split; auto. lia.
Qed.

Lemma lookup_value_of_row (df : list Row) (r : Row) :
  has_duplicate_keys df = false ->
  In r df ->
  lookup_value df (row_Date r) (row_Country r) = row_Value r.
Proof.
  unfold lookup_value.
  induction df as [|x rest IH]; intros Hdup Hin; simpl in *; [contradiction|].
  apply orb_false_iff in Hdup as [Hx Hrest].
  destruct (key_eqb (row_key x) (row_Date r, row_Country r)) eqn:Hk.
  - destruct Hin as [->|Hin]; [reflexivity|].
    exfalso. rewrite <- not_true_iff_false in Hx. apply Hx.
    apply existsb_exists. exists r. split; assumption.
  - destruct Hin as [->|Hin].
    + exfalso. rewrite <- not_true_iff_false in Hk. apply Hk.
      now apply key_eqb_eq.
    + now apply IH.
Qed.

Section SortUniqueFacts.
Context {A : Type} (leb eqb : A -> A -> bool).
Hypothesis eqb_eq : forall a b, eqb a b = true <-> a = b.
Hypothesis leb_total : forall a b, leb a b = false -> leb b a = true.

Lemma in_insert_unique (a x : A) (l : list A) :
  In x (insert_unique leb eqb a l) <-> x = a \/ In x l.
Proof.
  induction l as [|y l IH]; simpl.
  - intuition.
  - destruct (eqb a y) eqn:E.
    + apply eqb_eq in E; subst y. simpl. intuition.
    + destruct (leb a y); simpl; [intuition|].
      rewrite IH. intuition.
Qed.

Lemma in_sort_unique (x : A) (l : list A) :
  In x (sort_unique leb eqb l) <-> In x l.
Proof.
  induction l as [|a l IH]; simpl; [reflexivity|].
  rewrite in_insert_unique, IH. intuition.
Qed.

Lemma index_of_In (x : A) (l : list A) :
  In x l -> exists i, index_of eqb x l = Some i /\ nth_error l i = Some x.
Proof.
  induction l as [|y l IH]; intros Hin; simpl in *; [contradiction|].
  destruct (eqb x y) eqn:E.
  - apply eqb_eq in E; subst y. exists 0%nat. auto.
  - destruct Hin as [->|Hin].
    + rewrite (proj2 (eqb_eq x x) eq_refl) in E. discriminate.
    + destruct (IH Hin) as (i & -> & Hn). exists (S i). auto.
Qed.

Lemma insert_unique_ascending (a : A) (l : list A) :
  ascending leb l -> ascending leb (insert_unique leb eqb a l).
Proof.
  unfold ascending.
  induction l as [|y l IH]; intros Hs; simpl.
  - repeat constructor.
  - destruct (eqb a y); [assumption|].
    destruct (leb a y) eqn:Hle.
    + constructor; [assumption | now constructor].
    + inversion Hs as [|? ? Hs' Hhd]; subst.
      constructor; [now apply IH|].
      destruct l as [|z l]; simpl.
      * constructor. now apply leb_total.
      * destruct (eqb a z); [assumption|].
        destruct (leb a z).
        -- constructor. now apply leb_total.
        -- inversion Hhd; subst. now constructor.
Qed.

Lemma sort_unique_ascending (l : list A) : ascending leb (sort_unique leb eqb l).
Proof.
  induction l as [|a l IH]; simpl; [constructor|].
  now apply insert_unique_ascending.
Qed.
End SortUniqueFacts.

Lemma sort_index_ascending_id (idx : list Timestamp) (vals : list (list float)) :
  ascending ts_leb idx ->
  List.length vals = List.length idx ->
  fold_right insert_by_label [] (combine idx vals) = combine idx vals.
Proof.
  revert vals. induction idx as [|d idx IH]; intros vals Hs Hlen; simpl.
  - reflexivity.
  - destruct vals as [|v vals]; simpl in *; [discriminate|].
    inversion Hs as [|? ? Hs' Hhd]; subst.
    rewrite IH by (auto; lia).
    destruct idx as [|d' idx]; simpl; [reflexivity|].
    destruct vals as [|v' vals]; simpl in *; [discriminate|].
    inversion Hhd as [|? ? Hle]; subst. now rewrite Hle.
Qed.

Lemma combine_map_fst {A B : Type} (l1 : list A) (l2 : list B) :
  List.length l2 = List.length l1 -> map fst (combine l1 l2) = l1.
Proof.
  revert l2. induction l1 as [|a l1 IH]; intros [|b l2] Hlen; simpl in *;
    try reflexivity; try discriminate.
  f_equal. apply IH. lia.
Qed.

Lemma combine_map_snd {A B : Type} (l1 : list A) (l2 : list B) :
  List.length l2 = List.length l1 -> map snd (combine l1 l2) = l2.
Proof.
  revert l2. induction l1 as [|a l1 IH]; intros [|b l2] Hlen; simpl in *;
    try reflexivity; try discriminate.
  f_equal. apply IH. lia.
Qed.

Lemma sort_index_of_ascending (m : PivotMatrix) :
  ascending ts_leb (index m) ->
  List.length (values m) = List.length (index m) ->
  sort_index m = m.
Proof.
  intros Hs Hlen. unfold sort_index.
  rewrite sort_index_ascending_id by assumption.
  rewrite combine_map_fst, combine_map_snd by assumption.
  now destruct m.
Qed.

Lemma pivot_by_date_unique (df : list Row) :
  has_duplicate_keys df = false ->
  pivot_by_date df
  = Ret (mkPivotMatrix
           (sort_unique ts_leb ts_eqb (map row_Date df))
           (sort_unique String.leb String.eqb (map row_Country df))
           (map (fun d =>
                   map (fun c => lookup_value df d c)
                       (sort_unique String.leb String.eqb (map row_Country df)))
                (sort_unique ts_leb ts_eqb (map row_Date df)))).
Proof.
  intros Hdup. unfold pivot_by_date, pivot. rewrite Hdup. simpl.
  rewrite sort_index_of_ascending; [reflexivity| |]; simpl.
  - apply sort_unique_ascending, ts_leb_total.
  - apply length_map.
Qed.

Lemma ascii_compare_cases (a b : ascii) :
  match Ascii.compare a b with
  | Eq => a = b
  | Lt => (N_of_ascii a < N_of_ascii b)%N
  | Gt => (N_of_ascii b < N_of_ascii a)%N
  end.
Proof.
  unfold Ascii.compare.
  destruct (N.compare_spec (N_of_ascii a) (N_of_ascii b)) as [E|L|G]; auto.
  rewrite <- (ascii_N_embedding a), <- (ascii_N_embedding b). now rewrite E.
Qed.

Lemma string_leb_trans (s1 s2 s3 : string) :
  String.leb s1 s2 = true -> String.leb s2 s3 = true -> String.leb s1 s3 = true.
Proof.
  unfold String.leb.
  revert s2 s3. induction s1 as [|c1 s1 IH]; intros [|c2 s2] [|c3 s3]; simpl;
    try reflexivity; try discriminate; auto.
  pose proof (ascii_compare_cases c1 c2) as H12.
  pose proof (ascii_compare_cases c2 c3) as H23.
  pose proof (ascii_compare_cases c1 c3) as H13.
  destruct (Ascii.compare c1 c2), (Ascii.compare c2 c3), (Ascii.compare c1 c3);
    subst; try discriminate; try reflexivity; try lia; try (intros; exfalso; lia); auto.
  all: try (apply IH).
Qed.

Lemma ts_leb_trans (a b c : Timestamp) :
  ts_leb a b = true -> ts_leb b c = true -> ts_leb a c = true.
Proof.
  destruct a as [x|], b as [y|], c as [z|]; simpl; try discriminate; try reflexivity.
  rewrite !Z.leb_le. lia.
Qed.

Lemma ts_leb_antisym (a b : Timestamp) :
  ts_leb a b = true -> ts_leb b a = true -> a = b.
Proof.
  destruct a as [x|], b as [y|]; simpl; try discriminate; try reflexivity.
  rewrite !Z.leb_le. intros. f_equal. lia.
Qed.

Section SortUniqueNoDup.
Context {A : Type} (leb eqb : A -> A -> bool).
Hypothesis eqb_eq : forall a b, eqb a b = true <-> a = b.
Hypothesis leb_total : forall a b, leb a b = false -> leb b a = true.
Hypothesis leb_trans : forall a b c, leb a b = true -> leb b c = true -> leb a c = true.
Hypothesis leb_antisym : forall a b, leb a b = true -> leb b a = true -> a = b.

Lemma insert_unique_strictly_ascending (a : A) (l : list A) :
  strictly_ascending leb l -> strictly_ascending leb (insert_unique leb eqb a l).
Proof.
  unfold strictly_ascending.
  induction l as [|y l IH]; intros Hs; simpl.
  - repeat constructor.
  - destruct (eqb a y) eqn:E; [assumption|].
    assert (Hne : a <> y).
    { intros ->. rewrite (proj2 (eqb_eq y y) eq_refl) in E. discriminate. }
    inversion Hs as [|? ? Hs' Hall]; subst.
    destruct (leb a y) eqn:Hle.
    + constructor; [assumption|].
      constructor; [split; assumption|].
      rewrite Forall_forall in *. intros z Hz. destruct (Hall z Hz) as [Hyz Hnz].
      split; [eapply leb_trans; eassumption|].
      intros ->. apply Hnz. now apply leb_antisym.
    + constructor; [now apply IH|].
      rewrite Forall_forall in *. intros z Hz.
      apply (in_insert_unique leb eqb eqb_eq) in Hz as [->|Hz]; [|now apply Hall].
      split; [now apply leb_total | congruence].
Qed.

Lemma sort_unique_strictly_ascending (l : list A) :
  strictly_ascending leb (sort_unique leb eqb l).
Proof.
  induction l as [|a l IH]; simpl; [constructor|].
  now apply insert_unique_strictly_ascending.
Qed.

Lemma strictly_ascending_NoDup (l : list A) : strictly_ascending leb l -> NoDup l.
Proof.
  induction 1 as [|a l Hs IH Hall]; constructor; [|assumption].
  intros Hin. rewrite Forall_forall in Hall.
  destruct (Hall a Hin) as [_ Hne]. now apply Hne.
Qed.
End SortUniqueNoDup.

(** C1 (amended).  A frame in which two rows share a (date, series key) pair
    cannot be pivoted: [pivot] raises [ValueError] and no matrix, hence no
    value of either row, comes out.  A frame without such a pair pivots to a
    matrix whose row labels are distinct and ascending, whose column labels
    are distinct, and in which the cell of each row's (date, key) holds that
    row's value. *)
Theorem pivot_raises_on_duplicates_keeps_unique_cells (df : list Row) :
  (duplicated_pair df ->
   pivot_by_date df
   = Raise (ValueError "Index contains duplicate entries, cannot reshape"))
  /\ (~ duplicated_pair df ->
      exists m,
        pivot_by_date df = Ret m
        /\ NoDup (index m) /\ ascending ts_leb (index m) /\ NoDup (columns m)
        /\ forall r, In r df ->
             cell_at m (row_Date r) (row_Country r) = Some (row_Value r)).
Proof.
  split.
  - intros Hdup. apply has_duplicate_keys_iff in Hdup.
    unfold pivot_by_date, pivot. now rewrite Hdup.
  - intros Hnodup.
    assert (Hdup : has_duplicate_keys df = false).
    { apply not_true_iff_false. intros E. apply Hnodup.
      now apply has_duplicate_keys_iff. }
    eexists. split; [apply (pivot_by_date_unique df Hdup)|]. simpl.
    split; [|split; [|split]].
    + apply (strictly_ascending_NoDup ts_leb),
        (sort_unique_strictly_ascending ts_leb ts_eqb ts_eqb_eq ts_leb_total
           ts_leb_trans ts_leb_antisym).
    + apply sort_unique_ascending, ts_leb_total.
    + apply (strictly_ascending_NoDup String.leb),
        (sort_unique_strictly_ascending String.leb String.eqb String.eqb_eq
           string_leb_total string_leb_trans String.leb_antisym).
    + intros r Hr. unfold cell_at; simpl.
      destruct (index_of_In ts_eqb ts_eqb_eq (row_Date r)
                  (sort_unique ts_leb ts_eqb (map row_Date df)))
        as (i & -> & Hi).
      { apply (in_sort_unique ts_leb ts_eqb ts_eqb_eq). now apply in_map. }
      destruct (index_of_In String.eqb String.eqb_eq (row_Country r)
                  (sort_unique String.leb String.eqb (map row_Country df)))
        as (j & -> & Hj).
      { apply (in_sort_unique String.leb String.eqb String.eqb_eq). now apply in_map. }
      rewrite nth_error_map, Hi. simpl.
      rewrite nth_error_map, Hj. simpl.
      now rewrite lookup_value_of_row.
Qed.

Lemma pivot_raises_on_duplicates_keeps_unique_cells_witness :
  pivot_by_date twice_us_q1
  = Raise (ValueError "Index contains duplicate entries, cannot reshape")
  /\ exists m,
       pivot_by_date us_jp_frame = Ret m
       /\ NoDup (index m) /\ ascending ts_leb (index m) /\ NoDup (columns m)
       /\ forall r, In r us_jp_frame ->
            cell_at m (row_Date r) (row_Country r) = Some (row_Value r).
Proof.
  split.
  - apply (proj1 (pivot_raises_on_duplicates_keeps_unique_cells twice_us_q1)).
    exists 0%nat, 1%nat, (mkRow q1_2020 1%float "US"), (mkRow q1_2020 2%float "US").
    repeat split. lia.
  - apply (proj2 (pivot_raises_on_duplicates_keeps_unique_cells us_jp_frame)).
    intros Hdup. apply has_duplicate_keys_iff in Hdup.
    vm_compute in Hdup. discriminate.
Defined.

(** C1 (counterexample).  With two rows for (2020-Q1, US) the pivot does not
    succeed with the last row's value 2 in that cell: it raises. *)
Lemma pivot_of_duplicates_does_not_keep_last :
  ~ exists m,
      pivot_by_date twice_us_q1 = Ret m
      /\ cell_at m q1_2020 "US" = Some 2%float.
Proof.
  intros (m & Hm & _). vm_compute in Hm. discriminate.
Qed.

(* ================================================================== *)
(** * Properties of the start-date filter *)
(* ================================================================== *)



Lemma insert_by_date_Permutation (r : Row) (l : list Row) :
  Permutation (r :: l) (insert_by_date r l).
Proof.
  induction l as [|y l IH]; simpl; [reflexivity|].
  destruct (ts_leb (row_Date r) (row_Date y)); [reflexivity|].
  rewrite perm_swap. now apply perm_skip.
Qed.

Lemma sort_values_Permutation (df : list Row) : Permutation df (sort_values df).
Proof.
  induction df as [|r df IH]; simpl; [reflexivity|].
  rewrite <- insert_by_date_Permutation. now apply perm_skip.
Qed.

Lemma filter_Permutation {A : Type} (f : A -> bool) (l1 l2 : list A) :
  Permutation l1 l2 -> Permutation (filter f l1) (filter f l2).
Proof.
  induction 1 as [|x l1 l2 _ IH|x y l|l1 l2 l3 _ IH1 _ IH2]; simpl.
  - reflexivity.
  - destruct (f x); [now apply perm_skip | assumption].
  - destruct (f x), (f y); try reflexivity. apply perm_swap.
  - now rewrite IH1.
Qed.




(* ================================================================== *)
(** * Properties of the percent-change transforms *)
(* ================================================================== *)

Lemma div_nan (x : float) : (x / nan)%float = nan.
Proof.
  apply Prim2SF_inj. rewrite div_spec.
  change (Prim2SF nan) with S754_nan.
  unfold SF64div, SFdiv. now destruct (Prim2SF x).
Qed.

Lemma nan_sub (x : float) : (nan - x)%float = nan.
Proof.
  apply Prim2SF_inj. rewrite sub_spec.
  change (Prim2SF nan) with S754_nan. reflexivity.
Qed.

Lemma ratio_minus_one_nan (x : float) : ratio_minus_one x nan = nan.
Proof. unfold ratio_minus_one. now rewrite div_nan, nan_sub. Qed.

Lemma length_map2 {A B C : Type} (f : A -> B -> C) (l1 : list A) (l2 : list B) :
  List.length (map2 f l1 l2) = Nat.min (List.length l1) (List.length l2).
Proof.
  revert l2. induction l1 as [|a l1 IH]; intros [|b l2]; simpl; auto.
Qed.

Lemma nth_error_map2 {A B C : Type} (f : A -> B -> C) (l1 : list A) (l2 : list B)
    (i : nat) :
  nth_error (map2 f l1 l2) i
  = match nth_error l1 i, nth_error l2 i with
    | Some a, Some b => Some (f a b)
    | _, _ => None
    end.
Proof.
  revert l2 i. induction l1 as [|a l1 IH]; intros [|b l2] [|i]; simpl;
    try reflexivity.
  - now destruct (nth_error l1 i).
  - apply IH.
Qed.

Lemma ffill_below_shape (c : nat) (rows : list (list float)) :
  forall above,
    List.length above = c -> rows_of_width c rows ->
    List.length (ffill_below above rows) = List.length rows
    /\ rows_of_width c (ffill_below above rows).
Proof.
  unfold rows_of_width.
  induction rows as [|r rows IH]; intros above Ha Hw; simpl.
  - split; [reflexivity | constructor].
  - inversion Hw as [|r0 rows0 Hr Hrows]; subst r0 rows0.
    assert (Hr' : List.length (ffill_row above r) = c).
    { unfold ffill_row. rewrite length_map2. lia. }
    destruct (IH (ffill_row above r) Hr' Hrows) as [Hlen Hwid].
    split; [now rewrite Hlen | now constructor].
Qed.

Lemma ffill_shape (c : nat) (rows : list (list float)) :
  rows_of_width c rows ->
  List.length (ffill rows) = List.length rows /\ rows_of_width c (ffill rows).
Proof.
  intros Hw. destruct rows as [|r rows]; simpl; [split; [reflexivity|constructor]|].
  inversion Hw as [|r0 rows0 Hr Hrows]; subst r0 rows0.
  destruct (ffill_below_shape c rows r Hr Hrows) as [Hlen Hwid].
  split; [now rewrite Hlen | now constructor].
Qed.

Lemma ffill_below_keeps_present (c : nat) (rows : list (list float)) :
  forall above i j row x,
    List.length above = c -> rows_of_width c rows ->
    nth_error rows i = Some row -> nth_error row j = Some x ->
    is_nan x = false ->
    exists row',
      nth_error (ffill_below above rows) i = Some row' /\ nth_error row' j = Some x.
Proof.
  unfold rows_of_width.
  induction rows as [|r rows IH]; intros above i j row x Ha Hw Hi Hj Hx.
  - destruct i; discriminate.
  - inversion Hw as [|r0 rows0 Hr Hrows]; subst r0 rows0.
    destruct i as [|i]; simpl in *.
    + inversion Hi; subst r. eexists. split; [reflexivity|].
      unfold ffill_row. rewrite nth_error_map2, Hj.
      destruct (nth_error above j) eqn:Ea.
      * now rewrite Hx.
      * apply nth_error_None in Ea.
        assert (j < List.length row)%nat by (apply nth_error_Some; congruence).
        lia.
    + apply (IH (ffill_row above r) i j row x); auto.
      unfold ffill_row. rewrite length_map2. lia.
Qed.

Lemma ffill_keeps_present (c : nat) (rows : list (list float)) (i j : nat)
    (row : list float) (x : float) :
  rows_of_width c rows ->
  nth_error rows i = Some row -> nth_error row j = Some x -> is_nan x = false ->
  exists row', nth_error (ffill rows) i = Some row' /\ nth_error row' j = Some x.
Proof.
  intros Hw Hi Hj Hx. destruct rows as [|r rows]; [destruct i; discriminate|].
  inversion Hw as [|r0 rows0 Hr Hrows]; subst r0 rows0.
  destruct i as [|i]; simpl in *.
  - inversion Hi; subst. eauto.
  - eapply ffill_below_keeps_present; eauto.
Qed.

Lemma firstn_repeat_le {A : Type} (a : A) (n k : nat) :
  (n <= k)%nat -> firstn n (repeat a k) = repeat a n.
Proof.
  revert k. induction n as [|n IH]; intros [|k] Hle; simpl; try reflexivity; try lia.
  f_equal. apply IH. lia.
Qed.

Lemma shift_beyond_height (periods c : nat) (rows : list (list float)) :
  (List.length rows <= periods)%nat ->
  shift periods c rows = repeat (repeat nan c) (List.length rows).
Proof.
  intros Hle. unfold shift.
  rewrite firstn_app, repeat_length.
  replace (List.length rows - periods)%nat with 0%nat by lia.
  simpl. rewrite app_nil_r. now apply firstn_repeat_le.
Qed.

Lemma map2_against_nan_rows (c : nat) (rows : list (list float)) :
  rows_of_width c rows ->
  map2 (map2 ratio_minus_one) rows (repeat (repeat nan c) (List.length rows))
  = repeat (repeat nan c) (List.length rows).
Proof.
  unfold rows_of_width.
  induction 1 as [|row rows Hrow _ IH]; simpl; [reflexivity|].
  f_equal; [|exact IH].
  clear IH. subst c. induction row as [|x row IH]; simpl; [reflexivity|].
  now rewrite ratio_minus_one_nan, IH.
Qed.

Lemma filled_shape `{Libraries} (c : nat) (rows : list (list float)) :
  rows_of_width c rows ->
  List.length (filled rows) = List.length rows /\ rows_of_width c (filled rows).
Proof.
  intros Hw. unfold filled. destruct pct_change_pads; [now apply ffill_shape | auto].
Qed.

Lemma filled_keeps_present `{Libraries} (c : nat) (rows : list (list float))
    (i j : nat) (row : list float) (x : float) :
  rows_of_width c rows ->
  nth_error rows i = Some row -> nth_error row j = Some x -> is_nan x = false ->
  exists row', nth_error (filled rows) i = Some row' /\ nth_error row' j = Some x.
Proof.
  intros Hw Hi Hj Hx. unfold filled. destruct pct_change_pads.
  - eapply ffill_keeps_present; eauto.
  - eauto.
Qed.

(** Every frame that the pivot step returns is rectangular. *)
Lemma pivot_by_date_rectangular (df : list Row) (m : PivotMatrix) :
  pivot_by_date df = Ret m -> rectangular m.
Proof.
  intros Hm. destruct (has_duplicate_keys df) eqn:Hdup.
  - unfold pivot_by_date, pivot in Hm. rewrite Hdup in Hm. discriminate.
  - rewrite (pivot_by_date_unique df Hdup) in Hm. inversion Hm; subst m.
    split; simpl; [apply length_map|].
    unfold rows_of_width. apply Forall_forall. intros row Hrow.
    apply in_map_iff in Hrow as (d & <- & _). apply length_map.
Qed.

(** C4.  On a frame with fewer than 5 rows the year-over-year mode (a lag of
    4 periods) gives a frame with the same row and column labels in which
    every cell is NaN, and sets the units label. *)
Theorem yoy_on_short_frame_is_all_nan `{Libraries} (m : PivotMatrix) (units : string) :
  rectangular m ->
  (List.length (index m) < 5)%nat ->
  apply_mode "yoy" units m = (all_nan m, "YoY % change").
Proof.
  intros [Hlen Hw] Hshort. unfold apply_mode; simpl.
  f_equal. unfold pct_change, all_nan. fold (filled (values m)).
  destruct (filled_shape _ _ Hw) as [Hlen' Hw'].
  rewrite shift_beyond_height by lia.
  rewrite (map2_against_nan_rows _ _ Hw'). now rewrite Hlen', Hlen.
Qed.

Lemma yoy_on_short_frame_is_all_nan_witness :
  apply_mode (H := pandas2) "yoy" "USD bn" four_quarters
  = (all_nan four_quarters, "YoY % change").
Proof.
  apply (yoy_on_short_frame_is_all_nan (H := pandas2) four_quarters "USD bn").
  - split; [reflexivity | repeat constructor].
  - simpl. lia.
Defined.

Lemma iloc_inv (m : PivotMatrix) (i j : nat) (x : float) :
  iloc m i j = Some x ->
  exists row, nth_error (values m) i = Some row /\ nth_error row j = Some x.
Proof.
  unfold iloc. destruct (nth_error (values m) i) as [row|]; [|discriminate].
  intros Hj. now exists row.
Qed.

Lemma shift_one_next (c : nat) (rows : list (list float)) (i : nat) (row : list float) :
  nth_error rows (S i) = Some row ->
  nth_error (shift 1 c rows) (S i) = nth_error rows i.
Proof.
  intros Hi. unfold shift. simpl repeat. rewrite nth_error_firstn.
  assert (Hlt : (S i < List.length rows)%nat) by (apply nth_error_Some; congruence).
  apply Nat.ltb_lt in Hlt. now rewrite Hlt.
Qed.

Lemma shift_one_first (c : nat) (rows : list (list float)) :
  (0 < List.length rows)%nat ->
  nth_error (shift 1 c rows) 0 = Some (repeat nan c).
Proof.
  intros Hlt. unfold shift. simpl repeat. rewrite nth_error_firstn.
  apply Nat.ltb_lt in Hlt. now rewrite Hlt.
Qed.

Lemma values_pct_change `{Libraries} (periods : nat) (m : PivotMatrix) :
  values (pct_change periods m)
  = map2 (map2 ratio_minus_one) (filled (values m))
      (shift periods (List.length (columns m)) (filled (values m))).
Proof. reflexivity. Qed.

Lemma iloc_pct_change_next `{Libraries} (m : PivotMatrix) (i j : nat)
    (row prev : list float) (x p : float) :
  nth_error (filled (values m)) (S i) = Some row -> nth_error row j = Some x ->
  nth_error (filled (values m)) i = Some prev -> nth_error prev j = Some p ->
  iloc (pct_change 1 m) (S i) j = Some (ratio_minus_one x p).
Proof.
  intros Hrow Hx Hprev Hp. unfold iloc. rewrite values_pct_change.
  rewrite nth_error_map2, Hrow, (shift_one_next _ _ _ _ Hrow), Hprev.
  now rewrite nth_error_map2, Hx, Hp.
Qed.

(** C3 (amended).  Under the quarter-over-quarter mode the first row is NaN
    in every column, and at a row i >= 1 the cell of a column is
    (value[i] / value[i-1]) - 1 of the untransformed frame whenever
    value[i] and value[i-1] are both present (not NaN), whether or not the
    library forward-fills missing cells before dividing; the units label
    becomes the QoQ one. *)
Theorem qoq_is_ratio_to_previous_row `{Libraries} (m : PivotMatrix) (units : string) :
  rectangular m ->
  snd (apply_mode "qoq" units m) = "QoQ % change"
  /\ (forall j,
        (0 < List.length (index m))%nat -> (j < List.length (columns m))%nat ->
        iloc (fst (apply_mode "qoq" units m)) 0 j = Some nan)
  /\ (forall i j x p,
        iloc m (S i) j = Some x -> iloc m i j = Some p ->
        is_nan x = false -> is_nan p = false ->
        iloc (fst (apply_mode "qoq" units m)) (S i) j = Some (ratio_minus_one x p)).
Proof.
  intros [Hlen Hw]. unfold apply_mode; simpl.
  destruct (filled_shape _ _ Hw) as [Hlen' Hw'].
  split; [reflexivity|]. split.
  - intros j Hrows Hj. unfold iloc. rewrite values_pct_change.
    rewrite nth_error_map2, shift_one_first by lia.
    destruct (nth_error (filled (values m)) 0) as [row|] eqn:Hrow.
    + assert (Hr : List.length row = List.length (columns m)).
      { unfold rows_of_width in Hw'. rewrite Forall_forall in Hw'.
        eapply Hw', nth_error_In, Hrow. }
      rewrite nth_error_map2.
      destruct (nth_error row j) as [x|] eqn:Hx.
      * rewrite nth_error_repeat by assumption. now rewrite ratio_minus_one_nan.
      * apply nth_error_None in Hx. lia.
    + apply nth_error_None in Hrow. lia.
  - intros i j x p Hx Hp Hnx Hnp.
    apply iloc_inv in Hx as (row & Hrow & Hx).
    apply iloc_inv in Hp as (prev & Hprev & Hp).
    destruct (filled_keeps_present _ _ _ _ _ _ Hw Hrow Hx Hnx) as (row' & Hrow' & Hx').
    destruct (filled_keeps_present _ _ _ _ _ _ Hw Hprev Hp Hnp) as (prev' & Hprev' & Hp').
    eapply iloc_pct_change_next; eassumption.
Qed.

Lemma qoq_is_ratio_to_previous_row_witness :
  snd (apply_mode (H := pandas2) "qoq" "USD bn" four_quarters) = "QoQ % change"
  /\ (forall j,
        (0 < List.length (index four_quarters))%nat ->
        (j < List.length (columns four_quarters))%nat ->
        iloc (fst (apply_mode (H := pandas2) "qoq" "USD bn" four_quarters)) 0 j
        = Some nan)
  /\ (forall i j x p,
        iloc four_quarters (S i) j = Some x -> iloc four_quarters i j = Some p ->
        is_nan x = false -> is_nan p = false ->
        iloc (fst (apply_mode (H := pandas2) "qoq" "USD bn" four_quarters)) (S i) j
        = Some (ratio_minus_one x p)).
Proof.
  apply (qoq_is_ratio_to_previous_row (H := pandas2) four_quarters "USD bn").
  split; [reflexivity | repeat constructor].
Defined.

(** When the library does not pad, the quotient is taken on the untransformed
    cells themselves, missing or not. *)
Lemma qoq_without_padding `{Libraries} (m : PivotMatrix) (i j : nat) (x p : float) :
  pct_change_pads = false ->
  iloc m (S i) j = Some x -> iloc m i j = Some p ->
  iloc (pct_change 1 m) (S i) j = Some (ratio_minus_one x p).
Proof.
  intros Hpad Hx Hp.
  apply iloc_inv in Hx as (row & Hrow & Hx).
  apply iloc_inv in Hp as (prev & Hprev & Hp).
  eapply iloc_pct_change_next; eauto; unfold filled; now rewrite Hpad.
Qed.

(** C3 (counterexample).  The frame pivoted from a series whose second
    quarter has no value: with the forward fill that [pct_change] applies by
    default in pandas up to 2.x, the QoQ cell of row 1 is 1/1 - 1 = 0 and
    that of row 2 is 2/1 - 1 = 1, not (value[i]/value[i-1]) - 1 of the
    untransformed frame, which is NaN in both rows. *)
Lemma qoq_fills_gaps_before_dividing :
  pivot_by_date gap_rows = Ret gap_frame
  /\ iloc (fst (apply_mode (H := pandas2) "qoq" "USD bn" gap_frame)) 1 0 = Some 0%float
  /\ iloc (fst (apply_mode (H := pandas2) "qoq" "USD bn" gap_frame)) 2 0 = Some 1%float
  /\ ratio_minus_one nan 1 = nan
  /\ ratio_minus_one 2 nan = nan
  /\ iloc (fst (apply_mode (H := pandas2) "qoq" "USD bn" gap_frame)) 1 0
     <> Some (ratio_minus_one nan 1).
Proof.
  repeat split; try (vm_compute; reflexivity).
  intros E. apply (f_equal (option_map is_nan)) in E. vm_compute in E. discriminate.
Qed.

(* ================================================================== *)
(** * Properties of the colour assignment in [plot_ts] *)
(* ================================================================== *)

Lemma column_colors_of_app (l1 l2 : list Trace) :
  column_colors_of (l1 ++ l2) = column_colors_of l1 ++ column_colors_of l2.
Proof. unfold column_colors_of. now rewrite filter_app, map_app. Qed.

Lemma getitem_nth {A : Type} (l : list A) (i : nat) (a d : A) :
  getitem l i = Ret a -> nth i l d = a.
Proof.
  unfold getitem. destruct (nth_error l i) eqn:E; [|discriminate].
  intros Ha. inversion Ha; subst. now apply nth_error_nth.
Qed.

Lemma bar_loop_colors (df : PivotMatrix) (colors : list string) (range : list nat) :
  forall fig fig',
    bar_loop df colors range fig = Ret fig' ->
    column_colors_of fig'
    = column_colors_of fig ++ map (fun i => nth i colors "") range.
Proof.
  induction range as [|i range IH]; intros fig fig' Hloop; simpl in *.
  - inversion Hloop. now rewrite app_nil_r.
  - destruct (getitem colors i) as [c|] eqn:Hc; simpl in Hloop; [|discriminate].
    rewrite (IH _ _ Hloop), column_colors_of_app, <- app_assoc. simpl.
    now rewrite (getitem_nth _ _ _ "" Hc).
Qed.

Lemma line_loop_colors (df : PivotMatrix) (colors : list string) (range : list nat) :
  forall fig fig',
    line_loop df colors range fig = Ret fig' ->
    column_colors_of fig'
    = column_colors_of fig ++ map (fun i => nth i colors "") range.
Proof.
  induction range as [|i range IH]; intros fig fig' Hloop; simpl in *.
  - inversion Hloop. now rewrite app_nil_r.
  - destruct (getitem colors i) as [c|] eqn:Hc; simpl in Hloop; [|discriminate].
    rewrite (IH _ _ Hloop), column_colors_of_app, <- app_assoc. simpl.
    now rewrite (getitem_nth _ _ _ "" Hc).
Qed.

Lemma distribution_loop_colors (df : PivotMatrix) (colors : list string)
    (range : list nat) :
  forall fig fig',
    distribution_loop df colors range fig = Ret fig' ->
    column_colors_of fig'
    = column_colors_of fig
      ++ map (fun i => nth (i mod List.length colors) colors "") range.
Proof.
  induction range as [|i range IH]; intros fig fig' Hloop; simpl in *.
  - inversion Hloop. now rewrite app_nil_r.
  - unfold py_mod in Hloop.
    destruct (List.length colors =? 0)%nat; simpl in Hloop; [discriminate|].
    destruct (getitem colors (i mod List.length colors)) as [c|] eqn:Hc;
      simpl in Hloop; [|discriminate].
    rewrite (getitem_nth _ _ _ "" Hc).
    destruct (dropna (column_values df i)); rewrite (IH _ _ Hloop);
      rewrite !column_colors_of_app, <- ?app_assoc; reflexivity.
Qed.

Lemma regression_traces_colors `{Libraries} (df : PivotMatrix)
    (traces_xtitle : list Trace * option string) :
  regression_traces df = Ret traces_xtitle ->
  column_colors_of (fst traces_xtitle) = [].
Proof.
  unfold regression_traces.
  destruct (2 <=? List.length (columns df))%nat;
    [|intros E; inversion E; reflexivity].
  destruct (1 <? _)%nat; simpl.
  - destruct (polyfit1 _ _); simpl; intros E; inversion E; reflexivity.
  - intros E; inversion E; reflexivity.
Qed.

(** Reads the four margins in a goal about a returned figure; a failing
    read contradicts the figure having been returned. *)
Ltac read_margins :=
  repeat match goal with
         | |- context [getitem ?m ?i] =>
             destruct (getitem m i); simpl; [|discriminate]
         end.

Lemma plot_ts_column_colors `{Libraries} (df : PivotMatrix)
    (nome units chart source theme : string) (margins : list nat) (fig : Figure) :
  plot_ts df nome units chart source theme margins = Ret fig ->
  column_colors fig = colors_by_position chart (List.length (columns df)).
Proof.
  unfold plot_ts, colors_by_position, column_colors.
  set (ncols := List.length (columns df)).
  set (colors := select_colors ncols).
  destruct (String.eqb chart "Bar" || String.eqb chart "Bar_PCT" || String.eqb chart "bar").
  - destruct (bar_loop df colors (seq 0 ncols) []) as [t|] eqn:Hloop; simpl;
      [|discriminate].
    read_margins. intros E; inversion E; subst; simpl.
    now rewrite (bar_loop_colors _ _ _ _ _ Hloop).
  - destruct (String.eqb chart "regression").
    + destruct (regression_traces df) as [t|] eqn:Hreg; simpl; [|discriminate].
      read_margins. intros E; inversion E; subst; simpl.
      now apply (regression_traces_colors df).
    + destruct (String.eqb chart "distribution").
      * destruct (distribution_loop df colors (seq 0 ncols) []) as [t|] eqn:Hloop;
          simpl; [|discriminate].
        read_margins. intros E; inversion E; subst; simpl.
        now rewrite (distribution_loop_colors _ _ _ _ _ Hloop).
      * destruct (line_loop df colors (seq 0 ncols) []) as [t|] eqn:Hloop; simpl;
          [|discriminate].
        read_margins. intros E; inversion E; subst; simpl.
        now rewrite (line_loop_colors _ _ _ _ _ Hloop).
Qed.

Lemma first_color_of_three (chart : string) :
  chart <> "regression" ->
  nth_error (colors_by_position chart 3) 0 = Some "#f1c40f".
Proof.
  intros Hchart. unfold colors_by_position.
  destruct (String.eqb chart "Bar" || String.eqb chart "Bar_PCT" || String.eqb chart "bar");
    [reflexivity|].
  destruct (String.eqb_spec chart "regression") as [E|_]; [contradiction|].
  destruct (String.eqb chart "distribution"); reflexivity.
Qed.

(** C10.  [plot_ts] keeps no state between calls: two calls with the same
    arguments build the same figure, and for any two calls of the same chart
    kind on frames with the same number of columns, whatever their data,
    labels, titles, units, themes and margins, the per-column colours agree
    position by position; they are [colors_by_position], a function of the
    kind and the column count.  In particular the first column of a
    three-column frame is always drawn in "#f1c40f". *)
Theorem column_color_depends_only_on_position_and_width `{Libraries}
    (df1 df2 : PivotMatrix)
    (nome1 units1 source1 theme1 nome2 units2 source2 theme2 chart : string)
    (margins1 margins2 : list nat) (fig1 fig2 : Figure) :
  List.length (columns df1) = List.length (columns df2) ->
  plot_ts df1 nome1 units1 chart source1 theme1 margins1 = Ret fig1 ->
  plot_ts df2 nome2 units2 chart source2 theme2 margins2 = Ret fig2 ->
  column_colors fig1 = colors_by_position chart (List.length (columns df1))
  /\ column_colors fig1 = column_colors fig2
  /\ (df1 = df2 -> nome1 = nome2 -> units1 = units2 -> source1 = source2 ->
      theme1 = theme2 -> margins1 = margins2 -> fig1 = fig2)
  /\ (List.length (columns df1) = 3%nat -> chart <> "regression" ->
      nth_error (column_colors fig1) 0 = Some "#f1c40f"
      /\ nth_error (column_colors fig2) 0 = Some "#f1c40f").
Proof.
  intros Hwidth Hfig1 Hfig2.
  pose proof (plot_ts_column_colors _ _ _ _ _ _ _ _ Hfig1) as Hc1.
  pose proof (plot_ts_column_colors _ _ _ _ _ _ _ _ Hfig2) as Hc2.
  split; [exact Hc1|]. split; [|split].
  - now rewrite Hc1, Hc2, Hwidth.
  - intros -> -> -> -> -> ->. congruence.
  - intros H3 Hchart. rewrite Hc1, Hc2, <- Hwidth, H3.
    split; now apply first_color_of_three.
Qed.

Lemma column_color_depends_only_on_position_and_width_witness :
  column_colors (line_figure three_columns "light") = colors_by_position "line" 3
  /\ column_colors (line_figure three_columns "light")
     = column_colors (line_figure three_columns_again "dark")
  /\ (three_columns = three_columns_again -> "BIS Data" = "BIS Data" ->
      "USD bn" = "USD bn" -> default_source = default_source ->
      "light" = "dark" -> default_margins = default_margins ->
      line_figure three_columns "light" = line_figure three_columns_again "dark")
  /\ (List.length (columns three_columns) = 3%nat -> "line" <> "regression" ->
      nth_error (column_colors (line_figure three_columns "light")) 0
      = Some "#f1c40f"
      /\ nth_error (column_colors (line_figure three_columns_again "dark")) 0
         = Some "#f1c40f").
Proof.
  apply (column_color_depends_only_on_position_and_width (H := pandas2)
           three_columns three_columns_again
           "BIS Data" "USD bn" default_source "light"
           "BIS Data" "USD bn" default_source "dark" "line"
           default_margins default_margins); reflexivity.
Defined.

(** ** Where the palette ends *)

Lemma select_colors_covers (ncols : nat) :
  (ncols <= 13)%nat -> (ncols <= List.length (select_colors ncols))%nat.
Proof.
  intros Hle. unfold select_colors.
  destruct (Nat.eqb_spec ncols 2); [simpl; lia|].
  destruct (Nat.eqb_spec ncols 3); [simpl; lia|].
  destruct (Nat.eqb_spec ncols 4); [simpl; lia|].
  destruct (Nat.eqb_spec ncols 5); [simpl; lia|].
  simpl. lia.
Qed.

Lemma select_colors_at_most_13 (ncols : nat) :
  (1 <= List.length (select_colors ncols) <= 13)%nat.
Proof.
  unfold select_colors.
  destruct (ncols =? 2)%nat; [simpl; lia|].
  destruct (ncols =? 3)%nat; [simpl; lia|].
  destruct (ncols =? 4)%nat; [simpl; lia|].
  destruct (ncols =? 5)%nat; simpl; lia.
Qed.

Lemma line_loop_within (df : PivotMatrix) (colors : list string) (k : nat) :
  forall a fig,
    (a + k <= List.length colors)%nat ->
    exists fig', line_loop df colors (seq a k) fig = Ret fig'.
Proof.
  induction k as [|k IH]; intros a fig Hle; simpl.
  - eexists; reflexivity.
  - unfold getitem. destruct (nth_error colors a) as [c|] eqn:E; simpl.
    + apply IH. lia.
    + apply nth_error_None in E. lia.
Qed.

Lemma line_loop_beyond (df : PivotMatrix) (colors : list string) (k : nat) :
  forall a fig,
    (a <= List.length colors < a + k)%nat ->
    line_loop df colors (seq a k) fig = Raise (IndexError "list index out of range").
Proof.
  induction k as [|k IH]; intros a fig Hle; simpl.
  - lia.
  - unfold getitem. destruct (nth_error colors a) as [c|] eqn:E; simpl.
    + apply IH. assert (a < List.length colors)%nat by (apply nth_error_Some; congruence).
      lia.
    + reflexivity.
Qed.

(** Up to 13 columns every column of a line chart gets a colour. *)
Lemma plot_ts_line_within_palette `{Libraries} (df : PivotMatrix)
    (nome units source theme : string) :
  (List.length (columns df) <= 13)%nat ->
  exists fig,
    plot_ts df nome units "line" source theme default_margins = Ret fig.
Proof.
  intros Hle. unfold plot_ts. simpl.
  destruct (line_loop_within df (select_colors (List.length (columns df)))
              (List.length (columns df)) 0 []) as [t ->].
  { simpl. now apply select_colors_covers. }
  simpl. eexists; reflexivity.
Qed.

(** From 14 columns on the line chart runs off the palette. *)
Lemma plot_ts_line_beyond_palette `{Libraries} (df : PivotMatrix)
    (nome units source theme : string) (margins : list nat) :
  (14 <= List.length (columns df))%nat ->
  plot_ts df nome units "line" source theme margins
  = Raise (IndexError "list index out of range").
Proof.
  intros Hge. unfold plot_ts. simpl.
  rewrite line_loop_beyond; [reflexivity|].
  pose proof (select_colors_at_most_13 (List.length (columns df))). lia.
Qed.

(** C9 (the renderer at 14 columns).  The palette chosen for 14 columns has 13
    entries.  The line chart (the endpoint's kind) and the bar chart index it
    by the bare column number and raise [IndexError] at the fourteenth
    column; the distribution chart, which indexes modulo the palette length,
    draws all fourteen. *)
Theorem palette_runs_out_at_14_columns `{Libraries}
    (nome units source theme : string) :
  List.length (select_colors (List.length (columns fourteen_columns))) = 13%nat
  /\ plot_ts fourteen_columns nome units "line" source theme default_margins
     = Raise (IndexError "list index out of range")
  /\ plot_ts fourteen_columns nome units "bar" source theme default_margins
     = Raise (IndexError "list index out of range")
  /\ (exists fig,
        plot_ts fourteen_columns nome units "distribution" source theme
          default_margins = Ret fig
        /\ List.length (column_colors fig) = 14%nat).
Proof.
  split; [reflexivity|]. split; [reflexivity|]. split; [reflexivity|].
  eexists. split; reflexivity.
Qed.

(* ================================================================== *)
(** * The pipeline on concrete inputs *)
(* ================================================================== *)

(** The table endpoint on the sample feed: four rows in document order, the
    missing value null. *)
Example table_of_sample_feed :
  bis_credit_table (H := pandas2) sample_upstream "WS_TC" "Q.US+JP.N.A.M.USD.A"
  = Ret [mkTableRow (Some "2020-Q1") "US" (Some 52036.5%float);
         mkTableRow (Some "2020-Q2") "US" (Some 54494.25%float);
         mkTableRow (Some "2020-Q2") "JP" (Some 18880.125%float);
         mkTableRow (Some "2020-Q1") "JP" None].
Proof. vm_compute. reflexivity. Qed.

(** The chart endpoint on the sample feed: a 200 with one line per country,
    columns in ascending country order, coloured from the two-colour tier. *)
Example chart_of_sample_feed :
  exists fig,
    bis_credit_chart (H := pandas2) true sample_upstream "WS_TC"
      "Q.US+JP.N.A.M.USD.A" "USD bn" "light" None "total"
    = Ret (mkJSONResponse (figure_content fig) 200)
    /\ map trace_name (fig_data fig) = ["JP"; "US"]
    /\ trace_colors fig = ["#f1c40f"; "#2ecc71"]
    /\ yaxis_title (fig_layout fig) = "USD bn".
Proof. eexists. repeat split. Qed.

(** A start date after the first quarter drops the first-quarter rows. *)
Example chart_of_sample_feed_from_april :
  exists fig,
    bis_credit_chart (H := pandas2) true sample_upstream "WS_TC"
      "Q.US+JP.N.A.M.USD.A" "USD bn" "dark" (Some "2020-04-01") "qoq"
    = Ret (mkJSONResponse (figure_content fig) 200)
    /\ map trace_x (fig_data fig) = [x_index [q2_2020]; x_index [q2_2020]]
    /\ yaxis_title (fig_layout fig) = "QoQ % change".
Proof. eexists. repeat split. Qed.

(** An unparsable start date is answered with 400. *)
Example chart_with_bad_startdate :
  bis_credit_chart (H := pandas2) true sample_upstream "WS_TC"
    "Q.US+JP.N.A.M.USD.A" "USD bn" "light" (Some "yesterday") "total"
  = Ret (mkJSONResponse
           (error_content
              "Invalid startdate: Unknown datetime string format, unable to parse: yesterday")
           400).
Proof. reflexivity. Qed.

(** The year-over-year example: with 100, 102, 104, 103, 110 over five
    quarters the last row is 110/100 - 1 and the four rows before are NaN. *)
Example yoy_of_five_quarters :
  values (fst (apply_mode (H := pandas2) "yoy" "USD bn" five_quarters))
  = [[nan]; [nan]; [nan]; [nan]; [(110 / 100 - 1)%float]].
Proof. vm_compute. reflexivity. Qed.

(* ================================================================== *)
(** * Further properties of the parser, the fetchers and the table endpoint *)
(* ================================================================== *)

Lemma parse_bis_xml_returns `{Libraries} (root : Element) (data : list Observation) :
  parse_bis_xml (WellFormed root) = Ret data ->
  forallb value_accepted (visited_obs root) = true
  /\ data = records_of (findall_descendants root "Series").
Proof.
  intros Hparse.
  destruct (forallb value_accepted (visited_obs root)) eqn:Hacc.
  - split; [reflexivity|].
    rewrite (parse_bis_xml_accepts _ Hacc) in Hparse. now inversion Hparse.
  - destruct (parse_bis_xml_rejects _ Hacc) as [msg Hmsg]. congruence.
Qed.

(** What the parser can raise: the XML parser's error or [float]'s. *)
Lemma parse_bis_xml_raises `{Libraries} (xml : xml_text) (e : exn) :
  parse_bis_xml xml = Raise e ->
  (exists why, e = ParseError why) \/ (exists msg, e = ValueError msg).
Proof.
  destruct xml as [root|why].
  - destruct (forallb value_accepted (visited_obs root)) eqn:Hacc.
    + rewrite (parse_bis_xml_accepts _ Hacc). discriminate.
    + destruct (parse_bis_xml_rejects _ Hacc) as [msg ->].
      intros E; inversion E. right. now exists msg.
  - simpl. intros E; inversion E. left. now exists why.
Qed.

(** X1.  Every record the parser returns carries the [BORROWERS_CTY] of a
    [Series] of the document, or the literal "Unknown" when that [Series]
    has no such attribute; its date is the [TIME_PERIOD] of an [Obs] child
    of that same [Series]. *)
Theorem records_carry_the_series_country_or_Unknown `{Libraries}
    (root : Element) (data : list Observation) (r : Observation) :
  parse_bis_xml (WellFormed root) = Ret data ->
  In r data ->
  exists series obs,
    In series (findall_descendants root "Series")
    /\ In obs (findall series "Obs")
    /\ Date r = get obs "TIME_PERIOD"
    /\ Country r = match get series "BORROWERS_CTY" with
                   | Some code => code
                   | None => "Unknown"
                   end.
Proof.
  intros Hparse Hr.
  destruct (parse_bis_xml_returns _ _ Hparse) as [_ ->].
  unfold records_of in Hr. apply in_flat_map in Hr as (series & Hs & Hr).
  apply in_map_iff in Hr as (obs & <- & Hobs).
  exists series, obs. repeat split; assumption.
Qed.

Lemma records_carry_the_series_country_or_Unknown_witness :
  exists series obs,
    In series (findall_descendants
                 (Elem "DataSet" [] [Elem "Series" [] [obs_elem "2020-Q1" "7"]])
                 "Series")
    /\ In obs (findall series "Obs")
    /\ Date (mkObservation (Some "2020-Q1") (Some 7%float) "Unknown")
       = get obs "TIME_PERIOD"
    /\ Country (mkObservation (Some "2020-Q1") (Some 7%float) "Unknown")
       = match get series "BORROWERS_CTY" with
         | Some code => code
         | None => "Unknown"
         end.
Proof.
  apply (records_carry_the_series_country_or_Unknown (H := pandas2)
           (Elem "DataSet" [] [Elem "Series" [] [obs_elem "2020-Q1" "7"]])
           [mkObservation (Some "2020-Q1") (Some 7%float) "Unknown"]).
  - vm_compute. reflexivity.
  - simpl. left. reflexivity.
Defined.

Lemma raise_for_status_cases (url : string) (r : Response) :
  (is_error_status (status_code r) = false /\ raise_for_status url r = Ret tt)
  \/ (is_error_status (status_code r) = true
      /\ exists msg,
           raise_for_status url r = Raise (Requests (HTTPError (status_code r) msg))).
Proof.
  unfold raise_for_status, is_error_status.
  destruct (400 <=? status_code r)%nat eqn:A, (status_code r <? 500)%nat eqn:B,
           (500 <=? status_code r)%nat eqn:C, (status_code r <? 600)%nat eqn:D;
    simpl;
    repeat match goal with
           | H : (_ <=? _)%nat = true |- _ => apply Nat.leb_le in H
           | H : (_ <=? _)%nat = false |- _ => apply Nat.leb_gt in H
           | H : (_ <? _)%nat = true |- _ => apply Nat.ltb_lt in H
           | H : (_ <? _)%nat = false |- _ => apply Nat.ltb_ge in H
           end;
    try (exfalso; lia);
    first [ left; split; reflexivity
          | right; split; [reflexivity | eexists; reflexivity] ].
Qed.

(** X2.  [fetch_bis_data] never lets a [requests] exception out.  Whatever
    the network does, it returns data, or raises [HTTPException(500)] whose
    detail is "Error fetching BIS series: " followed by the message of the
    [requests] exception, or lets through unchanged an exception that is not
    a [requests] one: what [requests.get] raised, or what the parser raised
    on the body ([ParseError], or the [ValueError] of a non-numeric value). *)
Theorem fetch_bis_data_outcomes `{Libraries} (net : network)
    (context agency_id resource_id version key : string) :
  (exists data,
     fetch_bis_data net context agency_id resource_id version key = Ret data)
  \/ (exists e,
        fetch_bis_data net context agency_id resource_id version key
        = Raise (HTTPException 500
                   ("Error fetching BIS series: " ++ str_RequestException e)))
  \/ (exists x,
        fetch_bis_data net context agency_id resource_id version key = Raise x
        /\ is_request_exception x = false
        /\ (requests_get net (data_url context agency_id resource_id version key)
            = Raise x
            \/ exists r,
                 requests_get net (data_url context agency_id resource_id version key)
                 = Ret r
                 /\ parse_bis_xml (text r) = Raise x)).
Proof.
  unfold fetch_bis_data, try_except_RequestException.
  set (url := data_url context agency_id resource_id version key).
  destruct (requests_get net url) as [r|x] eqn:Hget; simpl.
  - destruct (raise_for_status_cases url r) as [[_ ->]|[_ [msg ->]]]; simpl.
    + destruct (parse_bis_xml (text r)) as [d|x] eqn:Hp.
      * left. now exists d.
      * right; right. exists x.
        destruct (parse_bis_xml_raises _ _ Hp) as [[why ->]|[msg ->]];
          (split; [reflexivity|]; split; [reflexivity|]; right; now exists r).
    + right; left. now exists (HTTPError (status_code r) msg).
  - destruct x; try (right; right; eexists; repeat split; now left).
    right; left. now exists e.
Qed.

(** X3.  [fetch_bis_data] returns data exactly when the request is answered,
    the status is outside 400..599 (any other status, 2xx or not, counts as
    success) and the body parses; the data is then the parse of the body. *)
Theorem fetch_bis_data_returns_iff `{Libraries} (net : network)
    (context agency_id resource_id version key : string)
    (data : list Observation) :
  fetch_bis_data net context agency_id resource_id version key = Ret data
  <-> exists r,
        requests_get net (data_url context agency_id resource_id version key) = Ret r
        /\ is_error_status (status_code r) = false
        /\ parse_bis_xml (text r) = Ret data.
Proof.
  unfold fetch_bis_data, try_except_RequestException.
  set (url := data_url context agency_id resource_id version key).
  split.
  - destruct (requests_get net url) as [r|x] eqn:Hget; simpl.
    + destruct (raise_for_status_cases url r) as [[Hs ->]|[Hs [msg ->]]]; simpl.
      * destruct (parse_bis_xml (text r)) as [d|x] eqn:Hp.
        -- intros E; inversion E; subst. exists r. auto.
        -- destruct x; discriminate.
      * discriminate.
    + destruct x; discriminate.
  - intros (r & Hget & Hs & Hp). rewrite Hget. simpl.
    destruct (raise_for_status_cases url r) as [[_ ->]|[Hs' _]]; [|congruence].
    simpl. now rewrite Hp.
Qed.

Lemma simple_url_is_data_url (resource_id key : string) :
  ("https://stats.bis.org/api/v2/data/dataflow/BIS/" ++ resource_id ++ "/+/" ++ key)%string
  = data_url "dataflow" "BIS" resource_id "+" key.
Proof.
  unfold data_url. reflexivity.
Qed.

(** Whenever [fetch_bis_data_simple] returns a text, [fetch_bis_data] called
    as the table endpoint calls it gives the parse of that text. *)
Lemma fetch_bis_data_of_simple_text `{Libraries} (net : network)
    (resource_id key : string) (xml : xml_text) :
  fetch_bis_data_simple net resource_id key = Ret xml ->
  fetch_bis_data net "dataflow" "BIS" resource_id "+" key = parse_bis_xml xml.
Proof.
  unfold fetch_bis_data_simple, fetch_bis_data, try_except_RequestException.
  rewrite simple_url_is_data_url.
  set (url := data_url "dataflow" "BIS" resource_id "+" key).
  destruct (requests_get net url) as [r|x]; simpl; [|discriminate].
  destruct (raise_for_status url r) as [[]|x]; simpl; [|discriminate].
  intros E; inversion E; subst.
  destruct (parse_bis_xml (text r)) as [d|x] eqn:Hp; [reflexivity|].
  destruct (parse_bis_xml_raises _ _ Hp) as [[why ->]|[msg ->]]; reflexivity.
Qed.

(** X4.  The two fetchers ask for the same URL and differ only in what
    follows: [fetch_bis_data], called as the table endpoint calls it, is
    [fetch_bis_data_simple] followed by the parse, with a [requests]
    exception of the latter replaced by [HTTPException(500)] carrying its
    message and every other exception passed on unchanged. *)
Theorem table_fetch_is_chart_fetch_wrapped `{Libraries} (net : network) (resource_id key : string) :
  fetch_bis_data net "dataflow" "BIS" resource_id "+" key
  = match fetch_bis_data_simple net resource_id key with
    | Ret xml => parse_bis_xml xml
    | Raise (Requests e) =>
        Raise (HTTPException 500
                 ("Error fetching BIS series: " ++ str_RequestException e))
    | Raise other => Raise other
    end.
Proof.
  destruct (fetch_bis_data_simple net resource_id key) as [xml|x] eqn:Hsimple.
  - now apply fetch_bis_data_of_simple_text.
  - revert Hsimple.
    unfold fetch_bis_data_simple, fetch_bis_data, try_except_RequestException.
    rewrite simple_url_is_data_url.
    set (url := data_url "dataflow" "BIS" resource_id "+" key).
    destruct (requests_get net url) as [r|y]; simpl.
    + destruct (raise_for_status url r) as [[]|y]; simpl; [discriminate|].
      intros E; inversion E; subst. now destruct x.
    + intros E; inversion E; subst. now destruct x.
Qed.

Lemma table_loop_appends (data : list Observation) :
  forall table, table_loop data table = table ++ map table_row_of data.
Proof.
  induction data as [|row rest IH]; intros table; simpl.
  - now rewrite app_nil_r.
  - rewrite IH, <- app_assoc. reflexivity.
Qed.

(** X5.  The table endpoint passes the observations through: it answers
    exactly when the fetch does, with one row per observation, in the order
    of the observations, each row carrying its observation's date, country
    and value (a null value stays null); no row is skipped or added. *)
Theorem table_is_the_observations_in_order `{Libraries} (net : network)
    (resource_id key : string) (table : list TableRow) :
  bis_credit_table net resource_id key = Ret table
  <-> exists data,
        fetch_bis_data net "dataflow" "BIS" resource_id "+" key = Ret data
        /\ table = map table_row_of data.
Proof.
  unfold bis_credit_table. split.
  - destruct (fetch_bis_data net "dataflow" "BIS" resource_id "+" key) as [data|x];
      simpl; [|discriminate].
    intros E; inversion E. exists data. split; [reflexivity|].
    now rewrite table_loop_appends.
  - intros (data & -> & ->). simpl. now rewrite table_loop_appends.
Qed.

(** X6.  An upstream answer without observations is not an error for the
    table endpoint: it replies 200 with an empty list, where the chart
    endpoint replies 404 for the same answer. *)
Theorem empty_feed_table_200_chart_404 `{Libraries}
    (plot_available : bool) (net : network)
    (resource_id key units theme mode : string) (startdate : option string)
    (xml : xml_text) :
  fetch_bis_data_simple net resource_id key = Ret xml ->
  parse_bis_xml xml = Ret [] ->
  serve_table (bis_credit_table net resource_id key) = Replied 200 []
  /\ serve_chart
       (bis_credit_chart plot_available net resource_id key units theme startdate mode)
     = Replied 404 (error_content "No data returned from BIS.").
Proof.
  intros Hfetch Hparse. split.
  - unfold bis_credit_table.
    rewrite (fetch_bis_data_of_simple_text _ _ _ _ Hfetch), Hparse.
    reflexivity.
  - unfold bis_credit_chart, parse_bis_xml_df. rewrite Hfetch. simpl.
    rewrite Hparse. reflexivity.
Qed.

Lemma empty_feed_table_200_chart_404_witness :
  serve_table (bis_credit_table (H := pandas2) empty_upstream "WS_TC" "Q.US.N.A.M.USD.A")
  = Replied 200 []
  /\ serve_chart
       (bis_credit_chart (H := pandas2) true empty_upstream "WS_TC"
          "Q.US.N.A.M.USD.A" "USD bn" "light" None "total")
     = Replied 404 (error_content "No data returned from BIS.").
Proof.
  apply (empty_feed_table_200_chart_404 (H := pandas2) true empty_upstream
           "WS_TC" "Q.US.N.A.M.USD.A" "USD bn" "light" "total" None
           (WellFormed (Elem "DataSet" [] []))); reflexivity.
Defined.

(** X7.  A body that is not well-formed XML is not turned into a fetch
    error: on an answered request with a status outside 400..599 the parser's
    [ParseError] passes through the [except RequestException] of
    [fetch_bis_data] and through both endpoints, so the client gets the
    server's bare 500 on the table path as on the chart path. *)
Theorem malformed_body_escapes_as_ParseError `{Libraries}
    (plot_available : bool) (net : network)
    (resource_id key units theme mode : string) (startdate : option string)
    (r : Response) (why : string) :
  requests_get net (data_url "dataflow" "BIS" resource_id "+" key) = Ret r ->
  is_error_status (status_code r) = false ->
  text r = Malformed why ->
  fetch_bis_data net "dataflow" "BIS" resource_id "+" key = Raise (ParseError why)
  /\ serve_table (bis_credit_table net resource_id key) = InternalServerError
  /\ bis_credit_chart plot_available net resource_id key units theme startdate mode
     = Raise (ParseError why)
  /\ serve_chart
       (bis_credit_chart plot_available net resource_id key units theme startdate mode)
     = InternalServerError.
Proof.
  intros Hget Hs Htext.
  assert (Hsimple : fetch_bis_data_simple net resource_id key = Ret (Malformed why)).
  { unfold fetch_bis_data_simple. rewrite simple_url_is_data_url, Hget. simpl.
    destruct (raise_for_status_cases
                (data_url "dataflow" "BIS" resource_id "+" key) r)
      as [[_ ->]|[Hs' _]]; [|congruence].
    simpl. now rewrite Htext. }
  assert (Hfetch : fetch_bis_data net "dataflow" "BIS" resource_id "+" key
                   = Raise (ParseError why)).
  { now rewrite (fetch_bis_data_of_simple_text _ _ _ _ Hsimple). }
  assert (Hchart : bis_credit_chart plot_available net resource_id key units theme
                     startdate mode = Raise (ParseError why)).
  { unfold bis_credit_chart. now rewrite Hsimple. }
  unfold bis_credit_table. rewrite Hfetch, Hchart. repeat split.
Qed.

Lemma malformed_body_escapes_as_ParseError_witness :
  let net : network :=
    fun _ => Ret (mkResponse 200 "OK" (Malformed "mismatched tag")) in
  fetch_bis_data (H := pandas2) net "dataflow" "BIS" "WS_TC" "+" "Q.US.N.A.M.USD.A"
  = Raise (ParseError "mismatched tag")
  /\ serve_table (bis_credit_table (H := pandas2) net "WS_TC" "Q.US.N.A.M.USD.A")
     = InternalServerError
  /\ bis_credit_chart (H := pandas2) true net "WS_TC" "Q.US.N.A.M.USD.A" "USD bn"
       "light" None "total"
     = Raise (ParseError "mismatched tag")
  /\ serve_chart
       (bis_credit_chart (H := pandas2) true net "WS_TC" "Q.US.N.A.M.USD.A"
          "USD bn" "light" None "total")
     = InternalServerError.
Proof.
  apply (malformed_body_escapes_as_ParseError (H := pandas2) true
           (fun _ => Ret (mkResponse 200 "OK" (Malformed "mismatched tag")))
           "WS_TC" "Q.US.N.A.M.USD.A" "USD bn" "light" "total" None
           (mkResponse 200 "OK" (Malformed "mismatched tag")) "mismatched tag");
    reflexivity.
Defined.

(* ================================================================== *)
(** * Further properties of the pivot and of the percent-change transforms *)
(* ================================================================== *)

Lemma existsb_key_In (r : Row) (rest : list Row) :
  existsb (fun r' => key_eqb (row_key r) (row_key r')) rest = true
  <-> In (row_key r) (map row_key rest).
Proof.
  rewrite existsb_exists, in_map_iff. split.
  - intros (r' & Hin & Hk). apply key_eqb_eq in Hk. now exists r'.
  - intros (r' & Hk & Hin). exists r'. split; [assumption|].
    apply key_eqb_eq. now symmetry.
Qed.

Lemma has_duplicate_keys_NoDup (df : list Row) :
  has_duplicate_keys df = false <-> NoDup (map row_key df).
Proof.
  induction df as [|r rest IH]; simpl.
  - split; [constructor | reflexivity].
  - rewrite orb_false_iff, IH. split.
    + intros [Hex Hrest]. constructor; [|assumption].
      intros Hin. apply existsb_key_In in Hin. congruence.
    + intros Hnd. inversion Hnd as [|? ? Hnin Hrest]; subst.
      split; [|assumption].
      apply not_true_iff_false. intros Hex. now apply Hnin, existsb_key_In.
Qed.

Lemma has_duplicate_keys_Permutation (df1 df2 : list Row) :
  Permutation df1 df2 -> has_duplicate_keys df1 = has_duplicate_keys df2.
Proof.
  intros Hperm.
  destruct (has_duplicate_keys df1) eqn:H1, (has_duplicate_keys df2) eqn:H2;
    try reflexivity; exfalso.
  - apply has_duplicate_keys_NoDup in H2.
    assert (Hnd : NoDup (map row_key df1)).
    { eapply Permutation_NoDup; [|exact H2]. apply Permutation_map.
      now symmetry. }
    apply has_duplicate_keys_NoDup in Hnd. congruence.
  - apply has_duplicate_keys_NoDup in H1.
    assert (Hnd : NoDup (map row_key df2)).
    { eapply Permutation_NoDup; [|exact H1]. now apply Permutation_map. }
    apply has_duplicate_keys_NoDup in Hnd. congruence.
Qed.

Section StrictlyAscendingUnique.
Context {A : Type} (leb : A -> A -> bool).
Hypothesis leb_antisym : forall a b, leb a b = true -> leb b a = true -> a = b.

Lemma strictly_ascending_head_least (a : A) (l : list A) (x : A) :
  strictly_ascending leb (a :: l) -> In x (a :: l) -> x = a \/ (leb a x = true /\ a <> x).
Proof.
  intros Hs [->|Hin]; [now left|].
  inversion Hs as [|? ? _ Hall]; subst. rewrite Forall_forall in Hall.
  right. now apply Hall.
Qed.

(** Two strictly ascending lists with the same elements are the same list. *)
Lemma strictly_ascending_unique (l1 l2 : list A) :
  strictly_ascending leb l1 -> strictly_ascending leb l2 ->
  (forall x, In x l1 <-> In x l2) -> l1 = l2.
Proof.
  revert l2. induction l1 as [|a l1 IH]; intros [|b l2] Hs1 Hs2 Hin.
  - reflexivity.
  - exfalso. apply (proj2 (Hin b)). now left.
  - exfalso. apply (proj1 (Hin a)). now left.
  - assert (Hab : a = b).
    { destruct (strictly_ascending_head_least _ _ _ Hs2 (proj1 (Hin a) (or_introl eq_refl)))
        as [E|[Hba Hne]]; [assumption|].
      destruct (strictly_ascending_head_least _ _ _ Hs1 (proj2 (Hin b) (or_introl eq_refl)))
        as [E|[Hab Hne']]; [now symmetry|].
      now apply leb_antisym. }
    subst b. f_equal.
    pose proof (strictly_ascending_NoDup leb _ Hs1) as Hnd1.
    pose proof (strictly_ascending_NoDup leb _ Hs2) as Hnd2.
    inversion Hnd1 as [|? ? Hn1 _]; inversion Hnd2 as [|? ? Hn2 _]; subst.
    inversion Hs1 as [|? ? Hs1' _]; inversion Hs2 as [|? ? Hs2' _]; subst.
    apply IH; try assumption.
    intros x. split; intros Hx.
    + destruct (proj1 (Hin x) (or_intror Hx)) as [->|H]; [contradiction | assumption].
    + destruct (proj2 (Hin x) (or_intror Hx)) as [->|H]; [contradiction | assumption].
Qed.
End StrictlyAscendingUnique.

Lemma sort_unique_dates_Permutation (l1 l2 : list Timestamp) :
  Permutation l1 l2 ->
  sort_unique ts_leb ts_eqb l1 = sort_unique ts_leb ts_eqb l2.
Proof.
  intros Hperm.
  apply (strictly_ascending_unique ts_leb ts_leb_antisym);
    try apply (sort_unique_strictly_ascending ts_leb ts_eqb ts_eqb_eq ts_leb_total
                 ts_leb_trans ts_leb_antisym).
  intros x. rewrite !(in_sort_unique ts_leb ts_eqb ts_eqb_eq).
  split; apply Permutation_in; [assumption | now symmetry].
Qed.

Lemma sort_unique_names_Permutation (l1 l2 : list string) :
  Permutation l1 l2 ->
  sort_unique String.leb String.eqb l1 = sort_unique String.leb String.eqb l2.
Proof.
  intros Hperm.
  apply (strictly_ascending_unique String.leb String.leb_antisym);
    try apply (sort_unique_strictly_ascending String.leb String.eqb String.eqb_eq
                 string_leb_total string_leb_trans String.leb_antisym).
  intros x. rewrite !(in_sort_unique String.leb String.eqb String.eqb_eq).
  split; apply Permutation_in; [assumption | now symmetry].
Qed.

Lemma find_none_iff {A : Type} (f : A -> bool) (l : list A) :
  find f l = None <-> forall x, In x l -> f x = false.
Proof.
  split; [apply find_none|].
  induction l as [|a l IH]; intros Hall; simpl; [reflexivity|].
  rewrite (Hall a) by now left. apply IH. intros x Hx. apply Hall. now right.
Qed.

Lemma lookup_value_Permutation (df1 df2 : list Row) (d : Timestamp) (c : string) :
  has_duplicate_keys df1 = false ->
  Permutation df1 df2 ->
  lookup_value df1 d c = lookup_value df2 d c.
Proof.
  intros Hdup1 Hperm.
  assert (Hdup2 : has_duplicate_keys df2 = false)
    by now rewrite <- (has_duplicate_keys_Permutation _ _ Hperm).
  destruct (find (fun r => key_eqb (row_key r) (d, c)) df1) as [r|] eqn:Hfind.
  - apply find_some in Hfind as [Hin Hk]. apply key_eqb_eq in Hk.
    inversion Hk; subst d c.
    rewrite (lookup_value_of_row df1 r Hdup1 Hin).
    rewrite (lookup_value_of_row df2 r Hdup2); [reflexivity|].
    eapply Permutation_in; eassumption.
  - unfold lookup_value. rewrite Hfind.
    assert (Hnone : find (fun r => key_eqb (row_key r) (d, c)) df2 = None).
    { apply find_none_iff. intros x Hx.
      apply (proj1 (find_none_iff _ _) Hfind).
      eapply Permutation_in; [symmetry|]; eassumption. }
    now rewrite Hnone.
Qed.

(** The pivot of a frame depends on its rows, not on their order. *)
Lemma pivot_by_date_Permutation (df1 df2 : list Row) :
  Permutation df1 df2 -> pivot_by_date df1 = pivot_by_date df2.
Proof.
  intros Hperm.
  pose proof (has_duplicate_keys_Permutation _ _ Hperm) as Hdup.
  destruct (has_duplicate_keys df1) eqn:Hdup1.
  - unfold pivot_by_date, pivot. now rewrite Hdup1, <- Hdup.
  - rewrite (pivot_by_date_unique df1 Hdup1).
    rewrite (pivot_by_date_unique df2) by now rewrite <- Hdup.
    rewrite (sort_unique_dates_Permutation (map row_Date df1) (map row_Date df2))
      by now apply Permutation_map.
    rewrite (sort_unique_names_Permutation (map row_Country df1) (map row_Country df2))
      by now apply Permutation_map.
    do 2 f_equal. apply map_ext. intros d. apply map_ext. intros c.
    now apply lookup_value_Permutation.
Qed.

(** X8.  The pivot does not depend on the order of the rows: two frames
    with the same rows in any order pivot to the same matrix, or both fail.
    So the [sort_values] before the filter and the pivot changes nothing in
    what is plotted, and the order of the observations in the feed does not
    matter. *)
Theorem pivot_ignores_row_order (df1 df2 : list Row) (start : Timestamp) :
  Permutation df1 df2 ->
  pivot_by_date df1 = pivot_by_date df2
  /\ pivot_by_date (sort_values df1) = pivot_by_date df2
  /\ pivot_by_date (filter_from start (sort_values df1))
     = pivot_by_date (filter_from start df2).
Proof.
  intros Hperm. split; [|split].
  - now apply pivot_by_date_Permutation.
  - apply pivot_by_date_Permutation.
    rewrite <- (sort_values_Permutation df1). assumption.
  - apply pivot_by_date_Permutation. unfold filter_from.
    apply filter_Permutation.
    rewrite <- (sort_values_Permutation df1). assumption.
Qed.

Lemma pivot_ignores_row_order_witness :
  pivot_by_date us_jp_frame = pivot_by_date (rev us_jp_frame)
  /\ pivot_by_date (sort_values us_jp_frame) = pivot_by_date (rev us_jp_frame)
  /\ pivot_by_date (filter_from q2_2020 (sort_values us_jp_frame))
     = pivot_by_date (filter_from q2_2020 (rev us_jp_frame)).
Proof.
  apply (pivot_ignores_row_order us_jp_frame (rev us_jp_frame) q2_2020).
  apply Permutation_rev.
Defined.

Lemma shift_length (periods c : nat) (rows : list (list float)) :
  List.length (shift periods c rows) = List.length rows.
Proof.
  unfold shift. rewrite length_firstn, length_app, repeat_length. lia.
Qed.

Lemma shift_top (periods c : nat) (rows : list (list float)) (i : nat) :
  (i < periods)%nat -> (i < List.length rows)%nat ->
  nth_error (shift periods c rows) i = Some (repeat nan c).
Proof.
  intros Hp Hlen. unfold shift. rewrite nth_error_firstn.
  apply Nat.ltb_lt in Hlen. rewrite Hlen.
  rewrite nth_error_app1 by now rewrite repeat_length.
  now apply nth_error_repeat.
Qed.

Lemma shift_down (periods c : nat) (rows : list (list float)) (i : nat) :
  (i + periods < List.length rows)%nat ->
  nth_error (shift periods c rows) (i + periods) = nth_error rows i.
Proof.
  intros Hlen. unfold shift. rewrite nth_error_firstn.
  apply Nat.ltb_lt in Hlen. rewrite Hlen.
  rewrite nth_error_app2 by (rewrite repeat_length; lia).
  rewrite repeat_length. f_equal. lia.
Qed.

Lemma in_firstn_in {A : Type} (n : nat) (l : list A) (x : A) :
  In x (firstn n l) -> In x l.
Proof.
  revert l. induction n as [|n IH]; intros [|a l]; simpl; try contradiction.
  intros [->|Hx]; [now left | right; now apply IH].
Qed.

Lemma shift_width (periods c : nat) (rows : list (list float)) :
  rows_of_width c rows -> rows_of_width c (shift periods c rows).
Proof.
  unfold rows_of_width, shift. intros Hw. apply Forall_forall. intros row Hrow.
  apply in_firstn_in, in_app_or in Hrow as [Hrow|Hrow].
  - apply repeat_spec in Hrow. subst row. apply repeat_length.
  - rewrite Forall_forall in Hw. now apply Hw.
Qed.

Lemma map2_rows_width (c : nat) (rows1 rows2 : list (list float)) :
  rows_of_width c rows1 -> rows_of_width c rows2 ->
  rows_of_width c (map2 (map2 ratio_minus_one) rows1 rows2).
Proof.
  unfold rows_of_width. intros H1. revert rows2.
  induction H1 as [|r1 rows1 Hr1 _ IH]; intros rows2 H2; simpl; [constructor|].
  destruct H2 as [|r2 rows2 Hr2 H2]; [constructor|].
  constructor; [|now apply IH].
  rewrite length_map2. lia.
Qed.

(** The percent change of a rectangular frame is rectangular, under the
    same labels. *)
Lemma pct_change_rectangular `{Libraries} (periods : nat) (m : PivotMatrix) :
  rectangular m ->
  rectangular (pct_change periods m)
  /\ index (pct_change periods m) = index m
  /\ columns (pct_change periods m) = columns m.
Proof.
  intros [Hlen Hw].
  destruct (filled_shape _ _ Hw) as [Hlen' Hw'].
  split; [|split; reflexivity].
  split.
  - rewrite values_pct_change. simpl.
    rewrite length_map2, shift_length. lia.
  - rewrite values_pct_change. simpl.
    apply map2_rows_width; [assumption | now apply shift_width].
Qed.

(** X10.  Whatever the mode, the transform step hands on a frame with the
    row labels, the column labels and the shape of the pivoted one: no row
    is dropped (the leading rows of a percent change stay, as NaN) and no
    column is lost or renamed. *)
Theorem apply_mode_keeps_labels_and_shape `{Libraries}
    (mode units : string) (m : PivotMatrix) :
  rectangular m ->
  rectangular (fst (apply_mode mode units m))
  /\ index (fst (apply_mode mode units m)) = index m
  /\ columns (fst (apply_mode mode units m)) = columns m.
Proof.
  intros Hrect. unfold apply_mode.
  destruct (String.eqb mode "yoy"); [now apply pct_change_rectangular|].
  destruct (String.eqb mode "qoq"); [now apply pct_change_rectangular|].
  simpl. auto.
Qed.

Lemma apply_mode_keeps_labels_and_shape_witness :
  rectangular (fst (apply_mode (H := pandas2) "yoy" "USD bn" five_quarters))
  /\ index (fst (apply_mode (H := pandas2) "yoy" "USD bn" five_quarters))
     = index five_quarters
  /\ columns (fst (apply_mode (H := pandas2) "yoy" "USD bn" five_quarters))
     = columns five_quarters.
Proof.
  apply (apply_mode_keeps_labels_and_shape (H := pandas2) "yoy" "USD bn" five_quarters).
  split; [reflexivity | repeat constructor].
Defined.

Lemma iloc_pct_change_lag `{Libraries} (periods : nat) (m : PivotMatrix) (i j : nat)
    (row prev : list float) (x p : float) :
  nth_error (filled (values m)) (i + periods) = Some row -> nth_error row j = Some x ->
  nth_error (filled (values m)) i = Some prev -> nth_error prev j = Some p ->
  iloc (pct_change periods m) (i + periods) j = Some (ratio_minus_one x p).
Proof.
  intros Hrow Hx Hprev Hp. unfold iloc. rewrite values_pct_change.
  rewrite nth_error_map2, Hrow, shift_down, Hprev.
  - now rewrite nth_error_map2, Hx, Hp.
  - apply nth_error_Some. congruence.
Qed.

Lemma iloc_pct_change_top `{Libraries} (periods : nat) (m : PivotMatrix) (i j : nat) :
  rectangular m ->
  (i < periods)%nat -> (i < List.length (index m))%nat ->
  (j < List.length (columns m))%nat ->
  iloc (pct_change periods m) i j = Some nan.
Proof.
  intros [Hlen Hw] Hp Hi Hj.
  destruct (filled_shape _ _ Hw) as [Hlen' Hw'].
  unfold iloc. rewrite values_pct_change.
  rewrite nth_error_map2, shift_top by lia.
  destruct (nth_error (filled (values m)) i) as [row|] eqn:Hrow.
  - assert (Hr : List.length row = List.length (columns m)).
    { unfold rows_of_width in Hw'. rewrite Forall_forall in Hw'.
      eapply Hw', nth_error_In, Hrow. }
    rewrite nth_error_map2.
    destruct (nth_error row j) as [x|] eqn:Hx.
    + rewrite nth_error_repeat by assumption. now rewrite ratio_minus_one_nan.
    + apply nth_error_None in Hx. lia.
  - apply nth_error_None in Hrow. lia.
Qed.

(** X11.  Under the year-over-year mode the first four rows are NaN in
    every column, and from the fifth row on the cell of a column is
    (value[i+4] / value[i]) - 1 of the pivoted frame whenever value[i+4] and
    value[i] are both present; the units label becomes the YoY one. *)
Theorem yoy_is_ratio_to_four_rows_back `{Libraries} (m : PivotMatrix) (units : string) :
  rectangular m ->
  snd (apply_mode "yoy" units m) = "YoY % change"
  /\ (forall i j,
        (i < 4)%nat -> (i < List.length (index m))%nat ->
        (j < List.length (columns m))%nat ->
        iloc (fst (apply_mode "yoy" units m)) i j = Some nan)
  /\ (forall i j x p,
        iloc m (i + 4) j = Some x -> iloc m i j = Some p ->
        is_nan x = false -> is_nan p = false ->
        iloc (fst (apply_mode "yoy" units m)) (i + 4) j = Some (ratio_minus_one x p)).
Proof.
  intros Hrect. unfold apply_mode; simpl.
  split; [reflexivity|]. split.
  - intros i j Hi Hrows Hj. now apply iloc_pct_change_top.
  - intros i j x p Hx Hp Hnx Hnp. destruct Hrect as [_ Hw].
    apply iloc_inv in Hx as (row & Hrow & Hx).
    apply iloc_inv in Hp as (prev & Hprev & Hp).
    destruct (filled_keeps_present _ _ _ _ _ _ Hw Hrow Hx Hnx) as (row' & Hrow' & Hx').
    destruct (filled_keeps_present _ _ _ _ _ _ Hw Hprev Hp Hnp) as (prev' & Hprev' & Hp').
    eapply iloc_pct_change_lag; eassumption.
Qed.

Lemma yoy_is_ratio_to_four_rows_back_witness :
  snd (apply_mode (H := pandas2) "yoy" "USD bn" five_quarters) = "YoY % change"
  /\ (forall i j,
        (i < 4)%nat -> (i < List.length (index five_quarters))%nat ->
        (j < List.length (columns five_quarters))%nat ->
        iloc (fst (apply_mode (H := pandas2) "yoy" "USD bn" five_quarters)) i j
        = Some nan)
  /\ (forall i j x p,
        iloc five_quarters (i + 4) j = Some x -> iloc five_quarters i j = Some p ->
        is_nan x = false -> is_nan p = false ->
        iloc (fst (apply_mode (H := pandas2) "yoy" "USD bn" five_quarters)) (i + 4) j
        = Some (ratio_minus_one x p)).
Proof.
  apply (yoy_is_ratio_to_four_rows_back (H := pandas2) five_quarters "USD bn").
  split; [reflexivity | repeat constructor].
Defined.

(* ================================================================== *)
(** * Further properties of [plot_ts] *)
(* ================================================================== *)

(** X12.  The palettes of all sizes agree where they overlap: the colour at
    a position does not depend on the number of columns, so a column keeps
    its colour when columns are added after it. *)
Theorem palette_position_is_stable (n1 n2 i : nat) (c1 c2 : string) :
  nth_error (select_colors n1) i = Some c1 ->
  nth_error (select_colors n2) i = Some c2 ->
  c1 = c2.
Proof.
  unfold select_colors.
  destruct (n1 =? 2)%nat, (n1 =? 3)%nat, (n1 =? 4)%nat, (n1 =? 5)%nat,
           (n2 =? 2)%nat, (n2 =? 3)%nat, (n2 =? 4)%nat, (n2 =? 5)%nat;
    do 14 (destruct i as [|i]; simpl; try congruence);
    destruct i; simpl; congruence.
Qed.

Lemma palette_position_is_stable_witness : "#9b59b6" = "#9b59b6".
Proof.
  apply (palette_position_is_stable 3 14 2 "#9b59b6" "#9b59b6"); reflexivity.
Defined.

Lemma line_loop_returns (df : PivotMatrix) (colors : list string) (range : list nat) :
  forall fig fig',
    line_loop df colors range fig = Ret fig' ->
    fig' = fig ++ map (line_trace df colors) range
    /\ Forall (fun i => (i < List.length colors)%nat) range.
Proof.
  induction range as [|i range IH]; intros fig fig' Hloop; simpl in *.
  - inversion Hloop. rewrite app_nil_r. auto.
  - destruct (getitem colors i) as [c|] eqn:Hc; simpl in Hloop; [|discriminate].
    destruct (IH _ _ Hloop) as [-> Hall].
    rewrite <- app_assoc. simpl. unfold line_trace at 2.
    rewrite (getitem_nth _ _ _ "" Hc). split; [reflexivity|].
    constructor; [|assumption].
    unfold getitem in Hc. apply nth_error_Some.
    destruct (nth_error colors i); congruence.
Qed.

Lemma bar_loop_returns (df : PivotMatrix) (colors : list string) (range : list nat) :
  forall fig fig',
    bar_loop df colors range fig = Ret fig' ->
    fig' = fig ++ map (bar_trace df colors) range
    /\ Forall (fun i => (i < List.length colors)%nat) range.
Proof.
  induction range as [|i range IH]; intros fig fig' Hloop; simpl in *.
  - inversion Hloop. rewrite app_nil_r. auto.
  - destruct (getitem colors i) as [c|] eqn:Hc; simpl in Hloop; [|discriminate].
    destruct (IH _ _ Hloop) as [-> Hall].
    rewrite <- app_assoc. simpl. unfold bar_trace at 2.
    rewrite (getitem_nth _ _ _ "" Hc). split; [reflexivity|].
    constructor; [|assumption].
    unfold getitem in Hc. apply nth_error_Some.
    destruct (nth_error colors i); congruence.
Qed.

Lemma line_loop_raises (df : PivotMatrix) (colors : list string) (range : list nat) :
  forall fig e,
    line_loop df colors range fig = Raise e ->
    e = IndexError "list index out of range".
Proof.
  induction range as [|i range IH]; intros fig e Hloop; simpl in *; [discriminate|].
  unfold getitem in Hloop. destruct (nth_error colors i); simpl in Hloop.
  - eapply IH; eassumption.
  - now inversion Hloop.
Qed.

Lemma bar_loop_raises (df : PivotMatrix) (colors : list string) (range : list nat) :
  forall fig e,
    bar_loop df colors range fig = Raise e ->
    e = IndexError "list index out of range".
Proof.
  induction range as [|i range IH]; intros fig e Hloop; simpl in *; [discriminate|].
  unfold getitem in Hloop. destruct (nth_error colors i); simpl in Hloop.
  - eapply IH; eassumption.
  - now inversion Hloop.
Qed.

Lemma distribution_loop_returns (df : PivotMatrix) (colors : list string)
    (range : list nat) :
  colors <> [] ->
  forall fig,
    distribution_loop df colors range fig
    = Ret (fig ++ flat_map (distribution_traces df colors) range).
Proof.
  intros Hne. induction range as [|i range IH]; intros fig; simpl.
  - now rewrite app_nil_r.
  - assert (Hlen : (0 < List.length colors)%nat)
      by (destruct colors; [contradiction | simpl; lia]).
    unfold py_mod. destruct (Nat.eqb_spec (List.length colors) 0); [lia|]. simpl.
    assert (Hk : (i mod List.length colors < List.length colors)%nat)
      by (apply Nat.mod_upper_bound; lia).
    unfold getitem.
    destruct (nth_error colors (i mod List.length colors)) as [c|] eqn:Hc;
      [|apply nth_error_None in Hc; lia].
    simpl. rewrite (nth_error_nth _ _ "" Hc).
    destruct (dropna (column_values df i)); rewrite IH, <- ?app_assoc; reflexivity.
Qed.

Lemma select_colors_not_empty (ncols : nat) : select_colors ncols <> [].
Proof.
  pose proof (select_colors_at_most_13 ncols) as [Hlo _].
  intros E. rewrite E in Hlo. simpl in Hlo. lia.
Qed.

(** The traces and the x-axis title that the branch of [chart] builds. *)
Lemma plot_ts_returns `{Libraries} (df : PivotMatrix)
    (nome units chart source theme : string) (margins : list nat) (fig : Figure) :
  plot_ts df nome units chart source theme margins = Ret fig ->
  let ncols := List.length (columns df) in
  let colors := select_colors ncols in
  (4 <= List.length margins)%nat
  /\ match branch_of chart with
     | bar_branch =>
         fig_data fig = map (bar_trace df colors) (seq 0 ncols)
         /\ (ncols <= List.length colors)%nat
     | regression_branch =>
         exists traces_xtitle,
           regression_traces df = Ret traces_xtitle
           /\ fig_data fig = fst traces_xtitle
     | distribution_branch =>
         fig_data fig = flat_map (distribution_traces df colors) (seq 0 ncols)
     | line_branch =>
         fig_data fig = map (line_trace df colors) (seq 0 ncols)
         /\ (ncols <= List.length colors)%nat
     end.
Proof.
  intros Hfig ncols colors. split.
  - destruct margins as [|l [|r [|t [|b rest]]]]; simpl; try lia; exfalso;
      revert Hfig; unfold plot_ts;
      match goal with
      | |- (traces_xtitle <- ?stage ;; _) = _ -> _ => destruct stage as [tx|x]
      end; simpl; discriminate.
  - revert Hfig. unfold plot_ts, branch_of. fold ncols. fold colors.
    destruct (String.eqb chart "Bar" || String.eqb chart "Bar_PCT" || String.eqb chart "bar").
    + destruct (bar_loop df colors (seq 0 ncols) []) as [t|] eqn:Hloop; simpl;
        [|discriminate].
      read_margins. intros E; inversion E; subst; simpl.
      destruct (bar_loop_returns _ _ _ _ _ Hloop) as [-> Hall]. split; [reflexivity|].
      destruct ncols as [|k]; [lia|].
      rewrite Forall_forall in Hall.
      assert (k < List.length colors)%nat; [|lia].
      apply Hall, in_seq. lia.
    + destruct (String.eqb chart "regression").
      * destruct (regression_traces df) as [tx|] eqn:Hreg; simpl; [|discriminate].
        read_margins. intros E; inversion E; subst. exists tx. split; reflexivity.
      * destruct (String.eqb chart "distribution").
        -- rewrite (distribution_loop_returns df colors (seq 0 ncols)
                      (select_colors_not_empty ncols) []).
           simpl. read_margins. intros E; inversion E; subst; reflexivity.
        -- destruct (line_loop df colors (seq 0 ncols) []) as [t|] eqn:Hloop; simpl;
             [|discriminate].
           read_margins. intros E; inversion E; subst; simpl.
           destruct (line_loop_returns _ _ _ _ _ Hloop) as [-> Hall].
           split; [reflexivity|].
           destruct ncols as [|k]; [lia|].
           rewrite Forall_forall in Hall.
           assert (k < List.length colors)%nat; [|lia].
           apply Hall, in_seq. lia.
Qed.

Lemma map_nth_seq_id {A : Type} (l : list A) (d : A) :
  map (fun i => nth i l d) (seq 0 (List.length l)) = l.
Proof.
  induction l as [|a l IH]; simpl; [reflexivity|].
  f_equal. rewrite <- seq_shift, map_map. exact IH.
Qed.

(** X13.  A line chart that [plot_ts] returns (any chart name that is not
    a bar, regression or distribution name) has exactly one trace per column
    of the frame, in column order: the i-th trace is a scatter over the row
    labels with the values of column i, named after that column and drawn
    in the i-th palette colour; the frame then has at most 13 columns. *)
Theorem line_chart_has_one_trace_per_column `{Libraries} (df : PivotMatrix)
    (nome units chart source theme : string) (margins : list nat) (fig : Figure) :
  branch_of chart = line_branch ->
  plot_ts df nome units chart source theme margins = Ret fig ->
  fig_data fig
  = map (line_trace df (select_colors (List.length (columns df))))
        (seq 0 (List.length (columns df)))
  /\ List.length (fig_data fig) = List.length (columns df)
  /\ map trace_name (fig_data fig) = columns df
  /\ (List.length (columns df) <= 13)%nat.
Proof.
  intros Hbranch Hfig.
  destruct (plot_ts_returns _ _ _ _ _ _ _ _ Hfig) as [_ Hdata].
  rewrite Hbranch in Hdata. destruct Hdata as [Hdata Hle].
  rewrite Hdata. split; [reflexivity|]. split; [|split].
  - now rewrite length_map, length_seq.
  - rewrite map_map. simpl. unfold column_name. apply map_nth_seq_id.
  - pose proof (select_colors_at_most_13 (List.length (columns df))). lia.
Qed.

Lemma line_chart_has_one_trace_per_column_witness :
  fig_data (line_figure three_columns "light")
  = map (line_trace three_columns (select_colors (List.length (columns three_columns))))
        (seq 0 (List.length (columns three_columns)))
  /\ List.length (fig_data (line_figure three_columns "light"))
     = List.length (columns three_columns)
  /\ map trace_name (fig_data (line_figure three_columns "light"))
     = columns three_columns
  /\ (List.length (columns three_columns) <= 13)%nat.
Proof.
  apply (line_chart_has_one_trace_per_column (H := pandas2) three_columns
           "BIS Data" "USD bn" "line" default_source "light" default_margins);
    reflexivity.
Defined.

Lemma last_in {A : Type} (l : list A) (d : A) : l <> [] -> In (last l d) l.
Proof.
  induction l as [|a l IH]; intros Hne; [contradiction|].
  destruct l as [|b l]; [now left|].
  right. apply IH. discriminate.
Qed.

Lemma dropna_all_present (l : list float) : all_present (dropna l).
Proof.
  unfold all_present, dropna. apply Forall_forall. intros v Hv.
  apply filter_In in Hv as [_ Hv]. now apply negb_true_iff in Hv.
Qed.

Lemma distribution_traces_present (df : PivotMatrix) (colors : list string) (i : nat) :
  Forall (fun t => all_present (trace_y t)) (distribution_traces df colors i).
Proof.
  unfold distribution_traces.
  pose proof (dropna_all_present (column_values df i)) as Hy.
  assert (Hlast : dropna (column_values df i) <> [] ->
                  is_nan (last (dropna (column_values df i)) nan) = false).
  { intros Hne. unfold all_present in Hy. rewrite Forall_forall in Hy.
    now apply Hy, last_in. }
  constructor; [exact Hy|].
  destruct (dropna (column_values df i)) as [|v y]; constructor; [|constructor].
  constructor; [|constructor]. apply Hlast. discriminate.
Qed.

(** X14.  The distribution chart never runs off the palette: for a frame
    with any number of columns and margins of four entries or more it
    returns a figure.  The figure has, per column and in column order, a
    violin of the present values of the column followed, when the column has
    one, by a marker on its latest present value; no trace holds a NaN. *)
Theorem distribution_chart_always_returns `{Libraries} (df : PivotMatrix)
    (nome units source theme : string) (margins : list nat) :
  (4 <= List.length margins)%nat ->
  exists fig,
    plot_ts df nome units "distribution" source theme margins = Ret fig
    /\ fig_data fig
       = flat_map (distribution_traces df (select_colors (List.length (columns df))))
                  (seq 0 (List.length (columns df)))
    /\ Forall (fun t => all_present (trace_y t)) (fig_data fig).
Proof.
  intros Hm. unfold plot_ts. simpl.
  rewrite (distribution_loop_returns df _ _ (select_colors_not_empty _) []).
  simpl. unfold getitem.
  destruct margins as [|l [|r [|t [|b rest]]]]; simpl in Hm; try lia.
  simpl. eexists. split; [reflexivity|]. simpl. split; [reflexivity|].
  apply Forall_flat_map, Forall_forall. intros i _.
  apply distribution_traces_present.
Qed.

Lemma distribution_chart_always_returns_witness :
  exists fig,
    plot_ts (H := pandas2) fourteen_columns "BIS Data" "USD bn" "distribution"
      default_source "light" default_margins = Ret fig
    /\ fig_data fig
       = flat_map (distribution_traces fourteen_columns
                     (select_colors (List.length (columns fourteen_columns))))
                  (seq 0 (List.length (columns fourteen_columns)))
    /\ Forall (fun t => all_present (trace_y t)) (fig_data fig).
Proof.
  apply (distribution_chart_always_returns (H := pandas2) fourteen_columns
           "BIS Data" "USD bn" default_source "light" default_margins).
  simpl. lia.
Defined.

Lemma both_present_present (xs ys : list float) :
  all_present (map fst (both_present xs ys))
  /\ all_present (map snd (both_present xs ys)).
Proof.
  unfold all_present. revert ys.
  induction xs as [|x xs IH]; intros [|y ys]; simpl; try (split; constructor).
  destruct (is_nan x) eqn:Hx, (is_nan y) eqn:Hy; simpl; try apply IH.
  destruct (IH ys) as [H1 H2]. split; constructor; assumption.
Qed.

Lemma length_last12 {A : Type} (l : list A) :
  List.length (last12 l) = Nat.min 12 (List.length l).
Proof. unfold last12. rewrite length_skipn. lia. Qed.

Lemma in_last12 {A : Type} (l : list A) (x : A) : In x (last12 l) -> In x l.
Proof.
  unfold last12. intros Hx.
  rewrite <- (firstn_skipn (List.length l - 12) l). apply in_or_app. now right.
Qed.

Lemma regression_traces_raises `{Libraries} (df : PivotMatrix) (e : exn) :
  regression_traces df = Raise e
  <-> (2 <= List.length (columns df))%nat
      /\ (1 < List.length (regression_points df))%nat
      /\ polyfit1 (map fst (regression_points df)) (map snd (regression_points df))
         = Raise e.
Proof.
  unfold regression_traces, regression_points.
  set (points := both_present (column_values df 0) (column_values df 1)).
  destruct (Nat.leb_spec 2 (List.length (columns df))) as [Hge|Hlt].
  2:{ split; [discriminate | intros [Hc _]; lia]. }
  rewrite length_map.
  destruct (Nat.ltb_spec 1 (List.length points)) as [Hgt|Hle]; simpl.
  2:{ split; [discriminate | intros (_ & Hc & _); lia]. }
  destruct (polyfit1 (map fst points) (map snd points)) as [coef|x]; simpl.
  - split; [discriminate | intros (_ & _ & Hc); discriminate].
  - split.
    + intros E; inversion E. auto.
    + intros (_ & _ & E). inversion E. reflexivity.
Qed.

Lemma regression_traces_shape `{Libraries} (df : PivotMatrix)
    (traces_xtitle : list Trace * option string) :
  regression_traces df = Ret traces_xtitle ->
  let points := regression_points df in
  ((List.length (columns df) < 2)%nat -> fst traces_xtitle = [])
  /\ Forall (fun t => List.length (x_numbers t) = List.length (trace_y t))
            (fst traces_xtitle)
  /\ Forall (fun t => trace_mode t = Some "markers" ->
                      all_present (x_numbers t) /\ all_present (trace_y t))
            (fst traces_xtitle)
  /\ ((2 <= List.length (columns df))%nat ->
      exists scatter fit latest,
        fst traces_xtitle = scatter :: fit ++ [latest]
        /\ trace_y scatter = map snd points
        /\ trace_y latest = last12 (map snd points)
        /\ List.length (trace_y latest) = Nat.min 12 (List.length points)
        /\ ((List.length points <= 1)%nat -> fit = [])
        /\ ((1 < List.length points)%nat ->
            exists coef,
              polyfit1 (map fst points) (map snd points) = Ret coef
              /\ fit = [regression_line (map fst points) coef])).
Proof.
  unfold regression_traces, regression_points.
  set (points := both_present (column_values df 0) (column_values df 1)).
  destruct (both_present_present (column_values df 0) (column_values df 1))
    as [Hx Hy]. fold points in Hx, Hy.
  destruct (Nat.leb_spec 2 (List.length (columns df))) as [Hge|Hlt].
  2:{ intros E; inversion E; subst; simpl.
      split; [reflexivity|]. repeat split; try constructor. lia. }
  rewrite length_map.
  set (stage := if (1 <? List.length points)%nat
                then coef <- polyfit1 (map fst points) (map snd points) ;;
                     Ret [regression_line (map fst points) coef]
                else Ret []).
  assert (Hstage : forall fit, stage = Ret fit ->
             Forall (fun t => List.length (x_numbers t) = List.length (trace_y t)) fit
             /\ Forall (fun t => trace_mode t = Some "markers" ->
                                 all_present (x_numbers t) /\ all_present (trace_y t)) fit
             /\ ((List.length points <= 1)%nat -> fit = [])
             /\ ((1 < List.length points)%nat ->
                 exists coef,
                   polyfit1 (map fst points) (map snd points) = Ret coef
                   /\ fit = [regression_line (map fst points) coef])).
  { intros fit. unfold stage.
    destruct (Nat.ltb_spec 1 (List.length points)) as [Hgt|Hle].
    - destruct (polyfit1 (map fst points) (map snd points)) as [coef|x]; simpl;
        [|discriminate].
      intros E; inversion E; subst fit. split; [|split; [|split]].
      + constructor; [|constructor]. unfold x_numbers; simpl. now rewrite !length_map.
      + constructor; [|constructor]. simpl. discriminate.
      + lia.
      + intros _. exists coef. split; reflexivity.
    - intros E; inversion E; subst fit.
      split; [constructor|]. split; [constructor|]. split; [reflexivity | lia]. }
  destruct stage as [fit|x]; simpl; [|discriminate].
  destruct (Hstage fit eq_refl) as (Hf1 & Hf2 & Hf3 & Hf4).
  intros E; inversion E; subst traces_xtitle; simpl fst.
  split; [lia|]. split; [|split].
  - constructor; [unfold x_numbers; simpl; now rewrite !length_map|].
    apply Forall_app. split; [assumption|].
    constructor; [|constructor].
    unfold x_numbers; simpl. now rewrite !length_last12, !length_map.
  - constructor; [intros _; unfold x_numbers; simpl; now split|].
    apply Forall_app. split; [assumption|].
    constructor; [|constructor]. intros _. unfold x_numbers; simpl.
    unfold all_present in *. rewrite !Forall_forall in *.
    split; intros v Hv; [apply Hx | apply Hy]; now apply in_last12.
  - intros _. eexists _, fit, _. split; [reflexivity|]. simpl.
    repeat split; try assumption.
    now rewrite length_last12, length_map.
Qed.

(** With four margins or more, the regression chart is what its traces are. *)
Lemma plot_ts_regression `{Libraries} (df : PivotMatrix)
    (nome units source theme : string) (margins : list nat) :
  (4 <= List.length margins)%nat ->
  match regression_traces df with
  | Ret traces_xtitle =>
      exists fig,
        plot_ts df nome units "regression" source theme margins = Ret fig
        /\ fig_data fig = fst traces_xtitle
  | Raise e => plot_ts df nome units "regression" source theme margins = Raise e
  end.
Proof.
  intros Hm. unfold plot_ts. simpl.
  destruct (regression_traces df) as [tx|e]; simpl; [|reflexivity].
  unfold getitem.
  destruct margins as [|l [|r [|t [|b rest]]]]; simpl in Hm; try lia.
  simpl. eexists. split; reflexivity.
Qed.

(** X15.  The regression chart does not use the palette, and with margins of
    four entries or more the only thing that can make it fail is the line
    fit: [plot_ts] raises exactly when the frame has two columns or more,
    more than one row where the first two columns are both present, and
    [np.polyfit] raises on those rows, and it then raises that exception.
    Otherwise it returns a figure.  With fewer than two columns the figure
    has no trace.  With two or more it has the scatter of the rows where the
    first two columns are both present, the fitted line when there is more
    than one such row, and the "Latest 12" marker trace, which holds the
    last 12 of those rows (all of them when there are fewer); every trace
    has as many x as y values, and the two marker traces hold no NaN. *)
Theorem regression_chart_shape `{Libraries} (df : PivotMatrix)
    (nome units source theme : string) (margins : list nat) :
  (4 <= List.length margins)%nat ->
  let points := regression_points df in
  (forall e,
     plot_ts df nome units "regression" source theme margins = Raise e
     <-> (2 <= List.length (columns df))%nat
         /\ (1 < List.length points)%nat
         /\ polyfit1 (map fst points) (map snd points) = Raise e)
  /\ ((forall e, polyfit1 (map fst points) (map snd points) <> Raise e) ->
      exists fig, plot_ts df nome units "regression" source theme margins = Ret fig)
  /\ (forall fig,
        plot_ts df nome units "regression" source theme margins = Ret fig ->
        ((List.length (columns df) < 2)%nat -> fig_data fig = [])
        /\ Forall (fun t => List.length (x_numbers t) = List.length (trace_y t))
                  (fig_data fig)
        /\ Forall (fun t => trace_mode t = Some "markers" ->
                            all_present (x_numbers t) /\ all_present (trace_y t))
                  (fig_data fig)
        /\ ((2 <= List.length (columns df))%nat ->
            exists scatter fit latest,
              fig_data fig = scatter :: fit ++ [latest]
              /\ trace_y scatter = map snd points
              /\ trace_y latest = last12 (map snd points)
              /\ List.length (trace_y latest) = Nat.min 12 (List.length points)
              /\ ((List.length points <= 1)%nat -> fit = [])
              /\ ((1 < List.length points)%nat ->
                  exists coef,
                    polyfit1 (map fst points) (map snd points) = Ret coef
                    /\ fit = [regression_line (map fst points) coef]))).
Proof.
  intros Hm points. subst points.
  pose proof (plot_ts_regression df nome units source theme margins Hm) as Hplot.
  pose proof (regression_traces_raises df) as Hraises.
  pose proof (regression_traces_shape df) as Hshape. cbv zeta in Hshape.
  destruct (regression_traces df) as [tx|x] eqn:Hreg.
  - destruct Hplot as (fig0 & Hfig0 & Hdata0). split; [|split].
    + intros e. rewrite Hfig0. split; [discriminate|].
      intros Hc. apply Hraises in Hc. discriminate.
    + intros _. now exists fig0.
    + intros fig Hfig. rewrite Hfig0 in Hfig. inversion Hfig; subst fig.
      rewrite Hdata0. now apply Hshape.
  - split; [|split].
    + intros e. rewrite Hplot. split.
      * intros E; inversion E; subst e. now apply Hraises.
      * intros Hc. apply Hraises in Hc. inversion Hc. reflexivity.
    + intros Hnever. exfalso.
      destruct (proj1 (Hraises x) eq_refl) as (_ & _ & Hfit).
      exact (Hnever x Hfit).
    + intros fig Hfig. rewrite Hplot in Hfig. discriminate.
Qed.

Lemma regression_chart_shape_witness :
  let points := regression_points three_columns in
  (forall e,
     plot_ts (H := pandas2) three_columns "BIS Data" "USD bn" "regression"
       default_source "light" default_margins = Raise e
     <-> (2 <= List.length (columns three_columns))%nat
         /\ (1 < List.length points)%nat
         /\ polyfit1 (Libraries := pandas2) (map fst points) (map snd points) = Raise e)
  /\ ((forall e, polyfit1 (Libraries := pandas2) (map fst points) (map snd points)
                 <> Raise e) ->
      exists fig,
        plot_ts (H := pandas2) three_columns "BIS Data" "USD bn" "regression"
          default_source "light" default_margins = Ret fig)
  /\ (forall fig,
        plot_ts (H := pandas2) three_columns "BIS Data" "USD bn" "regression"
          default_source "light" default_margins = Ret fig ->
        ((List.length (columns three_columns) < 2)%nat -> fig_data fig = [])
        /\ Forall (fun t => List.length (x_numbers t) = List.length (trace_y t))
                  (fig_data fig)
        /\ Forall (fun t => trace_mode t = Some "markers" ->
                            all_present (x_numbers t) /\ all_present (trace_y t))
                  (fig_data fig)
        /\ ((2 <= List.length (columns three_columns))%nat ->
            exists scatter fit latest,
              fig_data fig = scatter :: fit ++ [latest]
              /\ trace_y scatter = map snd points
              /\ trace_y latest = last12 (map snd points)
              /\ List.length (trace_y latest) = Nat.min 12 (List.length points)
              /\ ((List.length points <= 1)%nat -> fit = [])
              /\ ((1 < List.length points)%nat ->
                  exists coef,
                    polyfit1 (Libraries := pandas2) (map fst points) (map snd points)
                    = Ret coef
                    /\ fit = [regression_line (map fst points) coef]))).
Proof.
  apply (regression_chart_shape (H := pandas2) three_columns "BIS Data" "USD bn"
           default_source "light" default_margins).
  simpl. lia.
Defined.

(** X16.  [plot_ts] reads [margins[0]] to [margins[3]] without checking the
    list: with fewer than four margins it never returns a figure.  It raises
    [IndexError], for every frame and every chart name, unless the chart is
    the regression and the line fit has raised before the margins are read;
    it then raises the exception of the fit. *)
Theorem short_margins_never_return_a_figure `{Libraries} (df : PivotMatrix)
    (nome units chart source theme : string) (margins : list nat) :
  (List.length margins < 4)%nat ->
  plot_ts df nome units chart source theme margins
  = Raise (IndexError "list index out of range")
  \/ (chart = "regression"
      /\ (2 <= List.length (columns df))%nat
      /\ (1 < List.length (regression_points df))%nat
      /\ exists e,
           polyfit1 (map fst (regression_points df)) (map snd (regression_points df))
           = Raise e
           /\ plot_ts df nome units chart source theme margins = Raise e).
Proof.
  intros Hm. unfold plot_ts.
  set (ncols := List.length (columns df)).
  set (colors := select_colors ncols).
  assert (Hmargins : forall (tx : list Trace * option string) k,
             (l <- getitem margins 0 ;; r <- getitem margins 1 ;;
              t <- getitem margins 2 ;; b <- getitem margins 3 ;; k tx l r t b)
             = (Raise (IndexError "list index out of range") : result Figure)).
  { intros tx k. unfold getitem.
    destruct margins as [|l [|r [|t [|b rest]]]]; simpl in *; try reflexivity. lia. }
  destruct (String.eqb chart "Bar" || String.eqb chart "Bar_PCT" || String.eqb chart "bar").
  - left. destruct (bar_loop df colors (seq 0 ncols) []) as [t|x] eqn:Hloop; simpl.
    + apply (Hmargins (t, None)
               (fun tx l r t b =>
                  Ret (mkFigure (fst tx) (mkLayout _ _ (snd tx) _ _ _ _ _ _ _ l r t b)))).
    + now rewrite (bar_loop_raises _ _ _ _ _ Hloop).
  - destruct (String.eqb_spec chart "regression") as [Hchart|_].
    + destruct (regression_traces df) as [tx|x] eqn:Hreg; simpl.
      * left.
        apply (Hmargins tx
                 (fun tx l r t b =>
                    Ret (mkFigure (fst tx) (mkLayout _ _ (snd tx) _ _ _ _ _ _ _ l r t b)))).
      * right. apply regression_traces_raises in Hreg as (Hc & Hp & Hfit).
        split; [assumption|]. split; [assumption|]. split; [assumption|].
        exists x. split; [assumption | reflexivity].
    + left. destruct (String.eqb chart "distribution").
      * rewrite (distribution_loop_returns df colors (seq 0 ncols)
                   (select_colors_not_empty ncols) []).
        simpl.
        apply (Hmargins (_, None)
                 (fun tx l r t b =>
                    Ret (mkFigure (fst tx) (mkLayout _ _ (snd tx) _ _ _ _ _ _ _ l r t b)))).
      * destruct (line_loop df colors (seq 0 ncols) []) as [t|x] eqn:Hloop; simpl.
        -- apply (Hmargins (t, None)
                    (fun tx l r t b =>
                       Ret (mkFigure (fst tx)
                              (mkLayout _ _ (snd tx) _ _ _ _ _ _ _ l r t b)))).
        -- now rewrite (line_loop_raises _ _ _ _ _ Hloop).
Qed.

Lemma short_margins_never_return_a_figure_witness :
  plot_ts (H := pandas2) three_columns "BIS Data" "USD bn" "line" default_source
    "light" [50; 50; 70]%nat
  = Raise (IndexError "list index out of range")
  \/ ("line" = "regression"
      /\ (2 <= List.length (columns three_columns))%nat
      /\ (1 < List.length (regression_points three_columns))%nat
      /\ exists e,
           polyfit1 (Libraries := pandas2)
             (map fst (regression_points three_columns))
             (map snd (regression_points three_columns))
           = Raise e
           /\ plot_ts (H := pandas2) three_columns "BIS Data" "USD bn" "line"
                default_source "light" [50; 50; 70]%nat = Raise e).
Proof.
  apply (short_margins_never_return_a_figure (H := pandas2) three_columns "BIS Data"
           "USD bn" "line" default_source "light" [50; 50; 70]%nat).
  simpl. lia.
Defined.

(* ================================================================== *)
(** * Further properties of the chart endpoint *)
(* ================================================================== *)

Lemma filter_startdate_early `{Libraries} (startdate : option string)
    (df : list Row) (early : JSONResponse) :
  filter_startdate startdate df = inr early ->
  exists s e,
    startdate = Some s /\ s <> "" /\ to_datetime s = Raise e
    /\ early = mkJSONResponse (error_content ("Invalid startdate: " ++ str_exn e)) 400.
Proof.
  unfold filter_startdate, truthy.
  destruct startdate as [s|]; [|discriminate].
  destruct (String.eqb_spec s "") as [->|Hne]; simpl; [discriminate|].
  destruct (to_datetime s) as [start|e] eqn:Hparse; simpl; [discriminate|].
  intros E; inversion E. exists s, e. auto.
Qed.

(** The endpoint from the pivoted frame on. *)
Lemma bis_credit_chart_after_pivot `{Libraries} (plot_available : bool) (net : network)
    (resource_id key units theme : string) (startdate : option string)
    (mode : string) (xml : xml_text) (df : list Observation)
    (rows kept : list Row) (m : PivotMatrix) :
  fetch_bis_data_simple net resource_id key = Ret xml ->
  parse_bis_xml xml = Ret df ->
  df <> [] ->
  to_timestamps df = Ret rows ->
  filter_startdate startdate (sort_values rows) = inl kept ->
  pivot_by_date kept = Ret m ->
  bis_credit_chart plot_available net resource_id key units theme startdate mode
  = if negb plot_available then
      Ret (mkJSONResponse
             (error_content
                "plot_ts or plotly not available. Please install plot.py and plotly.")
             500)
    else
      fig <- plot_ts (fst (apply_mode mode units m)) "BIS Data"
               (snd (apply_mode mode units m)) "line" default_source theme
               default_margins ;;
      Ret (mkJSONResponse (figure_content fig) 200).
Proof.
  intros Hfetch Hparse Hne Hts Hfilter Hpivot.
  unfold bis_credit_chart, parse_bis_xml_df. rewrite Hfetch. simpl.
  rewrite Hparse. simpl.
  destruct df as [|o df]; [contradiction|]. simpl df_empty. cbv iota.
  rewrite Hts. simpl. rewrite Hfilter, Hpivot. simpl.
  now destruct (apply_mode mode units m).
Qed.

(** What stands behind a figure the endpoint returns. *)
Lemma bis_credit_chart_figure `{Libraries} (plot_available : bool) (net : network)
    (resource_id key units theme : string) (startdate : option string)
    (mode : string) (fig : Figure) (status : nat) :
  bis_credit_chart plot_available net resource_id key units theme startdate mode
  = Ret (mkJSONResponse (figure_content fig) status) ->
  exists kept m,
    pivot_by_date kept = Ret m
    /\ status = 200%nat
    /\ plot_ts (fst (apply_mode mode units m)) "BIS Data"
         (snd (apply_mode mode units m)) "line" default_source theme default_margins
       = Ret fig.
Proof.
  unfold bis_credit_chart.
  destruct (fetch_bis_data_simple net resource_id key) as [xml|]; simpl; [|discriminate].
  destruct (parse_bis_xml_df xml) as [df|]; simpl; [|discriminate].
  destruct (df_empty df); [discriminate|].
  destruct (to_timestamps df) as [rows|]; simpl; [|discriminate].
  destruct (filter_startdate startdate (sort_values rows)) as [kept|early] eqn:Hfilter.
  - destruct (pivot_by_date kept) as [m|] eqn:Hpivot; simpl; [|discriminate].
    destruct (apply_mode mode units m) as [m' units'] eqn:Hmode.
    destruct plot_available; simpl; [|discriminate].
    destruct (plot_ts m' "BIS Data" units' "line" default_source theme default_margins)
      as [f|] eqn:Hplot; simpl; [|discriminate].
    intros E; inversion E; subst. exists kept, m. rewrite Hmode. simpl. auto.
  - destruct (filter_startdate_early _ _ _ Hfilter) as (s & e & _ & _ & _ & ->).
    discriminate.
Qed.

Lemma plot_ts_layout `{Libraries} (df : PivotMatrix)
    (nome units chart source theme : string) (margins : list nat) (fig : Figure) :
  plot_ts df nome units chart source theme margins = Ret fig ->
  yaxis_title (fig_layout fig) = units
  /\ title_annotation (fig_layout fig) = ("<b>" ++ nome ++ "<b>")%string
  /\ source_annotation (fig_layout fig) = source
  /\ yaxis_tickformat (fig_layout fig)
     = (if is_percent_chart chart then Some ",.2%" else None)
  /\ template (fig_layout fig)
     = (if String.eqb theme "light" then "plotly_white" else "plotly_dark").
Proof.
  unfold plot_ts.
  match goal with
  | |- (traces_xtitle <- ?stage ;; _) = _ -> _ => destruct stage as [tx|x]
  end; simpl; [|discriminate].
  read_margins. intros E; inversion E; subst; simpl. repeat split.
Qed.

Lemma snd_apply_mode `{Libraries} (mode units : string) (m : PivotMatrix) :
  snd (apply_mode mode units m) = units_for mode units.
Proof.
  unfold apply_mode, units_for.
  destruct (String.eqb mode "yoy"); [reflexivity|].
  now destruct (String.eqb mode "qoq").
Qed.

(** X17.  Every figure the chart endpoint returns comes with status 200 and
    is a line chart of a pivoted frame: one scatter trace without drawing
    mode per country, the names being distinct and at most 13; the title is
    "BIS Data", the y-axis title is the caller's units or, in yoy and qoq
    mode, the fixed YoY/QoQ label; and the axis never gets the percent tick
    format, not even in the two percent-change modes. *)
Theorem chart_endpoint_figure `{Libraries} (plot_available : bool) (net : network)
    (resource_id key units theme : string) (startdate : option string)
    (mode : string) (fig : Figure) (status : nat) :
  bis_credit_chart plot_available net resource_id key units theme startdate mode
  = Ret (mkJSONResponse (figure_content fig) status) ->
  status = 200%nat
  /\ Forall (fun t => trace_kind t = go_Scatter /\ trace_mode t = None) (fig_data fig)
  /\ NoDup (map trace_name (fig_data fig))
  /\ (List.length (fig_data fig) <= 13)%nat
  /\ title_annotation (fig_layout fig) = "<b>BIS Data<b>"
  /\ yaxis_title (fig_layout fig) = units_for mode units
  /\ yaxis_tickformat (fig_layout fig) = None.
Proof.
  intros Hresp.
  destruct (bis_credit_chart_figure _ _ _ _ _ _ _ _ _ _ Hresp)
    as (kept & m & Hpivot & -> & Hplot).
  destruct (plot_ts_returns _ _ _ _ _ _ _ _ Hplot) as [_ Hdata].
  change (branch_of "line") with line_branch in Hdata. destruct Hdata as [Hdata Hle].
  destruct (plot_ts_layout _ _ _ _ _ _ _ _ Hplot) as (Hy & Ht & _ & Hf & _).
  assert (Hcols : columns (fst (apply_mode mode units m)) = columns m).
  { unfold apply_mode. destruct (String.eqb mode "yoy"); [reflexivity|].
    now destruct (String.eqb mode "qoq"). }
  split; [reflexivity|]. split; [|split; [|split; [|split; [|split]]]].
  - rewrite Hdata. apply Forall_forall. intros t Ht'.
    apply in_map_iff in Ht' as (i & <- & _). split; reflexivity.
  - rewrite Hdata, map_map. simpl. unfold column_name.
    rewrite map_nth_seq_id, Hcols.
    destruct (has_duplicate_keys kept) eqn:Hdup.
    + unfold pivot_by_date, pivot in Hpivot. rewrite Hdup in Hpivot. discriminate.
    + rewrite (pivot_by_date_unique kept Hdup) in Hpivot.
      inversion Hpivot; subst m; simpl.
      apply (strictly_ascending_NoDup String.leb),
        (sort_unique_strictly_ascending String.leb String.eqb String.eqb_eq
           string_leb_total string_leb_trans String.leb_antisym).
  - rewrite Hdata, length_map, length_seq.
    pose proof (select_colors_at_most_13
                  (List.length (columns (fst (apply_mode mode units m))))).
    lia.
  - exact Ht.
  - now rewrite Hy, snd_apply_mode.
  - exact Hf.
Qed.

Lemma chart_endpoint_figure_witness :
  let fig :=
    line_figure
      (mkPivotMatrix [q1_2020; q2_2020] ["JP"; "US"]
         [[nan; 52036.5%float]; [18880.125%float; 54494.25%float]])
      "light" in
  200%nat = 200%nat
  /\ Forall (fun t => trace_kind t = go_Scatter /\ trace_mode t = None) (fig_data fig)
  /\ NoDup (map trace_name (fig_data fig))
  /\ (List.length (fig_data fig) <= 13)%nat
  /\ title_annotation (fig_layout fig) = "<b>BIS Data<b>"
  /\ yaxis_title (fig_layout fig) = units_for "total" "USD bn"
  /\ yaxis_tickformat (fig_layout fig) = None.
Proof.
  apply (chart_endpoint_figure (H := pandas2) true sample_upstream "WS_TC"
           "Q.US+JP.N.A.M.USD.A" "USD bn" "light" None "total").
  vm_compute. reflexivity.
Defined.

Lemma columns_apply_mode `{Libraries} (mode units : string) (m : PivotMatrix) :
  columns (fst (apply_mode mode units m)) = columns m.
Proof.
  unfold apply_mode. destruct (String.eqb mode "yoy"); [reflexivity|].
  now destruct (String.eqb mode "qoq").
Qed.

(** X18.  Once the feed has been fetched, parsed (non-empty), dated,
    filtered and pivoted, the number of country columns decides the answer
    of the chart endpoint in every mode: with at most 13 the client gets a
    200 with a figure, with 14 or more the line loop raises [IndexError] and
    the client gets the server's bare 500. *)
Theorem chart_endpoint_answers_up_to_13_countries `{Libraries} (net : network)
    (resource_id key units theme : string) (startdate : option string)
    (mode : string) (xml : xml_text) (df : list Observation)
    (rows kept : list Row) (m : PivotMatrix) :
  fetch_bis_data_simple net resource_id key = Ret xml ->
  parse_bis_xml xml = Ret df ->
  df <> [] ->
  to_timestamps df = Ret rows ->
  filter_startdate startdate (sort_values rows) = inl kept ->
  pivot_by_date kept = Ret m ->
  ((List.length (columns m) <= 13)%nat ->
   exists fig,
     serve_chart (bis_credit_chart true net resource_id key units theme startdate mode)
     = Replied 200 (figure_content fig))
  /\ ((14 <= List.length (columns m))%nat ->
      bis_credit_chart true net resource_id key units theme startdate mode
      = Raise (IndexError "list index out of range")
      /\ serve_chart (bis_credit_chart true net resource_id key units theme startdate mode)
         = InternalServerError).
Proof.
  intros Hfetch Hparse Hne Hts Hfilter Hpivot.
  rewrite (bis_credit_chart_after_pivot true net resource_id key units theme startdate
             mode xml df rows kept m Hfetch Hparse Hne Hts Hfilter Hpivot).
  simpl negb. cbv iota. split; intros Hcols.
  - destruct (plot_ts_line_within_palette (fst (apply_mode mode units m)) "BIS Data"
                (snd (apply_mode mode units m)) default_source theme) as [fig ->].
    { now rewrite columns_apply_mode. }
    exists fig. reflexivity.
  - rewrite plot_ts_line_beyond_palette by now rewrite columns_apply_mode.
    split; reflexivity.
Qed.

Lemma chart_endpoint_answers_up_to_13_countries_witness :
  ((List.length ["JP"; "US"] <= 13)%nat ->
   exists fig,
     serve_chart (bis_credit_chart (H := pandas2) true sample_upstream "WS_TC"
                    "Q.US+JP.N.A.M.USD.A" "USD bn" "light" None "yoy")
     = Replied 200 (figure_content fig))
  /\ ((14 <= List.length ["JP"; "US"])%nat ->
      bis_credit_chart (H := pandas2) true sample_upstream "WS_TC"
        "Q.US+JP.N.A.M.USD.A" "USD bn" "light" None "yoy"
      = Raise (IndexError "list index out of range")
      /\ serve_chart (bis_credit_chart (H := pandas2) true sample_upstream "WS_TC"
                        "Q.US+JP.N.A.M.USD.A" "USD bn" "light" None "yoy")
         = InternalServerError).
Proof.
  apply (chart_endpoint_answers_up_to_13_countries (H := pandas2) sample_upstream
           "WS_TC" "Q.US+JP.N.A.M.USD.A" "USD bn" "light" None "yoy"
           sample_document
           [mkObservation (Some "2020-Q1") (Some 52036.5%float) "US";
            mkObservation (Some "2020-Q2") (Some 54494.25%float) "US";
            mkObservation (Some "2020-Q2") (Some 18880.125%float) "JP";
            mkObservation (Some "2020-Q1") None "JP"]
           [mkRow q1_2020 52036.5%float "US"; mkRow q2_2020 54494.25%float "US";
            mkRow q2_2020 18880.125%float "JP"; mkRow q1_2020 nan "JP"]
           [mkRow q1_2020 52036.5%float "US"; mkRow q1_2020 nan "JP";
            mkRow q2_2020 54494.25%float "US"; mkRow q2_2020 18880.125%float "JP"]
           (mkPivotMatrix [q1_2020; q2_2020] ["JP"; "US"]
              [[nan; 52036.5%float]; [18880.125%float; 54494.25%float]]));
    try (vm_compute; reflexivity).
  discriminate.
Defined.

(** X19.  With a non-empty feed: a period label that the date conversion
    rejects fails the whole request with that exception (the client gets the
    bare 500), before the start date is looked at; and once the labels are
    converted, a non-empty start date that [pd.to_datetime] rejects is
    answered with 400 and the message "Invalid startdate: ...", in every
    mode and before any pivot. *)
Theorem chart_endpoint_date_errors `{Libraries} (plot_available : bool) (net : network)
    (resource_id key units theme mode : string) (startdate : option string)
    (xml : xml_text) (df : list Observation) :
  fetch_bis_data_simple net resource_id key = Ret xml ->
  parse_bis_xml xml = Ret df ->
  df <> [] ->
  (forall e,
     to_timestamps df = Raise e ->
     bis_credit_chart plot_available net resource_id key units theme startdate mode
     = Raise e)
  /\ (forall rows s e,
        to_timestamps df = Ret rows ->
        startdate = Some s -> s <> "" -> to_datetime s = Raise e ->
        bis_credit_chart plot_available net resource_id key units theme startdate mode
        = Ret (mkJSONResponse
                 (error_content ("Invalid startdate: " ++ str_exn e)) 400)).
Proof.
  intros Hfetch Hparse Hne.
  assert (Hhead : bis_credit_chart plot_available net resource_id key units theme
                    startdate mode
                  = (rows <- to_timestamps df ;;
                     match filter_startdate startdate (sort_values rows) with
                     | inr early => Ret early
                     | inl kept =>
                         df_pivot <- pivot_by_date kept ;;
                         let (df_pivot0, units0) := apply_mode mode units df_pivot in
                         if negb plot_available then
                           Ret (mkJSONResponse
                                  (error_content
                                     "plot_ts or plotly not available. Please install plot.py and plotly.")
                                  500)
                         else
                           fig <- plot_ts df_pivot0 "BIS Data" units0 "line"
                                    default_source theme default_margins ;;
                           Ret (mkJSONResponse (figure_content fig) 200)
                     end)).
  { unfold bis_credit_chart, parse_bis_xml_df. rewrite Hfetch. simpl.
    rewrite Hparse. simpl. destruct df; [contradiction | reflexivity]. }
  rewrite Hhead. split.
  - intros e ->. reflexivity.
  - intros rows s e -> -> Hs Hdate. simpl.
    unfold filter_startdate, truthy.
    apply String.eqb_neq in Hs. rewrite Hs. simpl. now rewrite Hdate.
Qed.

Lemma chart_endpoint_date_errors_witness :
  (forall e,
     to_timestamps (H := pandas2)
       [mkObservation (Some "2020-Q1") (Some 52036.5%float) "US";
        mkObservation (Some "2020-Q2") (Some 54494.25%float) "US";
        mkObservation (Some "2020-Q2") (Some 18880.125%float) "JP";
        mkObservation (Some "2020-Q1") None "JP"] = Raise e ->
     bis_credit_chart (H := pandas2) true sample_upstream "WS_TC"
       "Q.US+JP.N.A.M.USD.A" "USD bn" "light" (Some "yesterday") "total"
     = Raise e)
  /\ (forall rows s e,
        to_timestamps (H := pandas2)
          [mkObservation (Some "2020-Q1") (Some 52036.5%float) "US";
           mkObservation (Some "2020-Q2") (Some 54494.25%float) "US";
           mkObservation (Some "2020-Q2") (Some 18880.125%float) "JP";
           mkObservation (Some "2020-Q1") None "JP"] = Ret rows ->
        Some "yesterday" = Some s -> s <> "" ->
        to_datetime (Libraries := pandas2) s = Raise e ->
        bis_credit_chart (H := pandas2) true sample_upstream "WS_TC"
          "Q.US+JP.N.A.M.USD.A" "USD bn" "light" (Some "yesterday") "total"
        = Ret (mkJSONResponse
                 (error_content ("Invalid startdate: " ++ str_exn e)) 400)).
Proof.
  apply (chart_endpoint_date_errors (H := pandas2) true sample_upstream "WS_TC"
           "Q.US+JP.N.A.M.USD.A" "USD bn" "light" "total" (Some "yesterday")
           sample_document).
  - reflexivity.
  - vm_compute. reflexivity.
  - discriminate.
Defined.

Lemma to_timestamps_length `{Libraries} (df : list Observation) :
  forall rows, to_timestamps df = Ret rows -> List.length rows = List.length df.
Proof.
  induction df as [|o df IH]; intros rows Hts; simpl in Hts.
  - now inversion Hts.
  - destruct (Period_Q_to_timestamp (Date o)); simpl in Hts; [|discriminate].
    destruct (to_timestamps df) as [rest|]; simpl in Hts; [|discriminate].
    inversion Hts; subst. simpl. now rewrite (IH rest eq_refl).
Qed.

Lemma json_compliant_table (df : list Observation) :
  forallb (fun row => json_compliant (table_Value row)) (map table_row_of df)
  = forallb (fun o => json_compliant (Value o)) df.
Proof.
  induction df as [|o df IH]; simpl; [reflexivity|]. now rewrite IH.
Qed.

(** X20.  When two rows that reach the pivot share a (date, country) pair,
    as when the feed holds two series for one country, the chart endpoint
    fails in every mode: the [ValueError] of the pivot is not caught and the
    client gets the bare 500.  The handler of the table endpoint returns all
    the rows of the same feed, and the client receives them with status 200
    as long as every value is null or a finite number; a NaN or an infinite
    value, which the server's JSON encoder refuses, costs that answer too. *)
Theorem repeated_pair_breaks_chart_not_table `{Libraries} (plot_available : bool)
    (net : network) (resource_id key units theme mode : string)
    (startdate : option string) (xml : xml_text) (df : list Observation)
    (rows kept : list Row) :
  fetch_bis_data_simple net resource_id key = Ret xml ->
  parse_bis_xml xml = Ret df ->
  to_timestamps df = Ret rows ->
  filter_startdate startdate (sort_values rows) = inl kept ->
  duplicated_pair kept ->
  bis_credit_chart plot_available net resource_id key units theme startdate mode
  = Raise (ValueError "Index contains duplicate entries, cannot reshape")
  /\ serve_chart
       (bis_credit_chart plot_available net resource_id key units theme startdate mode)
     = InternalServerError
  /\ bis_credit_table net resource_id key = Ret (map table_row_of df)
  /\ serve_table (bis_credit_table net resource_id key)
     = if forallb (fun o => json_compliant (Value o)) df
       then Replied 200 (map table_row_of df)
       else InternalServerError.
Proof.
  intros Hfetch Hparse Hts Hfilter Hdup.
  assert (Hchart : bis_credit_chart plot_available net resource_id key units theme
                     startdate mode
                   = Raise (ValueError "Index contains duplicate entries, cannot reshape")).
  { unfold bis_credit_chart, parse_bis_xml_df. rewrite Hfetch. simpl.
    rewrite Hparse. simpl.
    destruct df as [|o df].
    - simpl in Hts. inversion Hts; subst rows. simpl in Hfilter.
      assert (Hk : kept = []).
      { unfold filter_startdate in Hfilter. destruct startdate as [s|].
        - destruct (truthy (Some s)); [|now inversion Hfilter].
          destruct (to_datetime s); simpl in Hfilter; now inversion Hfilter.
        - now inversion Hfilter. }
      subst kept. destruct Hdup as (i & j & r1 & r2 & _ & Hi & _).
      destruct i; discriminate.
    - simpl df_empty. cbv iota. rewrite Hts. simpl. rewrite Hfilter.
      apply has_duplicate_keys_iff in Hdup.
      unfold pivot_by_date, pivot. now rewrite Hdup. }
  rewrite Hchart. split; [reflexivity|]. split; [reflexivity|].
  assert (Htable : bis_credit_table net resource_id key = Ret (map table_row_of df)).
  { unfold bis_credit_table.
    rewrite (fetch_bis_data_of_simple_text _ _ _ _ Hfetch), Hparse. simpl.
    now rewrite table_loop_appends. }
  rewrite Htable. split; [reflexivity|].
  unfold serve_table. now rewrite json_compliant_table.
Qed.

Lemma repeated_pair_breaks_chart_not_table_witness :
  let net : network := fun _ => Ret (mkResponse 200 "OK" two_series_one_country) in
  bis_credit_chart (H := pandas2) true net "WS_TC" "Q.US.N+P.A.M.USD.A" "USD bn"
    "light" None "total"
  = Raise (ValueError "Index contains duplicate entries, cannot reshape")
  /\ serve_chart
       (bis_credit_chart (H := pandas2) true net "WS_TC" "Q.US.N+P.A.M.USD.A"
          "USD bn" "light" None "total")
     = InternalServerError
  /\ bis_credit_table (H := pandas2) net "WS_TC" "Q.US.N+P.A.M.USD.A"
     = Ret (map table_row_of
              [mkObservation (Some "2020-Q1") (Some 100%float) "US";
               mkObservation (Some "2020-Q1") (Some 60%float) "US"])
  /\ serve_table (bis_credit_table (H := pandas2) net "WS_TC" "Q.US.N+P.A.M.USD.A")
     = Replied 200
         (map table_row_of
            [mkObservation (Some "2020-Q1") (Some 100%float) "US";
             mkObservation (Some "2020-Q1") (Some 60%float) "US"]).
Proof.
  apply (repeated_pair_breaks_chart_not_table (H := pandas2) true
           (fun _ => Ret (mkResponse 200 "OK" two_series_one_country))
           "WS_TC" "Q.US.N+P.A.M.USD.A" "USD bn" "light" "total" None
           two_series_one_country
           [mkObservation (Some "2020-Q1") (Some 100%float) "US";
            mkObservation (Some "2020-Q1") (Some 60%float) "US"]
           [mkRow q1_2020 100%float "US"; mkRow q1_2020 60%float "US"]
           [mkRow q1_2020 100%float "US"; mkRow q1_2020 60%float "US"]);
    try (vm_compute; reflexivity).
  exists 0%nat, 1%nat, (mkRow q1_2020 100%float "US"), (mkRow q1_2020 60%float "US").
  repeat split. lia.
Defined.

Lemma apply_mode_other `{Libraries} (mode units : string) (m : PivotMatrix) :
  mode <> "yoy" -> mode <> "qoq" -> apply_mode mode units m = (m, units).
Proof.
  intros Hy Hq. unfold apply_mode.
  apply String.eqb_neq in Hy, Hq. now rewrite Hy, Hq.
Qed.

(** X21.  The mode is read only as "yoy", "qoq" or anything else: a mode
    that is neither of the two gives the response of mode "total", without
    any complaint.  And in the yoy and qoq modes the caller's units label has
    no effect on the response. *)
Theorem mode_and_units_read_permissively `{Libraries} (plot_available : bool)
    (net : network) (resource_id key units units' theme mode : string)
    (startdate : option string) :
  mode <> "yoy" -> mode <> "qoq" ->
  bis_credit_chart plot_available net resource_id key units theme startdate mode
  = bis_credit_chart plot_available net resource_id key units theme startdate "total"
  /\ bis_credit_chart plot_available net resource_id key units theme startdate "yoy"
     = bis_credit_chart plot_available net resource_id key units' theme startdate "yoy"
  /\ bis_credit_chart plot_available net resource_id key units theme startdate "qoq"
     = bis_credit_chart plot_available net resource_id key units' theme startdate "qoq".
Proof.
  intros Hy Hq. unfold bis_credit_chart.
  destruct (fetch_bis_data_simple net resource_id key) as [xml|]; simpl;
    [|repeat split].
  destruct (parse_bis_xml_df xml) as [df|]; simpl; [|repeat split].
  destruct (df_empty df); [repeat split|].
  destruct (to_timestamps df) as [rows|]; simpl; [|repeat split].
  destruct (filter_startdate startdate (sort_values rows)) as [kept|early];
    [|repeat split].
  destruct (pivot_by_date kept) as [m|]; simpl; [|repeat split].
  rewrite (apply_mode_other mode units m Hy Hq).
  repeat split.
Qed.

Lemma mode_and_units_read_permissively_witness :
  bis_credit_chart (H := pandas2) true sample_upstream "WS_TC" "Q.US+JP.N.A.M.USD.A"
    "USD bn" "light" None "monthly"
  = bis_credit_chart (H := pandas2) true sample_upstream "WS_TC" "Q.US+JP.N.A.M.USD.A"
      "USD bn" "light" None "total"
  /\ bis_credit_chart (H := pandas2) true sample_upstream "WS_TC" "Q.US+JP.N.A.M.USD.A"
       "USD bn" "light" None "yoy"
     = bis_credit_chart (H := pandas2) true sample_upstream "WS_TC"
         "Q.US+JP.N.A.M.USD.A" "EUR bn" "light" None "yoy"
  /\ bis_credit_chart (H := pandas2) true sample_upstream "WS_TC" "Q.US+JP.N.A.M.USD.A"
       "USD bn" "light" None "qoq"
     = bis_credit_chart (H := pandas2) true sample_upstream "WS_TC"
         "Q.US+JP.N.A.M.USD.A" "EUR bn" "light" None "qoq".
Proof.
  apply (mode_and_units_read_permissively (H := pandas2) true sample_upstream
           "WS_TC" "Q.US+JP.N.A.M.USD.A" "USD bn" "EUR bn" "light" "monthly" None);
    discriminate.
Defined.

(** X22.  In BIS.py, when the import of the plotting module failed, a request
    that gets as far as the pivot is answered 500 with the explicit
    "not available" message, in every mode: the availability is tested only
    after the pivot and the transform, so the empty-feed 404, the
    bad-start-date 400 and the pivot's own failure still come first. *)
Theorem chart_endpoint_without_plot_module `{Libraries} (net : network)
    (resource_id key units theme : string) (startdate : option string)
    (mode : string) (xml : xml_text) (df : list Observation)
    (rows kept : list Row) (m : PivotMatrix) :
  fetch_bis_data_simple net resource_id key = Ret xml ->
  parse_bis_xml xml = Ret df ->
  df <> [] ->
  to_timestamps df = Ret rows ->
  filter_startdate startdate (sort_values rows) = inl kept ->
  pivot_by_date kept = Ret m ->
  serve_chart (bis_credit_chart false net resource_id key units theme startdate mode)
  = Replied 500
      (error_content
         "plot_ts or plotly not available. Please install plot.py and plotly.").
Proof.
  intros Hfetch Hparse Hne Hts Hfilter Hpivot.
  now rewrite (bis_credit_chart_after_pivot false net resource_id key units theme
                 startdate mode xml df rows kept m Hfetch Hparse Hne Hts Hfilter Hpivot).
Qed.

Lemma chart_endpoint_without_plot_module_witness :
  serve_chart (bis_credit_chart (H := pandas2) false sample_upstream "WS_TC"
                 "Q.US+JP.N.A.M.USD.A" "USD bn" "light" None "qoq")
  = Replied 500
      (error_content
         "plot_ts or plotly not available. Please install plot.py and plotly.").
Proof.
  apply (chart_endpoint_without_plot_module (H := pandas2) sample_upstream
           "WS_TC" "Q.US+JP.N.A.M.USD.A" "USD bn" "light" None "qoq"
           sample_document
           [mkObservation (Some "2020-Q1") (Some 52036.5%float) "US";
            mkObservation (Some "2020-Q2") (Some 54494.25%float) "US";
            mkObservation (Some "2020-Q2") (Some 18880.125%float) "JP";
            mkObservation (Some "2020-Q1") None "JP"]
           [mkRow q1_2020 52036.5%float "US"; mkRow q2_2020 54494.25%float "US";
            mkRow q2_2020 18880.125%float "JP"; mkRow q1_2020 nan "JP"]
           [mkRow q1_2020 52036.5%float "US"; mkRow q1_2020 nan "JP";
            mkRow q2_2020 54494.25%float "US"; mkRow q2_2020 18880.125%float "JP"]
           (mkPivotMatrix [q1_2020; q2_2020] ["JP"; "US"]
              [[nan; 52036.5%float]; [18880.125%float; 54494.25%float]]));
    try (vm_compute; reflexivity).
  discriminate.
Defined.

(* ================================================================== *)
(** * Properties of the widget registry *)
(* ================================================================== *)

Lemma hashable_eqb_eq (a b : hashable) : hashable_eqb a b = true <-> a = b.
Proof.
  destruct a as [s|n], b as [t|m]; simpl; split; intros E; try discriminate.
  - apply String.eqb_eq in E. now subst.
  - inversion E. apply String.eqb_refl.
  - apply Z.eqb_eq in E. now subst.
  - inversion E. apply Z.eqb_refl.
Qed.

Section PyDictFacts.
Context {K V : Type} (eqb : K -> K -> bool).
Hypothesis eqb_eq : forall a b, eqb a b = true <-> a = b.

Lemma dict_get_set_same (k : K) (v : V) (d : list (K * V)) :
  dict_get eqb k (dict_set eqb k v d) = Some v.
Proof.
  induction d as [|[k' v'] d IH]; simpl.
  - now rewrite (proj2 (eqb_eq k k) eq_refl).
  - destruct (eqb k k') eqn:E; simpl; rewrite E; [reflexivity | exact IH].
Qed.

Lemma dict_get_set_other (k k' : K) (v : V) (d : list (K * V)) :
  k <> k' -> dict_get eqb k' (dict_set eqb k v d) = dict_get eqb k' d.
Proof.
  intros Hne. induction d as [|[k0 v0] d IH]; simpl.
  - destruct (eqb k' k) eqn:E; [|reflexivity].
    apply eqb_eq in E. congruence.
  - destruct (eqb k k0) eqn:E; simpl; [|now rewrite IH].
    apply eqb_eq in E. subst k0.
    destruct (eqb k' k) eqn:E'; [|reflexivity].
    apply eqb_eq in E'. congruence.
Qed.

Lemma dict_set_keys (k : K) (v : V) (d : list (K * V)) :
  map fst (dict_set eqb k v d)
  = if dict_contains eqb k d then map fst d else map fst d ++ [k].
Proof.
  unfold dict_contains. induction d as [|[k' v'] d IH]; simpl; [reflexivity|].
  destruct (eqb k k') eqn:E; simpl; [reflexivity|].
  rewrite IH. now destruct (dict_get eqb k d).
Qed.

Lemma dict_get_None_not_in (k : K) (d : list (K * V)) :
  dict_get eqb k d = None -> ~ In k (map fst d).
Proof.
  induction d as [|[k' v'] d IH]; simpl; [tauto|].
  destruct (eqb k k') eqn:E; [discriminate|].
  intros Hget [Hk|Hin]; [|now apply IH].
  subst k'. rewrite (proj2 (eqb_eq k k) eq_refl) in E. discriminate.
Qed.

Lemma dict_set_NoDup (k : K) (v : V) (d : list (K * V)) :
  NoDup (map fst d) -> NoDup (map fst (dict_set eqb k v d)).
Proof.
  intros Hnd. rewrite dict_set_keys. unfold dict_contains.
  destruct (dict_get eqb k d) eqn:Hget; [assumption|].
  apply NoDup_app; [assumption | repeat constructor; intros [] |].
  intros x Hx [<-|[]]. now apply (dict_get_None_not_in _ _ Hget).
Qed.

Lemma in_dict_set (k : K) (v : V) (d : list (K * V)) (k' : K) (v' : V) :
  In (k', v') (dict_set eqb k v d) -> (k' = k /\ v' = v) \/ In (k', v') d.
Proof.
  induction d as [|[k0 v0] d IH]; simpl.
  - intros [E|[]]. inversion E. auto.
  - destruct (eqb k k0) eqn:E; simpl.
    + apply eqb_eq in E. subst k0. intros [E'|Hin]; [inversion E'|]; auto.
    + intros [E'|Hin]; [auto|]. destruct (IH Hin); auto.
Qed.
End PyDictFacts.

(** X23.  A registration with a truthy ["endpoint"] stores the
    configuration under that endpoint: looking the endpoint up in the new
    registry gives the configuration, which now has an ["id"] (its own when
    it had one, the endpoint otherwise) and all its other keys unchanged;
    every other entry of the registry is untouched, and a second widget with
    the same endpoint replaces the first. *)
Theorem register_widget_stores_under_endpoint (widget_config : config)
    (WIDGETS : registry) (e : json) (k : hashable) :
  dict_get String.eqb "endpoint" widget_config = Some e ->
  json_truthy (Some e) = true ->
  hash_key e = Ret k ->
  exists c,
    register_widget widget_config WIDGETS
    = Ret (dict_set hashable_eqb k c WIDGETS, c)
    /\ dict_get hashable_eqb k (dict_set hashable_eqb k c WIDGETS) = Some c
    /\ dict_get String.eqb "id" c
       = match dict_get String.eqb "id" widget_config with
         | Some id => Some id
         | None => Some e
         end
    /\ (forall key, key <> "id" ->
          dict_get String.eqb key c = dict_get String.eqb key widget_config)
    /\ (forall k', k' <> k ->
          dict_get hashable_eqb k' (dict_set hashable_eqb k c WIDGETS)
          = dict_get hashable_eqb k' WIDGETS).
Proof.
  intros He Ht Hk. unfold register_widget. rewrite He, Ht, Hk. simpl.
  eexists. split; [reflexivity|].
  split; [apply (dict_get_set_same hashable_eqb hashable_eqb_eq)|].
  split; [|split].
  - unfold dict_contains.
    destruct (dict_get String.eqb "id" widget_config) as [id|] eqn:Hid; simpl.
    + exact Hid.
    + apply (dict_get_set_same String.eqb String.eqb_eq).
  - intros key Hkey. unfold dict_contains.
    destruct (dict_get String.eqb "id" widget_config); simpl; [reflexivity|].
    apply (dict_get_set_other String.eqb String.eqb_eq). congruence.
  - intros k' Hk'. apply (dict_get_set_other hashable_eqb hashable_eqb_eq).
    congruence.
Qed.

Lemma register_widget_stores_under_endpoint_witness :
  exists c,
    register_widget table_widget []
    = Ret (dict_set hashable_eqb (HStr "bis_credit_table") c [], c)
    /\ dict_get hashable_eqb (HStr "bis_credit_table")
         (dict_set hashable_eqb (HStr "bis_credit_table") c []) = Some c
    /\ dict_get String.eqb "id" c
       = match dict_get String.eqb "id" table_widget with
         | Some id => Some id
         | None => Some (JStr "bis_credit_table")
         end
    /\ (forall key, key <> "id" ->
          dict_get String.eqb key c = dict_get String.eqb key table_widget)
    /\ (forall k', k' <> HStr "bis_credit_table" ->
          dict_get hashable_eqb k'
            (dict_set hashable_eqb (HStr "bis_credit_table") c [])
          = dict_get hashable_eqb k' []).
Proof.
  apply (register_widget_stores_under_endpoint table_widget []
           (JStr "bis_credit_table") (HStr "bis_credit_table")); reflexivity.
Defined.

(** X24.  Configurations without an ["endpoint"], or with an empty one
    (an empty string, 0, an empty list or dict), are not registered: a run
    of registrations ends with the registry it would have without them, and
    such a configuration cannot make the run fail. *)
Theorem registrations_without_endpoint_leave_no_trace (configs : list config)
    (WIDGETS : registry) :
  register_all configs WIDGETS
  = register_all
      (filter (fun c => json_truthy (dict_get String.eqb "endpoint" c)) configs)
      WIDGETS.
Proof.
  revert WIDGETS.
  induction configs as [|c rest IH]; intros WIDGETS; [reflexivity|].
  cbn [filter].
  destruct (json_truthy (dict_get String.eqb "endpoint" c)) eqn:Ht.
  - cbn [register_all].
    destruct (register_widget c WIDGETS) as [[W' c']|x]; simpl; [apply IH | reflexivity].
  - cbn [register_all]. unfold register_widget at 1. rewrite Ht. simpl. apply IH.
Qed.

Lemma register_widget_keeps_invariants (widget_config : config)
    (WIDGETS W' : registry) (c' : config) :
  register_widget widget_config WIDGETS = Ret (W', c') ->
  NoDup (map fst WIDGETS) -> keyed_by_endpoint WIDGETS -> all_have_id WIDGETS ->
  NoDup (map fst W') /\ keyed_by_endpoint W' /\ all_have_id W'.
Proof.
  unfold register_widget.
  destruct (json_truthy (dict_get String.eqb "endpoint" widget_config)) eqn:Ht.
  2:{ intros E; inversion E; subst. auto. }
  destruct (dict_get String.eqb "endpoint" widget_config) as [e|] eqn:He.
  2:{ intros E; inversion E; subst. auto. }
  destruct (hash_key e) as [k|] eqn:Hk; simpl; [|discriminate].
  intros E; inversion E; subst W' c'; clear E.
  intros Hnd Hkeyed Hid.
  set (c := if negb (dict_contains String.eqb "id" widget_config)
            then dict_set String.eqb "id" e widget_config else widget_config).
  assert (Hce : dict_get String.eqb "endpoint" c = Some e).
  { unfold c. destruct (negb _); [|assumption].
    rewrite (dict_get_set_other String.eqb String.eqb_eq); [assumption | discriminate]. }
  assert (Hci : dict_contains String.eqb "id" c = true).
  { unfold c. destruct (dict_contains String.eqb "id" widget_config) eqn:Hhas; simpl.
    - assumption.
    - unfold dict_contains.
      now rewrite (dict_get_set_same String.eqb String.eqb_eq). }
  split; [now apply (dict_set_NoDup hashable_eqb hashable_eqb_eq)|].
  split; intros k' c' Hin;
    apply (in_dict_set hashable_eqb hashable_eqb_eq) in Hin as [[-> ->]|Hin]; eauto.
Qed.

(** X25.  However many widgets a module registers, in whatever order and
    with whatever endpoints repeated, the registry it ends with has one entry
    per endpoint, each stored under the hash of its own ["endpoint"] and
    carrying an ["id"]. *)
Theorem registry_is_keyed_by_endpoint_with_ids (configs : list config)
    (WIDGETS : registry) :
  register_all configs [] = Ret WIDGETS ->
  NoDup (map fst WIDGETS) /\ keyed_by_endpoint WIDGETS /\ all_have_id WIDGETS.
Proof.
  assert (Hgen : forall W0,
             NoDup (map fst W0) /\ keyed_by_endpoint W0 /\ all_have_id W0 ->
             register_all configs W0 = Ret WIDGETS ->
             NoDup (map fst WIDGETS) /\ keyed_by_endpoint WIDGETS /\ all_have_id WIDGETS).
  { induction configs as [|c rest IH]; intros W0 Hinv Hall; simpl in Hall.
    - inversion Hall; subst. exact Hinv.
    - destruct (register_widget c W0) as [[W1 c1]|] eqn:Hreg; simpl in Hall;
        [|discriminate].
      destruct Hinv as (Hnd & Hk & Hi).
      apply (IH W1); [|assumption].
      eapply register_widget_keeps_invariants; eassumption. }
  apply Hgen. split; [constructor|]. split; intros k c [].
Qed.

Lemma registry_is_keyed_by_endpoint_with_ids_witness :
  let W := [(HStr "bis_credit_table",
             table_widget ++ [("id", JStr "bis_credit_table")])] in
  NoDup (map fst W) /\ keyed_by_endpoint W /\ all_have_id W.
Proof.
  apply (registry_is_keyed_by_endpoint_with_ids [table_widget; table_widget]
           [(HStr "bis_credit_table",
             table_widget ++ [("id", JStr "bis_credit_table")])]).
  reflexivity.
Defined.

(** X26.  [get_widgets] of BIS.py always serves the chart widget under
    "bis_credit_chart", replacing whatever was registered there, and serves
    every other registered widget as registered, in the same order.  The
    served entries are still one per endpoint and keyed by their endpoint,
    but the chart widget, which never went through [register_widget], is the
    one entry without an ["id"]. *)
Theorem get_widgets_adds_the_chart_widget (WIDGETS : registry) :
  NoDup (map fst WIDGETS) -> keyed_by_endpoint WIDGETS ->
  dict_get hashable_eqb (HStr "bis_credit_chart") (get_widgets WIDGETS)
  = Some chart_widget
  /\ (forall k, k <> HStr "bis_credit_chart" ->
        dict_get hashable_eqb k (get_widgets WIDGETS) = dict_get hashable_eqb k WIDGETS)
  /\ NoDup (map fst (get_widgets WIDGETS))
  /\ keyed_by_endpoint (get_widgets WIDGETS)
  /\ dict_contains String.eqb "id" chart_widget = false
  /\ map fst (get_widgets WIDGETS)
     = (if dict_contains hashable_eqb (HStr "bis_credit_chart") WIDGETS
        then map fst WIDGETS
        else map fst WIDGETS ++ [HStr "bis_credit_chart"]).
Proof.
  intros Hnd Hkeyed. unfold get_widgets.
  split; [apply (dict_get_set_same hashable_eqb hashable_eqb_eq)|].
  split.
  { intros k Hk. apply (dict_get_set_other hashable_eqb hashable_eqb_eq). congruence. }
  split; [now apply (dict_set_NoDup hashable_eqb hashable_eqb_eq)|].
  split.
  { intros k c Hin.
    apply (in_dict_set hashable_eqb hashable_eqb_eq) in Hin as [[-> ->]|Hin].
    - exists (JStr "bis_credit_chart"). split; reflexivity.
    - now apply Hkeyed. }
  split; [reflexivity|].
  apply dict_set_keys.
Qed.

Lemma get_widgets_adds_the_chart_widget_witness :
  let W := [(HStr "bis_credit_table",
             table_widget ++ [("id", JStr "bis_credit_table")])] in
  dict_get hashable_eqb (HStr "bis_credit_chart") (get_widgets W) = Some chart_widget
  /\ (forall k, k <> HStr "bis_credit_chart" ->
        dict_get hashable_eqb k (get_widgets W) = dict_get hashable_eqb k W)
  /\ NoDup (map fst (get_widgets W))
  /\ keyed_by_endpoint (get_widgets W)
  /\ dict_contains String.eqb "id" chart_widget = false
  /\ map fst (get_widgets W)
     = (if dict_contains hashable_eqb (HStr "bis_credit_chart") W
        then map fst W
        else map fst W ++ [HStr "bis_credit_chart"]).
Proof.
  apply (get_widgets_adds_the_chart_widget
           [(HStr "bis_credit_table",
             table_widget ++ [("id", JStr "bis_credit_table")])]).
  - repeat constructor. intros [].
  - intros k c [E|[]]. inversion E; subst.
    exists (JStr "bis_credit_table"). split; reflexivity.
Defined.

(** The registry of BIS.py and main.py once the module is loaded, and what
    [/widgets.json] of BIS.py then lists. *)
Example widgets_of_BIS :
  register_all [table_widget] []
  = Ret [(HStr "bis_credit_table", table_widget ++ [("id", JStr "bis_credit_table")])]
  /\ map fst (get_widgets
                [(HStr "bis_credit_table",
                  table_widget ++ [("id", JStr "bis_credit_table")])])
     = [HStr "bis_credit_table"; HStr "bis_credit_chart"].
Proof. split; reflexivity. Qed.

(* ================================================================== *)
(** * The library corner cases on concrete inputs *)
(* ================================================================== *)

(** A value in the decimal digits of another script is a number for
    [float]. *)
Example parse_of_arabic_indic_digits :
  parse_bis_xml (H := pandas2) arabic_indic_valued
  = Ret [mkObservation (Some "2020-Q1") (Some 123%float) "EG"].
Proof. vm_compute. reflexivity. Qed.

(** The value [NaN] parses, reaches the table, and is refused by the JSON
    encoder of the server; the chart endpoint draws it as a gap. *)
Example table_of_nan_valued_feed :
  let net : network := fun _ => Ret (mkResponse 200 "OK" nan_valued) in
  bis_credit_table (H := pandas2) net "WS_TC" "Q.US.N.A.M.USD.A"
  = Ret [mkTableRow (Some "2020-Q1") "US" (Some nan)]
  /\ serve_table (bis_credit_table (H := pandas2) net "WS_TC" "Q.US.N.A.M.USD.A")
     = InternalServerError
  /\ exists fig,
       serve_chart (bis_credit_chart (H := pandas2) true net "WS_TC" "Q.US.N.A.M.USD.A"
                      "USD bn" "light" None "total")
       = Replied 200 (figure_content fig).
Proof.
  repeat split. eexists. vm_compute. reflexivity.
Qed.

(** The line fit fails on an infinite value, and the regression chart with
    it. *)
Example regression_of_infinite_value :
  plot_ts (H := pandas2) infinite_abscissa "BIS Data" "USD bn" "regression"
    default_source "light" default_margins
  = Raise (LinAlgError "SVD did not converge in Linear Least Squares").
Proof. vm_compute. reflexivity. Qed.
